(** * scripts/package.py: the build-compare-publish protocol of the TA-Lib
    release packaging script, embedded in Rocq.

    The script is modelled by explicit state passing over a small picture of
    the machine it runs on: a flat file store keyed by path, the set of
    directories, the working directory, a clock for modification times and
    the lines printed so far.  [sys.exit] and uncaught exceptions are
    outcomes of a computation next to normal return.  External tools and the
    helpers imported from [utilities.*] (which are not part of the file) are
    the operations of a [Host]. *)

From Stdlib Require Import ZArith String Ascii List Bool Lia DecimalString.
From stdpp Require Import gmap strings list fin_maps.

Open Scope string_scope.

(** ** Python strings *)

(** [sub in s] *)
Fixpoint contains (sub s : string) : bool :=
  String.prefix sub s ||
  match s with
  | EmptyString => false
  | String _ s' => contains sub s'
  end.

(** [s.endswith(suf)] *)
Fixpoint endswith (s suf : string) : bool :=
  String.eqb suf s ||
  match s with
  | EmptyString => false
  | String _ s' => endswith s' suf
  end.

(** [s.startswith(pre)] *)
Definition startswith (s pre : string) : bool := String.prefix pre s.

(** ** Paths *)

(** [os.path.join(a, b)] of posixpath. *)
Definition os_path_join (a b : string) : string :=
  if startswith b "/" then b
  else if String.eqb a EmptyString || endswith a "/" then a +:+ b
  else a +:+ "/" +:+ b.

(** What [os.path.join] puts in front of a relative name joined to [root]. *)
Definition slashed (root : string) : string :=
  if String.eqb root EmptyString || endswith root "/" then root else root +:+ "/".

(** Modelled from the spec: [utilities.files.path_join] is imported by the
    script but is not part of it; it joins a directory and a name with the
    path separator, as [os.path.join] does. *)
Definition path_join (a b : string) : string := os_path_join a b.

(** [os.path.basename(p)]: what follows the last separator. *)
Fixpoint os_path_basename (p : string) : string :=
  match p with
  | EmptyString => EmptyString
  | String _ p' => if contains "/" p then os_path_basename p' else p
  end.

(** The part of a glob pattern before its last separator (the directory the
    pattern lists); empty when the pattern has no separator. *)
Fixpoint pattern_dir (p : string) : string :=
  match p with
  | EmptyString => EmptyString
  | String c p' => if contains "/" p' then String c (pattern_dir p') else EmptyString
  end.

(** [fnmatch.fnmatchcase(name, pat)] for patterns made of literal
    characters, [?] and [*]; these are the only patterns the script builds. *)
Fixpoint fnmatch (pat name : string) : bool :=
  match pat with
  | EmptyString => String.eqb name EmptyString
  | String "*" pat' =>
      (fix star (n : string) : bool :=
         fnmatch pat' n ||
         match n with
         | EmptyString => false
         | String _ n' => star n'
         end) name
  | String c pat' =>
      match name with
      | EmptyString => false
      | String d name' => (Ascii.eqb c "?" || Ascii.eqb c d) && fnmatch pat' name'
      end
  end.

(** [glob.has_magic(s)]: [s] holds one of the characters [*], [?] and [[]
    that make [glob.glob] expand a component of a pattern. *)
Fixpoint has_magic (s : string) : bool :=
  match s with
  | EmptyString => false
  | String c s' =>
      Ascii.eqb c "*" || Ascii.eqb c "?" || Ascii.eqb c "[" || has_magic s'
  end.

(** One path against one pattern, as [glob.glob] decides it: the path lies
    directly in the pattern's directory, its name matches the last component
    of the pattern, and a name starting with a dot is only matched by a
    pattern that starts with a dot.  This is [glob.glob] for the patterns
    whose directory part is literal ([has_magic] is false of it) and whose
    last component has no bracket expression; [glob.glob] expands the
    magic characters of a directory as well, and then lists other
    directories than the one named.  The statements below that name what a
    pattern matches ask for a directory without magic characters. *)
Definition glob_match (pattern path : string) : bool :=
  let d := pattern_dir pattern in
  let base := os_path_basename pattern in
  let name := os_path_basename path in
  String.eqb path (if contains "/" pattern then d +:+ "/" +:+ name else name)
  && negb (String.eqb name EmptyString)
  && fnmatch base name
  && (negb (startswith name ".") || startswith base ".").

(** ** The machine *)

Record file := File { data : list Byte.byte; mtime : Z }.

Record world := World {
  files : gmap string file;   (* regular files, by path *)
  dirs : gset string;         (* directories *)
  cwd : string;               (* os.getcwd() *)
  clock : Z;                  (* time stamp of the next write *)
  stdout : list string        (* lines printed, oldest first *)
}.

Definition set_files (f : gmap string file → gmap string file) (w : world) : world :=
  World (f (files w)) (dirs w) (cwd w) (clock w) (stdout w).
Definition set_dirs (f : gset string → gset string) (w : world) : world :=
  World (files w) (f (dirs w)) (cwd w) (clock w) (stdout w).
Definition set_cwd (d : string) (w : world) : world :=
  World (files w) (dirs w) d (clock w) (stdout w).
Definition tick (w : world) : world :=
  World (files w) (dirs w) (cwd w) (clock w + 1) (stdout w).
Definition emit (line : string) (w : world) : world :=
  World (files w) (dirs w) (cwd w) (clock w) (stdout w ++ [line]).

(** Python exceptions the script can meet. *)
Inductive exn :=
  | TypeError | KeyError | FileNotFoundError | FileExistsError
  | IsADirectoryError | PermissionError | SameFileError
  | CalledProcessError (msg : string).   (* msg is str(e) *)

Global Instance exn_eq_dec : EqDecision exn.
Proof. solve_decision. Defined.

(** How a computation ends: a value, [sys.exit(code)], or an exception. *)
Inductive outcome (A : Type) :=
  | Ok (a : A)
  | Exit (code : Z)
  | Raised (e : exn).
Arguments Ok {A} a.
Arguments Exit {A} code.
Arguments Raised {A} e.

Definition M (A : Type) : Type := world → world * outcome A.

Definition ret {A} (a : A) : M A := fun w => (w, Ok a).

Definition bind {A B} (m : M A) (k : A → M B) : M B := fun w =>
  match m w with
  | (w', Ok a) => k a w'
  | (w', Exit c) => (w', Exit c)
  | (w', Raised e) => (w', Raised e)
  end.

Definition raise {A} (e : exn) : M A := fun w => (w, Raised e).
Definition sys_exit {A} (code : Z) : M A := fun w => (w, Exit code).
Definition print (line : string) : M unit := fun w => (emit line w, Ok tt).

Declare Scope py_scope.
Delimit Scope py_scope with py.
Notation "x <- m ;; k" := (bind m (fun x => k))
  (at level 100, m at next level, right associativity) : py_scope.
Notation "m ;;; k" := (bind m (fun _ => k))
  (at level 100, right associativity) : py_scope.
Open Scope py_scope.

(** [try: body except subprocess.CalledProcessError as e: handler e]; any
    other exception passes through. *)
Definition try_except {A} (body : M A) (handler : string → M A) : M A := fun w =>
  match body w with
  | (w', Raised (CalledProcessError msg)) => handler msg w'
  | r => r
  end.

(** [try: body finally: fin]: [fin] runs however [body] ends. *)
Definition try_finally {A} (body : M A) (fin : M unit) : M A := fun w =>
  match body w with
  | (w', r) =>
      match fin w' with
      | (w'', Ok _) => (w'', r)
      | (w'', Exit c) => (w'', Exit c)
      | (w'', Raised e) => (w'', Raised e)
      end
  end.

(** [for x in l: body x] *)
Fixpoint for_each {A} (l : list A) (body : A → M unit) : M unit :=
  match l with
  | [] => ret tt
  | x :: l' => body x ;;; for_each l' body
  end.

(** ** File system primitives *)

Definition is_file (w : world) (p : string) : bool := bool_decide (is_Some (files w !! p)).
Definition is_dir (w : world) (p : string) : bool := bool_decide (p ∈ dirs w).

Definition os_path_exists (p : string) : M bool := fun w => (w, Ok (is_file w p || is_dir w p)).
Definition os_path_isfile (p : string) : M bool := fun w => (w, Ok (is_file w p)).
Definition os_getcwd : M string := fun w => (w, Ok (cwd w)).

(** [os.chdir(d)] into a directory that exists; [os.chdir] raises
    FileNotFoundError otherwise.  The script changes into the repository
    that [verify_git_repo] found, into directories it has just created, and
    back into the directory it came from; where a statement below leaves the
    directory open, it asks for the directory to exist. *)
Definition os_chdir (d : string) : M unit := fun w => (set_cwd d w, Ok tt).

(** [os.makedirs(p, exist_ok=...)]; only the leaf is recorded. *)
Definition os_makedirs (p : string) (exist_ok : bool) : M unit := fun w =>
  if is_file w p then (w, Raised FileExistsError)
  else if is_dir w p then (if exist_ok then (w, Ok tt) else (w, Raised FileExistsError))
  else (set_dirs (fun d => {[p]} ∪ d) w, Ok tt).

(** [os.remove(p)] *)
Definition os_remove (p : string) : M unit := fun w =>
  if is_file w p then (set_files (delete p) w, Ok tt)
  else if is_dir w p then (w, Raised IsADirectoryError)
  else (w, Raised FileNotFoundError).

(** Every path of the store, files and directories. *)
Definition all_paths (w : world) : list string :=
  elements (dom (files w) ∪ dirs w).

(** [glob.glob(pattern)] *)
Definition glob_glob (pattern : string) : M (list string) := fun w =>
  (w, Ok (List.filter (glob_match pattern) (all_paths w))).

(** [p] is [target] or lies below it. *)
Definition below (target p : string) : bool :=
  String.eqb target p || String.prefix (target +:+ "/") p.

(** Modelled from the spec: [utilities.files.force_delete] is not part of
    the script; the spec lists recursive delete among the file system
    primitives.  It removes the path and everything below it and is silent
    when the path does not exist. *)
Definition force_delete (p : string) : M unit := fun w =>
  (set_dirs (filter (fun q => below p q = false))
     (set_files (filter (fun kv => below p (fst kv) = false)) w), Ok tt).

(** Modelled from the spec: [utilities.files.force_delete_glob] is not part
    of the script; it force-deletes whatever the pattern matches in the
    directory. *)
Definition force_delete_glob (dir pattern : string) : M unit :=
  l <- glob_glob (path_join dir pattern) ;;
  for_each l force_delete.

(** ** Python dictionaries of results *)

Inductive pyval :=
  | PBool (b : bool)
  | PStr (s : string).

Abbreviation dict := (gmap string pyval).

(** Truth value of an object in a condition. *)
Definition truthy (v : pyval) : bool :=
  match v with
  | PBool b => b
  | PStr s => negb (String.eqb s EmptyString)
  end.

(** [str(v)], as an f-string renders it. *)
Definition py_str (v : pyval) : string :=
  match v with
  | PBool true => "True"
  | PBool false => "False"
  | PStr s => s
  end.

(** [d.get(k, dflt)] *)
Definition dict_get (d : dict) (k : string) (dflt : pyval) : pyval :=
  default dflt (d !! k).

(** [d[k]] *)
Definition dict_item (d : dict) (k : string) : M pyval :=
  match d !! k with
  | Some v => ret v
  | None => raise KeyError
  end.

(** [d.update(r)]; [r] is [None] when the callee returned nothing, and
    [dict.update(None)] raises TypeError. *)
Definition dict_update (d : dict) (r : option dict) : M dict :=
  match r with
  | Some r => ret (r ∪ d)
  | None => raise TypeError
  end.

(** ** The host: platform probes, external tools and imported helpers *)

Class Host := {
  sys_platform : string;                    (* sys.platform *)
  platform_architecture : string;           (* platform.architecture()[0] *)
  is_cmake_installed : bool;
  is_debian_based : bool;
  is_dotnet_installed : bool;
  is_redhat_based : bool;
  is_rpmbuild_installed : bool;
  is_ubuntu : bool;
  is_wix_installed : bool;
  (* subprocess.run(argv, check=True): raises CalledProcessError when the
     command exits with a non-zero status *)
  subprocess_run : list string → M unit;
  (* os.system(command); the script ignores its status *)
  os_system : string → M unit;
  (* utilities.files *)
  create_zip_file : string → string → M unit;
  create_rtf_from_txt : string → string → M unit;
  compare_zip_files : list Byte.byte → list Byte.byte → bool;
  compare_msi_files : list Byte.byte → list Byte.byte → bool;
  compare_deb_files : list Byte.byte → list Byte.byte → bool;
  compare_tar_gz_files : list Byte.byte → list Byte.byte → bool;
  (* utilities.common *)
  verify_git_repo : M string;
  create_temp_dir : string → M string;
  are_generated_files_git_changed : string → M bool;
  copy_file_list : string → string → list string → M unit;
  get_src_generated_files : M (list string);
  compare_dir : string → string → M bool;
  run_command_sudo : list string → string → M unit;
  (* utilities.versions *)
  sync_versions : string → M string
}.

(** ** The file system calls of a replace step *)

(** The replace steps of the script are written against the calls they
    make, so that one text can be run in two ways: on the machine ([M],
    where a call has happened or has not), and with a record of every state
    the file store passes through on the way, which is where an
    interruption can leave it. *)
Class Calls (m : Type → Type) := {
  fs_ret : ∀ {A}, A → m A;
  fs_bind : ∀ {A B}, m A → (A → m B) → m B;
  fs_makedirs : string → bool → m unit;   (* os.makedirs(p, exist_ok=...) *)
  fs_exists : string → m bool;            (* os.path.exists(p) *)
  fs_remove : string → m unit;            (* os.remove(p) *)
  fs_rename : string → string → m unit;   (* os.rename(src, dst) *)
  fs_copy : string → string → m unit      (* shutil.copy(src, dst) *)
}.

Declare Scope calls_scope.
Delimit Scope calls_scope with calls.
Notation "x <- m ;; k" := (fs_bind m (fun x => k))
  (at level 100, m at next level, right associativity) : calls_scope.
Notation "m ;;; k" := (fs_bind m (fun _ => k))
  (at level 100, right associativity) : calls_scope.

(** ** The script *)

Section Script.
Context {host : Host}.

(** [str(n)] for a length. *)
Definition str_of_nat (n : nat) : string := NilZero.string_of_uint (Nat.to_uint n).

Definition nl : string := String "010" EmptyString.


(** [shlex.split(options)] for [unquoted] option strings: the words between
    blanks. *)
Fixpoint shlex_split_from (cur s : string) : list string :=
  match s with
  | EmptyString => if String.eqb cur EmptyString then [] else [cur]
  | String c s' =>
      if Ascii.eqb c " " then
        (if String.eqb cur EmptyString then shlex_split_from EmptyString s'
         else cur :: shlex_split_from EmptyString s')
      else shlex_split_from (cur +:+ String c EmptyString) s'
  end.
Definition shlex_split (s : string) : list string := shlex_split_from EmptyString s.

(** [os.rename(src, dst)] of a regular file.  On POSIX an existing [dst] is
    replaced in one step; on Windows the call fails when [dst] exists. *)
Definition os_rename (src dst : string) : M unit := fun w =>
  match files w !! src with
  | None => (w, Raised FileNotFoundError)
  | Some f =>
      if is_dir w dst then (w, Raised IsADirectoryError)
      else if String.eqb sys_platform "win32" && is_file w dst
      then (w, Raised FileExistsError)
      else (set_files (fun m => <[dst := f]> (delete src m)) w, Ok tt)
  end.

(** [open(p, 'wb')]: the file exists and is empty from here on. *)
Definition open_wb (p : string) : M unit := fun w =>
  (tick (set_files (insert p (File [] (clock w))) w), Ok tt).

(** Writing [bytes] to the file opened at [p] and closing it. *)
Definition write_all (p : string) (bytes : list Byte.byte) : M unit := fun w =>
  (tick (set_files (insert p (File bytes (clock w))) w), Ok tt).

(** A relative name, as the operating system resolves it.  Paths built
    from [root_dir] denote themselves ([verify_git_repo] hands out the
    absolute path of the repository); the few relative names of the script
    are resolved where they occur. *)
Definition in_cwd (name : string) : M string := fun w =>
  (w, Ok (os_path_join (cwd w) name)).

(** [shutil.copy(src, dst)]: [dst] may be a directory; the target is opened
    for writing and then filled, it does not keep the source's time stamp.
    A source that is a directory cannot be opened for reading:
    IsADirectoryError, and PermissionError on Windows. *)
Definition shutil_copy (src dst : string) : M unit := fun w =>
  let target := if is_dir w dst then os_path_join dst (os_path_basename src) else dst in
  match files w !! src with
  | None =>
      if is_dir w src then
        (w, Raised (if String.eqb sys_platform "win32" then PermissionError
                    else IsADirectoryError))
      else (w, Raised FileNotFoundError)
  | Some f =>
      if String.eqb src target then (w, Raised SameFileError)
      else (open_wb target ;;; write_all target (data f)) w
  end.

(** The comparison helpers take two paths and read both files. *)
Definition compare_paths (cmp : list Byte.byte → list Byte.byte → bool)
    (a b : string) : M bool := fun w =>
  match files w !! a, files w !! b with
  | Some x, Some y => (w, Ok (cmp (data x) (data y)))
  | _, _ => (w, Raised FileNotFoundError)
  end.

(** The calls as the machine performs them. *)
#[global] Instance machine : Calls M := {|
  fs_ret := @ret;
  fs_bind := @bind;
  fs_makedirs := os_makedirs;
  fs_exists := os_path_exists;
  fs_remove := os_remove;
  fs_rename := os_rename;
  fs_copy := shutil_copy
|}.

Definition delete_other_versions (target_dir file_pattern new_version : string) : M unit :=
  let glob_all_packages := path_join target_dir file_pattern in
  l <- glob_glob glob_all_packages ;;
  for_each l (fun file =>
    if negb (contains new_version file) then force_delete file else ret tt).

Definition do_cmake_reconfigure (root_dir options sudo_pwd : string) : M string :=
  let build_dir := path_join root_dir "build" in
  e <- os_path_exists build_dir ;;
  (if e then force_delete build_dir else ret tt) ;;;
  if negb is_cmake_installed then
    print "Error: CMake not found. You need to install it and be accessible with PATH." ;;;
    sys_exit 1
  else
  let cmake_lists := path_join root_dir "CMakeLists.txt" in
  isf <- os_path_isfile cmake_lists ;;
  if negb isf then
    print ("Error: " +:+ cmake_lists +:+
           " not found. Your working directory must be within a cloned TA-Lib repos") ;;;
    sys_exit 1
  else
  original_dir <- os_getcwd ;;
  try_finally
    (try_except
       (os_makedirs build_dir false ;;;
        os_chdir build_dir ;;;
        let cmake_command := (["cmake"] ++ shlex_split options ++ [".."])%list in
        let formatted_command :=
          String.concat " " (map (fun elem => "[" +:+ elem +:+ "]") cmake_command) in
        print ("CMake command: " +:+ formatted_command) ;;;
        subprocess_run cmake_command)
       (fun e =>
          print ("Error: Running CMake configuration " +:+ options +:+ ": " +:+ e) ;;;
          sys_exit 1))
    (os_chdir original_dir) ;;;
  ret build_dir.

Definition do_cmake_build (build_dir : string) : M unit :=
  original_dir <- os_getcwd ;;
  try_finally
    (try_except
       (os_chdir build_dir ;;; subprocess_run ["cmake"; "--build"; "."])
       (fun e => print ("Error running cmake build: " +:+ e) ;;; sys_exit 1))
    (os_chdir original_dir).

Definition do_cpack_build (build_dir : string) : M unit :=
  original_dir <- os_getcwd ;;
  try_finally
    (try_except
       (os_chdir build_dir ;;; subprocess_run ["cpack"; "."])
       (fun e => print ("Error running CPack: " +:+ e) ;;; sys_exit 1))
    (os_chdir original_dir).

Definition find_asset_with_ext (target_dir version extension : string) : M string :=
  let glob_deb := path_join target_dir ("*." +:+ extension) in
  found <- glob_glob glob_deb ;;
  match found with
  | [filepath] =>
      (* Check that the single file has the version as substring *)
      if negb (contains version filepath) then
        print ("Error: Expected version " +:+ version +:+ " not found in " +:+ filepath) ;;;
        sys_exit 1
      else ret (os_path_basename filepath)
  | _ =>
      print ("Error: Expected one ." +:+ extension +:+ " file, found " +:+
             str_of_nat (length found)) ;;;
      sys_exit 1
  end.

(** *** Windows: the zip archive *)

(** Lines 148-189 of [package_windows_zip]: clean-up, build and staging of
    the package directory.  [Some r] means the function returned [r]. *)
Definition package_windows_zip_stage (root_dir version : string) (result : dict)
    : M (option dict) :=
  (* Clean-up *)
  let dist_dir := path_join root_dir "dist" in
  delete_other_versions dist_dir "ta-lib-*.zip" version ;;;
  let temp_dir := path_join root_dir "temp" in
  delete_other_versions temp_dir "ta-lib-*.zip" version ;;;
  force_delete_glob temp_dir "ta-lib-*" ;;;
  (* Build the libraries *)
  build_dir <- do_cmake_reconfigure root_dir "-G Ninja -DBUILD_DEV_TOOLS=OFF" EmptyString ;;
  do_cmake_build build_dir ;;;
  let package_temp_dir := path_join temp_dir ("ta-lib-" +:+ version +:+ "-win64") in
  let temp_lib_dir := path_join package_temp_dir "lib" in
  let temp_include_dir := path_join package_temp_dir "include" in
  os_makedirs temp_dir true ;;;
  os_makedirs package_temp_dir true ;;;
  os_makedirs temp_lib_dir true ;;;
  os_makedirs temp_include_dir true ;;;
  (* Copy the built files to the temporary package locations. *)
  original_dir <- os_getcwd ;;
  let include_rootdir := path_join root_dir "include" in
  try_finally
    (try_except
       (os_chdir build_dir ;;;
        dll <- in_cwd "ta-lib.dll" ;; shutil_copy dll temp_lib_dir ;;;
        lib <- in_cwd "ta-lib.lib" ;; shutil_copy lib temp_lib_dir ;;;
        static <- in_cwd "ta-lib-static.lib" ;; shutil_copy static temp_lib_dir ;;;
        headers <- glob_glob (path_join include_rootdir "*.h") ;;
        for_each headers (fun header => shutil_copy header temp_include_dir) ;;;
        let version_txt := path_join package_temp_dir "VERSION.txt" in
        open_wb version_txt ;;;
        write_all version_txt (list_byte_of_string version) ;;;
        ret None)
       (fun e => print ("Error copying files: " +:+ e) ;;; ret (Some result)))
    (os_chdir original_dir).

(** Lines 207-208: how the published zip is replaced. *)
Definition package_windows_zip_replace {m} {calls : Calls m}
    (dist_dir dist_file package_temp_file : string) : m unit :=
  (fs_makedirs dist_dir true ;;;
   fs_copy package_temp_file dist_file)%calls.

(** Lines 201-214: copy the zip into dist, but only if its content differs. *)
Definition package_windows_zip_publish (root_dir asset_file_name package_temp_file : string)
    (result : dict) : M dict :=
  let dist_dir := path_join root_dir "dist" in
  os_makedirs dist_dir true ;;;
  let dist_file := path_join dist_dir asset_file_name in
  package_existed <- os_path_exists dist_file ;;
  differs <- (if negb package_existed then ret true
              else same <- compare_paths compare_zip_files package_temp_file dist_file ;;
                   ret (negb same)) ;;
  package_copied <- (if differs then
                       package_windows_zip_replace dist_dir dist_file package_temp_file ;;;
                       ret true
                     else ret false) ;;
  ret (<["copied" := PBool package_copied]>
       (<["existed" := PBool package_existed]>
        (<["success" := PBool true]> result))).

(** [None] is Python's [None]: the bare [return] after a failed
    [create_zip_file]. *)
Definition package_windows_zip (root_dir version : string) : M (option dict) :=
  let result : dict := {["success" := PBool false]} in
  let asset_file_name := "ta-lib-" +:+ version +:+ "-win64.zip" in
  let result := <["asset_file_name" := PStr asset_file_name]> result in
  early <- package_windows_zip_stage root_dir version result ;;
  match early with
  | Some r => ret (Some r)
  | None =>
      let temp_dir := path_join root_dir "temp" in
      let package_temp_dir := path_join temp_dir ("ta-lib-" +:+ version +:+ "-win64") in
      (* Compress the package (.zip) *)
      let package_temp_file := path_join temp_dir asset_file_name in
      created <- try_except
                   (create_zip_file package_temp_dir package_temp_file ;;; ret true)
                   (fun e => print ("Error creating zip file: " +:+ e) ;;; ret false) ;;
      if negb created then ret None
      else
        r <- package_windows_zip_publish root_dir asset_file_name package_temp_file result ;;
        ret (Some r)
  end.

(** Lines 148-169 of [package_windows_zip]: clean-up, build of the
    libraries and creation of the package directories; hands on the build
    directory. *)
Definition package_windows_zip_prepare (root_dir version : string) : M string :=
  (* Clean-up *)
  let dist_dir := path_join root_dir "dist" in
  delete_other_versions dist_dir "ta-lib-*.zip" version ;;;
  let temp_dir := path_join root_dir "temp" in
  delete_other_versions temp_dir "ta-lib-*.zip" version ;;;
  force_delete_glob temp_dir "ta-lib-*" ;;;
  (* Build the libraries *)
  build_dir <- do_cmake_reconfigure root_dir "-G Ninja -DBUILD_DEV_TOOLS=OFF" EmptyString ;;
  do_cmake_build build_dir ;;;
  let package_temp_dir := path_join temp_dir ("ta-lib-" +:+ version +:+ "-win64") in
  let temp_lib_dir := path_join package_temp_dir "lib" in
  let temp_include_dir := path_join package_temp_dir "include" in
  os_makedirs temp_dir true ;;;
  os_makedirs package_temp_dir true ;;;
  os_makedirs temp_lib_dir true ;;;
  os_makedirs temp_include_dir true ;;;
  ret build_dir.

(** Lines 171-189 of [package_windows_zip]: the built files are copied to
    the package directories.  [Some r] means the function returned [r]. *)
Definition package_windows_zip_copy (root_dir version build_dir : string) (result : dict)
    : M (option dict) :=
  let temp_dir := path_join root_dir "temp" in
  let package_temp_dir := path_join temp_dir ("ta-lib-" +:+ version +:+ "-win64") in
  let temp_lib_dir := path_join package_temp_dir "lib" in
  let temp_include_dir := path_join package_temp_dir "include" in
  original_dir <- os_getcwd ;;
  let include_rootdir := path_join root_dir "include" in
  try_finally
    (try_except
       (os_chdir build_dir ;;;
        dll <- in_cwd "ta-lib.dll" ;; shutil_copy dll temp_lib_dir ;;;
        lib <- in_cwd "ta-lib.lib" ;; shutil_copy lib temp_lib_dir ;;;
        static <- in_cwd "ta-lib-static.lib" ;; shutil_copy static temp_lib_dir ;;;
        headers <- glob_glob (path_join include_rootdir "*.h") ;;
        for_each headers (fun header => shutil_copy header temp_include_dir) ;;;
        let version_txt := path_join package_temp_dir "VERSION.txt" in
        open_wb version_txt ;;;
        write_all version_txt (list_byte_of_string version) ;;;
        ret None)
       (fun e => print ("Error copying files: " +:+ e) ;;; ret (Some result)))
    (os_chdir original_dir).

(** *** Windows: the MSI installer *)

(** Lines 219-234 of [package_windows_msi]: licence, tool checks and build.
    [inl r] means the function returned [r]; [inr build_dir] that the build
    went through. *)
Definition package_windows_msi_build (root_dir : string) (result : dict)
    : M (dict + string) :=
  let license_rtf := path_join root_dir "LICENSE.rtf" in
  let license_txt := path_join root_dir "LICENSE" in
  create_rtf_from_txt license_txt license_rtf ;;;
  if negb is_dotnet_installed then
    print "Error: .NET Framework not found. It is required to build the MSI." ;;;
    ret (inl result)
  else if negb is_wix_installed then
    print "Error: WiX Toolset not found. It is required to build the MSI." ;;;
    ret (inl result)
  else
    build_dir <- do_cmake_reconfigure root_dir
      "-G Ninja -DCPACK_GENERATOR=WIX -DBUILD_DEV_TOOLS=OFF -DCMAKE_BUILD_TYPE=Release"
      EmptyString ;;
    do_cmake_build build_dir ;;;
    do_cpack_build build_dir ;;;
    ret (inr build_dir).

(** Lines 244-247: how the published MSI is replaced. *)
Definition package_windows_msi_replace {m} {calls : Calls m}
    (dist_dir dist_file temp_dist_file : string) : m unit :=
  (fs_makedirs dist_dir true ;;;
   e <- fs_exists dist_file ;;
   (if e then fs_remove dist_file else fs_ret tt) ;;;
   fs_rename temp_dist_file dist_file)%calls.

(** Lines 237-254. *)
Definition package_windows_msi_publish (root_dir build_dir asset_file_name : string)
    (force : bool) (result : dict) : M dict :=
  let temp_dist_file := path_join build_dir asset_file_name in
  let dist_dir := path_join root_dir "dist" in
  let dist_file := path_join dist_dir asset_file_name in
  package_existed <- os_path_exists dist_file ;;
  differs <- (if force then ret true
              else if negb package_existed then ret true
              else same <- compare_paths compare_msi_files temp_dist_file dist_file ;;
                   ret (negb same)) ;;
  package_copied <- (if differs then
                       package_windows_msi_replace dist_dir dist_file temp_dist_file ;;;
                       ret true
                     else ret false) ;;
  ret (<["copied" := PBool package_copied]>
       (<["existed" := PBool package_existed]>
        (<["asset_file_name" := PStr asset_file_name]>
         (<["success" := PBool true]> result)))).

Definition package_windows_msi (root_dir version : string) (force : bool) : M dict :=
  let result : dict := {["success" := PBool false]} in
  r <- package_windows_msi_build root_dir result ;;
  match r with
  | inl early => ret early
  | inr build_dir =>
      asset_file_name <- find_asset_with_ext build_dir version "msi" ;;
      package_windows_msi_publish root_dir build_dir asset_file_name force result
  end.

(** *** Linux: the Debian package *)

(** Lines 267-307 of [package_deb]: dependency checks, purge of the .deb
    files of other versions from dist, and the CMake/CPack build.  [Some r]
    means the function returned [r]. *)
Definition package_deb_build (root_dir version sudo_pwd : string) (result : dict)
    : M (option dict) :=
  let dist_dir := os_path_join root_dir "dist" in
  (* Check dependencies. *)
  if negb is_debian_based then
    print "Error: Debian-based system required for .deb packaging." ;;;
    ret (Some result)
  else if negb is_cmake_installed then
    print "Error: CMake not found. It is required to be install for .deb creation" ;;;
    ret (Some result)
  else
  let cmake_lists := os_path_join root_dir "CMakeLists.txt" in
  isf <- os_path_isfile cmake_lists ;;
  if negb isf then
    print ("Error: " +:+ cmake_lists +:+
           " not found. Make sure you are working within a TA-Lib repos") ;;;
    ret (Some result)
  else
  (* Delete previous dist packaging *)
  let glob_all_packages := os_path_join dist_dir "*.deb" in
  l <- glob_glob glob_all_packages ;;
  for_each l (fun file =>
    if negb (contains version file) then force_delete file else ret tt) ;;;
  (* Create an empty CMake build directory *)
  let build_dir := os_path_join root_dir "build" in
  force_delete build_dir ;;;
  os_makedirs build_dir false ;;;
  os_chdir build_dir ;;;
  (* Run CMake configuration. *)
  ok <- try_except
          (subprocess_run ["cmake"; "-DCPACK_GENERATOR=DEB"; "-DBUILD_DEV_TOOLS=OFF"; ".."] ;;;
           ret true)
          (fun e => print ("Error running CMake: " +:+ e) ;;; ret false) ;;
  if negb ok then ret (Some result) else
  (* Run CPack to create the .deb package *)
  ok <- try_except
          (subprocess_run ["cpack"; "."] ;;; ret true)
          (fun e => print ("Error running CPack: " +:+ e) ;;; ret false) ;;
  if negb ok then ret (Some result) else ret None.

(** Lines 338-339: how the published .deb is replaced. *)
Definition package_deb_replace {m} {calls : Calls m} (dist_dir dist_file deb_file : string)
    : m unit :=
  (fs_makedirs dist_dir true ;;;
   fs_rename deb_file dist_file)%calls.

(** Lines 332-346: copy the .deb file into dist, but only if it differs. *)
Definition package_deb_publish (root_dir deb_file asset_file_name : string)
    (result : dict) : M dict :=
  let dist_dir := os_path_join root_dir "dist" in
  let dist_file := os_path_join dist_dir asset_file_name in
  package_existed <- os_path_exists dist_file ;;
  differs <- (if negb package_existed then ret true
              else same <- compare_paths compare_deb_files deb_file dist_file ;;
                   ret (negb same)) ;;
  package_copied <- (if differs then
                       package_deb_replace dist_dir dist_file deb_file ;;;
                       ret true
                     else ret false) ;;
  ret (<["copied" := PBool package_copied]>
       (<["existed" := PBool package_existed]>
        (<["asset_file_name" := PStr asset_file_name]>
         (<["success" := PBool true]> result)))).

Definition package_deb (root_dir version sudo_pwd : string) : M dict :=
  let result : dict := {["success" := PBool false]} in
  early <- package_deb_build root_dir version sudo_pwd result ;;
  match early with
  | Some r => ret r
  | None =>
      let build_dir := os_path_join root_dir "build" in
      (* Get the asset file name (from the only .deb file expected in the
         build directory) *)
      let glob_deb := os_path_join build_dir "*.deb" in
      deb_files <- glob_glob glob_deb ;;
      match deb_files with
      | [deb_file] =>
          (* Check that the single .deb file has the version as substring *)
          if negb (contains version deb_file) then
            print ("Error: Expected version " +:+ version +:+ " in " +:+ deb_file) ;;;
            ret result
          else
          let asset_file_name := os_path_basename deb_file in
          (* Sanity check that asset_file_name is correct. *)
          let test_file_name := os_path_join build_dir asset_file_name in
          e <- os_path_exists test_file_name ;;
          if negb e then
            print ("Error: " +:+ test_file_name +:+ " not found.") ;;;
            ret result
          else package_deb_publish root_dir deb_file asset_file_name result
      | _ =>
          print ("Error: Expected one .deb file, found " +:+ str_of_nat (length deb_files)) ;;;
          ret result
      end
  end.

Definition package_rpm (root_dir version sudo_pwd : string) : M dict :=
  let result : dict := {["success" := PBool false]} in
  (* Not implemented yet *)
  ret result.

(** *** Linux: the source tarball *)

Definition test_autotool_src (configure_dir sudo_pwd : string) : M bool :=
  original_dir <- os_getcwd ;;
  root_dir <- verify_git_repo ;;
  generated_files_temp_copy_1 <- create_temp_dir root_dir ;;
  generated_files_temp_copy_2 <- create_temp_dir root_dir ;;
  os_chdir configure_dir ;;;
  try_finally
    (try_except
       (git_changed <- are_generated_files_git_changed root_dir ;;
        generated <- get_src_generated_files ;;
        copy_file_list configure_dir generated_files_temp_copy_1 generated ;;;
        (* Simulate typical user installation. *)
        subprocess_run ["./configure"] ;;;
        subprocess_run ["make"] ;;;
        subprocess_run ["src/tools/ta_regtest/ta_regtest"] ;;;
        gen_code <- in_cwd "src/tools/gen_code/gen_code" ;;
        isf <- os_path_isfile gen_code ;;
        if negb isf then
          print "Error: src/tools/gen_code/gen_code does not exist." ;;;
          ret false
        else
        changed <- (if negb git_changed then are_generated_files_git_changed root_dir
                    else ret false) ;;
        if changed then
          print "Error: Unexpected changes from gen_code to root_dir. Do 'git diff'" ;;;
          ret false
        else
        generated <- get_src_generated_files ;;
        copy_file_list configure_dir generated_files_temp_copy_2 generated ;;;
        same <- compare_dir generated_files_temp_copy_1 generated_files_temp_copy_2 ;;
        if negb same then ret false
        else
        run_command_sudo ["make"; "install"] sudo_pwd ;;;
        ret true)
       (fun e => print ("Error during verification: " +:+ e) ;;; ret false))
    (os_chdir original_dir).

(** Lines 466-503 of [test_autotool_src]: the body of its try block. *)
Definition test_autotool_src_checks
    (root_dir configure_dir generated_files_temp_copy_1 generated_files_temp_copy_2
     sudo_pwd : string) : M bool :=
  git_changed <- are_generated_files_git_changed root_dir ;;
  generated <- get_src_generated_files ;;
  copy_file_list configure_dir generated_files_temp_copy_1 generated ;;;
  (* Simulate typical user installation. *)
  subprocess_run ["./configure"] ;;;
  subprocess_run ["make"] ;;;
  subprocess_run ["src/tools/ta_regtest/ta_regtest"] ;;;
  gen_code <- in_cwd "src/tools/gen_code/gen_code" ;;
  isf <- os_path_isfile gen_code ;;
  if negb isf then
    print "Error: src/tools/gen_code/gen_code does not exist." ;;;
    ret false
  else
  changed <- (if negb git_changed then are_generated_files_git_changed root_dir
              else ret false) ;;
  if changed then
    print "Error: Unexpected changes from gen_code to root_dir. Do 'git diff'" ;;;
    ret false
  else
  generated <- get_src_generated_files ;;
  copy_file_list configure_dir generated_files_temp_copy_2 generated ;;;
  same <- compare_dir generated_files_temp_copy_1 generated_files_temp_copy_2 ;;
  if negb same then ret false
  else
  run_command_sudo ["make"; "install"] sudo_pwd ;;;
  ret true.

(** Lines 366-417 of [package_src_tar_gz]: purge of the other source
    tarballs from dist, autotools build, and the end-user test of the
    tarball.  [Some r] means the function returned [r]. *)
Definition package_src_tar_gz_build (root_dir version sudo_pwd : string) (result : dict)
    : M (option dict) :=
  let asset_file_name := "ta-lib-" +:+ version +:+ "-src.tar.gz" in
  let dist_dir := os_path_join root_dir "dist" in
  (* Delete previous dist packaging *)
  let glob_all_packages := os_path_join dist_dir "*-src.tar.gz" in
  l <- glob_glob glob_all_packages ;;
  for_each l (fun file =>
    if negb (endswith file asset_file_name) then force_delete file else ret tt) ;;;
  let temp_dir := os_path_join root_dir "temp" in
  let package_temp_file_prefix := "ta-lib-git" in
  let package_temp_dir := os_path_join temp_dir package_temp_file_prefix in
  let package_temp_file_src := os_path_join root_dir (package_temp_file_prefix +:+ ".tar.gz") in
  let package_temp_file_dest := os_path_join temp_dir (package_temp_file_prefix +:+ ".tar.gz") in
  force_delete package_temp_file_src ;;;
  force_delete package_temp_file_dest ;;;
  force_delete package_temp_dir ;;;
  (* Always autoreconf before re-packaging *)
  ok <- try_except
          (subprocess_run ["autoreconf"; "-fi"] ;;; ret true)
          (fun e => print ("Error running 'autoreconf -fi': " +:+ e) ;;; ret false) ;;
  if negb ok then ret (Some result) else
  (* Run ./configure *)
  ok <- try_except
          (subprocess_run ["./configure"] ;;; ret true)
          (fun e => print ("Error running './configure': " +:+ e) ;;; ret false) ;;
  if negb ok then ret (Some result) else
  (* Run make dist *)
  ok <- try_except
          (subprocess_run ["make"; "dist"] ;;; ret true)
          (fun e => print ("Error running 'make dist': " +:+ e) ;;; ret false) ;;
  if negb ok then ret (Some result) else
  (* Move ta-lib-git.tar.gz into temp directory. *)
  isf <- os_path_isfile package_temp_file_src ;;
  if negb isf then
    print ("Error: " +:+ package_temp_file_src +:+ " not found.") ;;;
    ret (Some result)
  else
  os_makedirs temp_dir true ;;;
  os_rename package_temp_file_src package_temp_file_dest ;;;
  (* From this point, simulate the end-user dev experience *)
  os_chdir temp_dir ;;;
  os_system ("tar -xzf " +:+ package_temp_file_dest) ;;;
  ok <- test_autotool_src package_temp_dir sudo_pwd ;;
  if negb ok then
    print "Error: Source package verification failed." ;;;
    ret (Some result)
  else ret None.

(** Lines 428-429: how the published tarball is replaced. *)
Definition package_src_tar_gz_replace {m} {calls : Calls m}
    (dist_dir dist_file package_temp_file_dest : string) : m unit :=
  (fs_makedirs dist_dir true ;;;
   fs_rename package_temp_file_dest dist_file)%calls.

(** Lines 424-439: move the tarball into dist under its release name, but
    only if the archive content has changed; then clean up. *)
Definition package_src_tar_gz_publish
    (root_dir asset_file_name package_temp_file_src package_temp_file_dest : string)
    (result : dict) : M dict :=
  let dist_dir := os_path_join root_dir "dist" in
  let dist_file := os_path_join dist_dir asset_file_name in
  package_existed <- os_path_exists dist_file ;;
  differs <- (if negb package_existed then ret true
              else same <- compare_paths compare_tar_gz_files package_temp_file_dest dist_file ;;
                   ret (negb same)) ;;
  package_copied <- (if differs then
                       package_src_tar_gz_replace dist_dir dist_file package_temp_file_dest ;;;
                       ret true
                     else ret false) ;;
  (* Some clean-up (but keep the untarred directory for debugging) *)
  force_delete package_temp_file_src ;;;
  force_delete package_temp_file_dest ;;;
  ret (<["copied" := PBool package_copied]>
       (<["existed" := PBool package_existed]>
        (<["success" := PBool true]> result))).

Definition package_src_tar_gz (root_dir version sudo_pwd : string) : M dict :=
  let result : dict := {["success" := PBool false]} in
  let asset_file_name := "ta-lib-" +:+ version +:+ "-src.tar.gz" in
  let result := <["asset_file_name" := PStr asset_file_name]> result in
  early <- package_src_tar_gz_build root_dir version sudo_pwd result ;;
  match early with
  | Some r => ret r
  | None =>
      let temp_dir := os_path_join root_dir "temp" in
      let package_temp_file_src := os_path_join root_dir "ta-lib-git.tar.gz" in
      let package_temp_file_dest := os_path_join temp_dir "ta-lib-git.tar.gz" in
      package_src_tar_gz_publish root_dir asset_file_name
        package_temp_file_src package_temp_file_dest result
  end.

(** *** Orchestration *)

Definition display_package_results (results : dict) : M unit :=
  (* Display the results returned by most packaging functions. *)
  let asset_built := dict_get results "built" (PBool false) in
  let asset_built_success := dict_get results "success" (PBool false) in
  let asset_file_name := dict_get results "asset_file_name" (PStr "unknown") in
  let asset_copied := dict_get results "copied" (PBool false) in
  let asset_existed := dict_get results "existed" (PBool false) in
  if truthy asset_built then
    (if negb (truthy asset_built_success) then
       print ("Error: Packaging dist/" +:+ py_str asset_file_name +:+ " failed.")
     else ret tt) ;;;
    if truthy asset_copied then
      if truthy asset_existed then
        print ("Updated dist/" +:+ py_str asset_file_name)
      else
        print ("Created dist/" +:+ py_str asset_file_name)
    else
      print ("No changes for dist/" +:+ py_str asset_file_name)
  else
    print (py_str asset_file_name +:+ " build skipped (not supported on this platform)").

(** The defaults an orchestrator starts a result dictionary from. *)
Definition default_results (asset_file_name : string) : dict :=
  <["asset_file_name" := PStr asset_file_name]>
    (<["built" := PBool false]> {["success" := PBool false]}).

(** The block every orchestrator repeats after a packaging call:
    [r.update(results); r["built"] = True; if not r["success"]: print; exit]. *)
Definition record_results (defaults : dict) (results : option dict) (stop : string)
    : M dict :=
  r <- dict_update defaults results ;;
  let r := <["built" := PBool true]> r in
  ok <- dict_item r "success" ;;
  if negb (truthy ok) then
    name <- dict_item r "asset_file_name" ;;
    print ("Error: Packaging dist/" +:+ py_str name +:+ " failed" +:+ stop) ;;;
    sys_exit 1
  else ret r.

Definition package_all_linux (root_dir version sudo_pwd : string) : M unit :=
  os_chdir root_dir ;;;
  (* The dist/ta-lib-*-src.tar.gz are created only on Ubuntu *)
  let src_tar_gz_results : dict := default_results "src.tar.gz" in
  src_tar_gz_results <-
    (if is_ubuntu then
       results <- package_src_tar_gz root_dir version sudo_pwd ;;
       record_results src_tar_gz_results (Some results) "."
     else ret src_tar_gz_results) ;;
  (* When supported by host, build RPM using CMakeLists.txt (CPack) *)
  let rpm_results : dict := default_results ".rpm" in
  rpm_results <-
    (if is_redhat_based then
       if negb is_rpmbuild_installed then
         print "Error: rpmbuild not found. RPM not created" ;;;
         sys_exit 1
       else
         results <- package_deb root_dir version sudo_pwd ;;
         record_results rpm_results (Some results) "."
     else ret rpm_results) ;;
  (* When supported by host, build DEB using CMakeLists.txt (CPack) *)
  let deb_results : dict := default_results ".deb" in
  deb_results <-
    (if is_debian_based then
       results <- package_deb root_dir version sudo_pwd ;;
       record_results deb_results (Some results) "."
     else ret deb_results) ;;
  (* A summary of everything that was done *)
  print (nl +:+ "***********") ;;;
  print "* Summary *" ;;;
  print "***********" ;;;
  display_package_results src_tar_gz_results ;;;
  display_package_results rpm_results ;;;
  display_package_results deb_results ;;;
  print (nl +:+ "Packaging completed successfully.").

(** Lines 633-639 of [package_all_windows]: the summary. *)
Definition package_all_windows_summary (zip_results msi_results : dict) : M unit :=
  print (nl +:+ "***********") ;;;
  print "* Summary *" ;;;
  print "***********" ;;;
  display_package_results zip_results ;;;
  display_package_results msi_results ;;;
  print "Packaging completed successfully.".

(** Lines 608-639 of [package_all_windows]: what follows the zip step. *)
Definition package_all_windows_msi (root_dir version : string) (zip_results : dict)
    : M unit :=
  (* The zip file is better at detecting if the content is different.  If
     any changes are detected, it will force the creation and overwrite of
     the .msi file in dist. *)
  built <- dict_item zip_results "built" ;;
  force_msi_overwrite <-
    (if truthy built then
       copied <- dict_item zip_results "copied" ;;
       ret (truthy copied)
     else ret false) ;;
  (* Process the .msi file. *)
  let msi_results : dict := default_results ".msi" in
  msi_results <-
    (if negb is_wix_installed then
       print "Warning: WiX Toolset not found. MSI packaging skipped." ;;;
       ret msi_results
     else
       results <- package_windows_msi root_dir version force_msi_overwrite ;;
       record_results msi_results (Some results) EmptyString) ;;
  package_all_windows_summary zip_results msi_results.

Definition package_all_windows (root_dir version : string) : M unit :=
  let zip_results : dict := default_results ".zip" in
  results <- package_windows_zip root_dir version ;;
  zip_results <- record_results zip_results results EmptyString ;;
  package_all_windows_msi root_dir version zip_results.

(** The [__main__] block; [sudo_pwd] is the parsed [--pwd] argument. *)
Definition main (sudo_pwd : string) : M unit :=
  root_dir <- verify_git_repo ;;
  version <- sync_versions root_dir ;;
  let host_platform := sys_platform in
  if String.eqb host_platform "linux" then
    package_all_linux root_dir version sudo_pwd
  else if String.eqb host_platform "win32" then
    let arch := platform_architecture in
    if String.eqb arch "64bit" then package_all_windows root_dir version
    else print ("Unsupported architecture [" +:+ arch +:+ "]. Contact TA-Lib maintainers.")
  else
    print ("Unsupported platform [" +:+ host_platform +:+ "]. Contact TA-Lib maintainers.") ;;;
    sys_exit 1.

(** ** The publish step, format by format *)

(** One publish attempt.  Only the MSI step takes a [force] argument. *)
Inductive attempt :=
  | PublishZip
  | PublishMsi (force : bool)
  | PublishDeb
  | PublishSrcTarGz.

Definition forced (a : attempt) : bool :=
  match a with
  | PublishMsi force => force
  | _ => false
  end.

(** The comparison each format uses. *)
Definition equivalent (a : attempt) : list Byte.byte → list Byte.byte → bool :=
  match a with
  | PublishZip => compare_zip_files
  | PublishMsi _ => compare_msi_files
  | PublishDeb => compare_deb_files
  | PublishSrcTarGz => compare_tar_gz_files
  end.

(** The result dictionary each function starts from. *)
Definition initial_result (a : attempt) (asset_file_name : string) : dict :=
  match a with
  | PublishZip | PublishSrcTarGz =>
      <["asset_file_name" := PStr asset_file_name]> {["success" := PBool false]}
  | PublishMsi _ | PublishDeb => {["success" := PBool false]}
  end.

(** Where the candidate lies: [staging] is the file itself, except for the
    MSI, which is looked up by name in the build directory [staging]. *)
Definition candidate (a : attempt) (staging asset_file_name : string) : string :=
  match a with
  | PublishMsi _ => path_join staging asset_file_name
  | _ => staging
  end.

Definition published (root_dir asset_file_name : string) : string :=
  os_path_join (os_path_join root_dir "dist") asset_file_name.

Definition publish (a : attempt) (root_dir staging asset_file_name : string) : M dict :=
  let result := initial_result a asset_file_name in
  match a with
  | PublishZip => package_windows_zip_publish root_dir asset_file_name staging result
  | PublishMsi force => package_windows_msi_publish root_dir staging asset_file_name force result
  | PublishDeb => package_deb_publish root_dir staging asset_file_name result
  | PublishSrcTarGz =>
      package_src_tar_gz_publish root_dir asset_file_name
        (os_path_join root_dir "ta-lib-git.tar.gz") staging result
  end.

(** What the orchestrators make of a result before the summary. *)
Definition summarised (defaults results : dict) : dict :=
  <["built" := PBool true]> (results ∪ defaults).

(** The replace step of each format. *)
Definition replace_step {m} {calls : Calls m} (a : attempt)
    (root_dir staging asset_file_name : string) : m unit :=
  let dist_dir := os_path_join root_dir "dist" in
  let dist_file := published root_dir asset_file_name in
  let cand := candidate a staging asset_file_name in
  match a with
  | PublishZip => package_windows_zip_replace dist_dir dist_file cand
  | PublishMsi _ => package_windows_msi_replace dist_dir dist_file cand
  | PublishDeb => package_deb_replace dist_dir dist_file cand
  | PublishSrcTarGz => package_src_tar_gz_replace dist_dir dist_file cand
  end.

(** The line of the summary for a built asset. *)
Definition outcome_line (copied existed : bool) (asset_file_name : string) : string :=
  if copied then
    if existed then "Updated dist/" +:+ asset_file_name
    else "Created dist/" +:+ asset_file_name
  else "No changes for dist/" +:+ asset_file_name.

(** The platform [main] runs a format on, where the step depends on it:
    the Linux formats replace the published file by [os.rename] alone. *)
Definition runs_on (a : attempt) : Prop :=
  match a with
  | PublishDeb | PublishSrcTarGz => sys_platform = "linux"
  | PublishZip | PublishMsi _ => True
  end.

(** The candidate [c] is in place and dist is in order: dist is not a
    regular file, the published path is not a directory, and the candidate
    does not lie at or above the published path (nor does the tarball that
    [package_src_tar_gz] cleans up at the end). *)
Definition staged (a : attempt) (root_dir staging asset_file_name : string)
    (c : file) (w : world) : Prop :=
  let dist_dir := os_path_join root_dir "dist" in
  let dist_file := published root_dir asset_file_name in
  files w !! candidate a staging asset_file_name = Some c ∧
  is_file w dist_dir = false ∧
  is_dir w dist_file = false ∧
  dist_file ≠ dist_dir ∧
  below (candidate a staging asset_file_name) dist_file = false ∧
  (a = PublishSrcTarGz →
   below (os_path_join root_dir "ta-lib-git.tar.gz") dist_file = false).

(** The file that arrives in dist when candidate [c] is published from
    world [w]: the candidate itself where it is moved, a copy stamped by the
    clock where it is copied. *)
Definition landed (a : attempt) (c : file) (w : world) : file :=
  match a with
  | PublishZip => File (data c) (clock w + 1)
  | _ => c
  end.

(** ** The publish location as a whole *)



(** Computation [m] takes every world to one related to it by [R]. *)
Definition keeps {A} (R : world → world → Prop) (m : M A) : Prop :=
  ∀ w, R w (fst (m w)).


(** ** What the functions return *)

(** Every value that [m] returns satisfies [P]. *)
Definition returns {A} (P : A → Prop) (m : M A) : Prop :=
  ∀ w w' a, m w = (w', Ok a) → P a.

(** [m] never ends with a CalledProcessError. *)
Definition never_cpe {A} (m : M A) : Prop :=
  ∀ w w' msg, m w ≠ (w', Raised (CalledProcessError msg)).

(** The result of a packaging function that gave up: [{"success": False}]
    and nothing else. *)
Definition bare_failure : dict := {["success" := PBool false]}.

(** The result of a packaging function that went through: success, the
    file name of the asset, and the two flags of the publish step. *)
Definition complete (r : dict) : Prop :=
  r !! "success" = Some (PBool true) ∧
  (∃ name, r !! "asset_file_name" = Some (PStr name)) ∧
  (∃ existed, r !! "existed" = Some (PBool existed)) ∧
  (∃ copied, r !! "copied" = Some (PBool copied)).

(** From [w] to [w'] the working directory has not changed. *)
Definition same_cwd (w w' : world) : Prop := cwd w' = cwd w.

(** ** Interrupting the replace step *)

(** A computation that also lists the states of the machine after each
    change it makes to the file store, oldest first.  An interruption
    leaves the machine in the state the computation started in or in one of
    the states listed. *)
Definition T (A : Type) : Type := world → list world * (world * outcome A).

Definition t_ret {A} (a : A) : T A := fun w => ([], (w, Ok a)).

Definition t_bind {A B} (m : T A) (k : A → T B) : T B := fun w =>
  match m w with
  | (states, (w', Ok a)) =>
      match k a w' with
      | (states', r) => ((states ++ states')%list, r)
      end
  | (states, (w', Exit c)) => (states, (w', Exit c))
  | (states, (w', Raised e)) => (states, (w', Raised e))
  end.

(** A call that only reads the file store. *)
Definition reading {A} (m : M A) : T A := fun w => ([], m w).

(** A call that changes the file store in one step, or fails. *)
Definition in_one_step {A} (m : M A) : T A := fun w => ([fst (m w)], m w).

(** The lengths a file of [n] bytes has had between the first write of
    [block] bytes and the last: the multiples of [block] below [n]. *)
Definition block_ends (block n : nat) : list nat :=
  map (fun i => i * block)%nat (seq 1 ((n - 1) / block)).

(** The states [shutil.copy(src, dst)] passes through: the target is opened
    for writing, which leaves it empty, and is filled block by block (of
    [COPY_BUFSIZE] bytes in shutil, [block] here); the last write completes
    it. *)
Definition copy_states (block : nat) (src dst : string) (w : world) : list world :=
  let target := if is_dir w dst then os_path_join dst (os_path_basename src) else dst in
  match files w !! src with
  | None => []
  | Some f =>
      if String.eqb src target then []
      else
        let w1 := fst (open_wb target w) in
        ((w1 :: map (fun n => set_files (insert target (File (take n (data f)) (clock w))) w1)
                    (block_ends block (length (data f))))
         ++ [fst (shutil_copy src dst w)])%list
  end.

(** The calls with their states: every call ends as it does on the
    machine. *)
Definition traced (block : nat) : Calls T := {|
  fs_ret := @t_ret;
  fs_bind := @t_bind;
  fs_makedirs := fun p exist_ok => in_one_step (os_makedirs p exist_ok);
  fs_exists := fun p => reading (os_path_exists p);
  fs_remove := fun p => in_one_step (os_remove p);
  fs_rename := fun src dst => in_one_step (os_rename src dst);
  fs_copy := fun src dst w => (copy_states block src dst w, shutil_copy src dst w)
|}.

(** The recorded run of a computation ends as its run on the machine. *)
Definition ends_as {A} (t : T A) (m : M A) : Prop := ∀ w, snd (t w) = m w.

(** The last state recorded is the state the computation ends in. *)
Definition closes {A} (t : T A) : Prop :=
  ∀ w, List.last (fst (t w)) w = fst (snd (t w)).

(** The states an interruption of the replace step of attempt [a] can leave
    behind when the step starts in [w]. *)
Definition interrupted (block : nat) (a : attempt) (root_dir staging asset_file_name : string)
    (w : world) : list world :=
  w :: fst (replace_step (calls := traced block) a root_dir staging asset_file_name w).

End Script.

(** ** A simulated host, for running the script on concrete inputs *)

Fixpoint bytes_eqb (a b : list Byte.byte) : bool :=
  match a, b with
  | [], [] => true
  | x :: a', y :: b' => Byte.eqb x y && bytes_eqb a' b'
  | _, _ => false
  end.

(** A tool that leaves a file in the working directory. *)
Definition write_in_cwd (out : string * string) : M unit := fun w =>
  (tick (set_files
           (insert (os_path_join (cwd w) (fst out))
                   (File (list_byte_of_string (snd out)) (clock w))) w), Ok tt).

(** The host is given by its platform, its distribution family, what
    [cmake --build] and [cpack] leave in the build directory (name and
    content of each file), and whether zipping fails.  Every other tool
    succeeds without touching the file store; the comparisons compare
    bytes. *)
Definition sim_host (platform : string) (debian redhat : bool)
    (build_out cpack_out : list (string * string)) (zip_fails : bool) : Host := {|
  sys_platform := platform;
  platform_architecture := "64bit";
  is_cmake_installed := true;
  is_debian_based := debian;
  is_dotnet_installed := true;
  is_redhat_based := redhat;
  is_rpmbuild_installed := true;
  is_ubuntu := false;
  is_wix_installed := true;
  subprocess_run := fun argv =>
    let cmd := hd EmptyString argv in
    let arg := hd EmptyString (tl argv) in
    if String.eqb cmd "cpack" then for_each cpack_out write_in_cwd
    else if String.eqb cmd "cmake" && String.eqb arg "--build"
    then for_each build_out write_in_cwd
    else ret tt;
  os_system := fun _ => ret tt;
  create_zip_file := fun _ zip =>
    if zip_fails then raise (CalledProcessError "zip failed")
    else write_all zip (list_byte_of_string "PK");
  create_rtf_from_txt := fun _ _ => ret tt;
  compare_zip_files := bytes_eqb;
  compare_msi_files := bytes_eqb;
  compare_deb_files := bytes_eqb;
  compare_tar_gz_files := bytes_eqb;
  verify_git_repo := ret "/repo";
  create_temp_dir := fun root => ret (os_path_join root "tmp");
  are_generated_files_git_changed := fun _ => ret false;
  copy_file_list := fun _ _ _ => ret tt;
  get_src_generated_files := ret [];
  compare_dir := fun _ _ => ret true;
  run_command_sudo := fun _ _ => ret tt;
  sync_versions := fun _ => ret "0.6.0"
|}.

(** A world from a list of files (path, content, time stamp). *)
Definition world_of (l : list (string * string * Z)) (ds : list string) : world :=
  World (list_to_map (map (fun e => (fst (fst e),
                                     File (list_byte_of_string (snd (fst e))) (snd e))) l))
        (list_to_set ds) "/" 100 [].

(** ** Example hosts and worlds *)

Definition windows_libs : list (string * string) :=
  [("ta-lib.dll", "dll"); ("ta-lib.lib", "lib"); ("ta-lib-static.lib", "static")].

(** A Debian host whose CPack leaves one versioned .deb. *)
Definition debian_sim : Host :=
  sim_host "linux" true false [] [("ta-lib_0.6.0_amd64.deb", "deb 0.6.0")] false.


(** A Debian host whose CPack leaves a .deb without version in its name. *)
Definition debian_unversioned : Host :=
  sim_host "linux" true false [] [("ta-lib_amd64.deb", "deb")] false.


(** A RedHat host. *)
Definition redhat_sim : Host := sim_host "linux" false true [] [] false.

(** A Windows host; the second one fails to zip. *)
Definition windows_sim : Host :=
  sim_host "win32" false false windows_libs
    [("ta-lib-0.6.0-windows-x86_64.msi", "msi 0.6.0")] false.
Definition windows_zip_fails : Host :=
  sim_host "win32" false false windows_libs
    [("ta-lib-0.6.0-windows-x86_64.msi", "msi 0.6.0")] true.

(** A Windows host whose CPack leaves an MSI without version in its name. *)
Definition windows_unversioned : Host :=
  sim_host "win32" false false windows_libs [("ta-lib.msi", "msi")] false.

(** A fresh clone at /repo. *)
Definition repo_world : world :=
  world_of [("/repo/CMakeLists.txt", "project", 1%Z); ("/repo/include/ta_libc.h", "header", 1%Z)]
           ["/repo"; "/repo/include"].

(** The clone with a .deb of version 0.5.0 in dist. *)
Definition stale_deb_world : world :=
  world_of [("/repo/CMakeLists.txt", "project", 1%Z);
            ("/repo/dist/ta-lib_0.5.0_amd64.deb", "deb 0.5.0", 2%Z)]
           ["/repo"; "/repo/dist"].

(** The clone with an MSI of version 0.5.0 in dist. *)
Definition stale_msi_world : world :=
  world_of [("/repo/CMakeLists.txt", "project", 1%Z); ("/repo/include/ta_libc.h", "header", 1%Z);
            ("/repo/dist/ta-lib-0.5.0-windows-x86_64.msi", "msi 0.5.0", 2%Z)]
           ["/repo"; "/repo/include"; "/repo/dist"].

(** The clone with the MSI of version 0.6.0 published, and no zip yet. *)
Definition published_msi_world : world :=
  world_of [("/repo/CMakeLists.txt", "project", 1%Z); ("/repo/include/ta_libc.h", "header", 1%Z);
            ("/repo/dist/ta-lib-0.6.0-windows-x86_64.msi", "msi 0.6.0", 2%Z)]
           ["/repo"; "/repo/include"; "/repo/dist"].

(** The clone with the zip of version 0.6.0 already published. *)
Definition published_zip_world : world :=
  world_of [("/repo/CMakeLists.txt", "project", 1%Z); ("/repo/include/ta_libc.h", "header", 1%Z);
            ("/repo/dist/ta-lib-0.6.0-win64.zip", "PK", 2%Z)]
           ["/repo"; "/repo/include"; "/repo/dist"].

(** A clone whose directory name carries the version. *)
Definition versioned_dir_world : world :=
  world_of [("/src/ta-lib-0.6.0/CMakeLists.txt", "project", 1%Z)] ["/src/ta-lib-0.6.0"].

(** Such a clone with a .deb of version 0.5.0 in dist. *)
Definition versioned_dir_stale_world : world :=
  world_of [("/src/ta-lib-0.6.0/CMakeLists.txt", "project", 1%Z);
            ("/src/ta-lib-0.6.0/dist/ta-lib_0.5.0_amd64.deb", "deb 0.5.0", 2%Z)]
           ["/src/ta-lib-0.6.0"; "/src/ta-lib-0.6.0/dist"].


(** A built MSI next to a published one with other bytes. *)
Definition changed_msi_world : world :=
  world_of [("/repo/build/ta-lib-0.6.0-windows-x86_64.msi", "msi 0.6.0 b", 9%Z);
            ("/repo/dist/ta-lib-0.6.0-windows-x86_64.msi", "msi 0.6.0 a", 2%Z)]
           ["/repo"; "/repo/build"; "/repo/dist"].

(** A built .deb, nothing published yet. *)
Definition built_deb_world : world :=
  world_of [("/repo/build/ta-lib_0.6.0_amd64.deb", "deb 0.6.0", 9%Z)]
           ["/repo"; "/repo/build"].

(** The same build with that .deb already published. *)
Definition rebuilt_deb_world : world :=
  world_of [("/repo/build/ta-lib_0.6.0_amd64.deb", "deb 0.6.0", 12%Z);
            ("/repo/dist/ta-lib_0.6.0_amd64.deb", "deb 0.6.0", 9%Z)]
           ["/repo"; "/repo/build"; "/repo/dist"].

(** ** More hosts and worlds *)

(** A simulated host with every probe given, and [subprocess.run] and
    [os.system] as [run] and [system]; the other helpers are those of
    [sim_host]. *)
Definition tool_host (platform : string)
    (debian redhat ubuntu cmake dotnet wix rpmbuild : bool)
    (run : list string → M unit) (system : string → M unit) : Host := {|
  sys_platform := platform;
  platform_architecture := "64bit";
  is_cmake_installed := cmake;
  is_debian_based := debian;
  is_dotnet_installed := dotnet;
  is_redhat_based := redhat;
  is_rpmbuild_installed := rpmbuild;
  is_ubuntu := ubuntu;
  is_wix_installed := wix;
  subprocess_run := run;
  os_system := system;
  create_zip_file := fun _ zip => write_all zip (list_byte_of_string "PK");
  create_rtf_from_txt := fun _ _ => ret tt;
  compare_zip_files := bytes_eqb;
  compare_msi_files := bytes_eqb;
  compare_deb_files := bytes_eqb;
  compare_tar_gz_files := bytes_eqb;
  verify_git_repo := ret "/repo";
  create_temp_dir := fun root => ret (os_path_join root "tmp");
  are_generated_files_git_changed := fun _ => ret false;
  copy_file_list := fun _ _ _ => ret tt;
  get_src_generated_files := ret [];
  compare_dir := fun _ _ => ret true;
  run_command_sudo := fun _ _ => ret tt;
  sync_versions := fun _ => ret "0.6.0"
|}.

(** A Linux host of no supported family, a macOS host, and a Windows host
    whose build leaves nothing behind. *)
Definition plain_linux : Host := sim_host "linux" false false [] [] false.
Definition darwin_sim : Host := sim_host "darwin" false false [] [] false.
Definition windows_bare : Host := sim_host "win32" false false [] [] false.

(** A Windows host with WiX and without the .NET Framework. *)
Definition windows_without_dotnet : Host :=
  tool_host "win32" false false false true false true true
    (fun _ => ret tt) (fun _ => ret tt).

(** An Ubuntu host whose tools leave nothing behind. *)
Definition ubuntu_sim : Host :=
  tool_host "linux" true false true true true true true
    (fun _ => ret tt) (fun _ => ret tt).

(** An Ubuntu host whose [make dist] leaves the tarball, whose [tar]
    unpacks a tree with gen_code in it, and whose CPack leaves a .deb. *)
Definition ubuntu_builder : Host :=
  tool_host "linux" true false true true true true true
    (fun argv =>
       let cmd := hd EmptyString argv in
       let arg := hd EmptyString (tl argv) in
       if String.eqb cmd "make" && String.eqb arg "dist"
       then write_in_cwd ("ta-lib-git.tar.gz", "tgz")
       else if String.eqb cmd "cpack"
       then write_in_cwd ("ta-lib_0.6.0_amd64.deb", "deb 0.6.0")
       else ret tt)
    (fun _ => write_in_cwd ("ta-lib-git/src/tools/gen_code/gen_code", "elf")).

(** A Debian host whose CMake configuration fails. *)
Definition debian_cmake_fails : Host :=
  tool_host "linux" true false false true true true true
    (fun _ => raise (CalledProcessError "Command returned non-zero exit status 1."))
    (fun _ => ret tt).

(** A built .deb next to a published source tarball. *)
Definition two_assets_world : world :=
  world_of [("/repo/build/ta-lib_0.6.0_amd64.deb", "deb 0.6.0", 9%Z);
            ("/repo/dist/ta-lib-0.6.0-src.tar.gz", "tgz", 3%Z)]
           ["/repo"; "/repo/build"; "/repo/dist"].

(** A built zip next to a published one with other bytes. *)
Definition changed_zip_world : world :=
  world_of [("/repo/temp/ta-lib-0.6.0-win64.zip", "PK new bytes", 9%Z);
            ("/repo/dist/ta-lib-0.6.0-win64.zip", "PK old", 2%Z)]
           ["/repo"; "/repo/temp"; "/repo/dist"].



(** The clone with the source tarball unpacked in temp. *)
Definition unpacked_world : world :=
  world_of [("/repo/CMakeLists.txt", "project", 1%Z);
            ("/repo/temp/ta-lib-git/configure", "sh", 2%Z)]
           ["/repo"; "/repo/temp"; "/repo/temp/ta-lib-git"].

(** A clone with a build directory from an earlier run. *)
Definition old_build_world : world :=
  world_of [("/repo/CMakeLists.txt", "project", 1%Z);
            ("/repo/build/CMakeCache.txt", "cache", 2%Z)]
           ["/repo"; "/repo/build"].

(** * Properties *)

Section Proofs.
Context {host : Host}.

(** ** Stepping through a computation *)

(** The calls of a replace step, as the machine performs them. *)
Ltac on_machine :=
  cbn [fs_ret fs_bind fs_makedirs fs_exists fs_remove fs_rename fs_copy machine] in *.

Lemma bind_ok {A B} (m : M A) (k : A → M B) w w' a :
  m w = (w', Ok a) → bind m k w = k a w'.
Proof. intros E. unfold bind. now rewrite E. Qed.

Lemma bind_exit {A B} (m : M A) (k : A → M B) w w' c :
  m w = (w', Exit c) → bind m k w = (w', Exit c).
Proof. intros E. unfold bind. now rewrite E. Qed.

Lemma bind_raised {A B} (m : M A) (k : A → M B) w w' e :
  m w = (w', Raised e) → bind m k w = (w', Raised e).
Proof. intros E. unfold bind. now rewrite E. Qed.

Lemma bind_ret_tt (m : M unit) w : (m ;;; ret tt) w = m w.
Proof. unfold bind, ret. destruct (m w) as [w' [[]| |]]; reflexivity. Qed.

(** ** The file system primitives *)

Lemma is_file_true w p : is_file w p = true ↔ is_Some (files w !! p).
Proof. unfold is_file. apply bool_decide_eq_true. Qed.

Lemma is_file_false w p : is_file w p = false ↔ files w !! p = None.
Proof. unfold is_file. rewrite bool_decide_eq_false, eq_None_not_Some. tauto. Qed.

Lemma is_file_Some w p f : files w !! p = Some f → is_file w p = true.
Proof. intros E. apply is_file_true. eauto. Qed.

Lemma is_file_files w w' p : files w' = files w → is_file w' p = is_file w p.
Proof. unfold is_file. now intros ->. Qed.

(** Creating a directory leaves the files alone. *)
Lemma os_makedirs_ok p w :
  is_file w p = false →
  ∃ w', os_makedirs p true w = (w', Ok tt) ∧
        files w' = files w ∧ clock w' = clock w ∧ stdout w' = stdout w ∧
        cwd w' = cwd w ∧
        ∀ q, q ≠ p → is_dir w' q = is_dir w q.
Proof.
  intros Hf. unfold os_makedirs. rewrite Hf.
  destruct (is_dir w p) eqn:Hd.
  - exists w. repeat split; reflexivity.
  - eexists. split; [reflexivity|]. repeat split.
    intros q Hq. unfold is_dir, set_dirs. simpl.
    apply bool_decide_ext. rewrite elem_of_union, elem_of_singleton. tauto.
Qed.


Lemma os_rename_ok src dst f w :
  files w !! src = Some f →
  is_dir w dst = false →
  (sys_platform = "linux" ∨ is_file w dst = false) →
  os_rename src dst w = (set_files (fun m => <[dst := f]> (delete src m)) w, Ok tt).
Proof.
  intros Hs Hd Hp. unfold os_rename. rewrite Hs, Hd.
  destruct Hp as [-> | ->]; [reflexivity|].
  now rewrite andb_false_r.
Qed.

Lemma os_remove_ok p w :
  is_file w p = true → os_remove p w = (set_files (delete p) w, Ok tt).
Proof. intros E. unfold os_remove. now rewrite E. Qed.

Lemma compare_paths_ok cmp a b x y w :
  files w !! a = Some x → files w !! b = Some y →
  compare_paths cmp a b w = (w, Ok (cmp (data x) (data y))).
Proof. intros Ha Hb. unfold compare_paths. now rewrite Ha, Hb. Qed.

Lemma shutil_copy_ok src dst f w :
  files w !! src = Some f → is_dir w dst = false → src ≠ dst →
  shutil_copy src dst w =
    (tick (tick (set_files (insert dst (File (data f) (clock w + 1))) w)), Ok tt).
Proof.
  intros Hs Hd Hne. unfold shutil_copy. rewrite Hd, Hs.
  destruct (String.eqb_spec src dst) as [E|_]; [contradiction|].
  unfold bind, open_wb, write_all, tick, set_files. simpl.
  now rewrite insert_insert_eq.
Qed.

Lemma below_refl p : below p p = true.
Proof. unfold below. now rewrite String.eqb_refl. Qed.

Lemma below_ne a b : below a b = false → a ≠ b.
Proof. intros Hb ->. now rewrite below_refl in Hb. Qed.

Lemma force_delete_lookup p q w :
  files (fst (force_delete p w)) !! q = if below p q then None else files w !! q.
Proof.
  unfold force_delete, set_dirs, set_files. simpl.
  destruct (below p q) eqn:Hb.
  - apply map_lookup_filter_None. right. intros x _. simpl. congruence.
  - destruct (files w !! q) as [x|] eqn:Hq.
    + apply map_lookup_filter_Some. split; [assumption|]. simpl. assumption.
    + apply map_lookup_filter_None. now left.
Qed.


(** ** The summary line *)

Lemma summarised_lookup defaults r k v :
  k ≠ "built" → r !! k = Some v → summarised defaults r !! k = Some v.
Proof.
  intros Hk Hr. unfold summarised.
  rewrite lookup_insert_ne by congruence.
  now apply lookup_union_Some_l.
Qed.

Lemma display_summarised defaults r copied existed asset w :
  r !! "success" = Some (PBool true) →
  r !! "asset_file_name" = Some (PStr asset) →
  r !! "copied" = Some (PBool copied) →
  r !! "existed" = Some (PBool existed) →
  display_package_results (summarised defaults r) w
  = (emit (outcome_line copied existed asset) w, Ok tt).
Proof.
  intros Hs Hn Hc He.
  unfold display_package_results, dict_get.
  rewrite (summarised_lookup defaults r "success" _ ltac:(discriminate) Hs).
  rewrite (summarised_lookup defaults r "asset_file_name" _ ltac:(discriminate) Hn).
  rewrite (summarised_lookup defaults r "copied" _ ltac:(discriminate) Hc).
  rewrite (summarised_lookup defaults r "existed" _ ltac:(discriminate) He).
  unfold summarised at 1. rewrite lookup_insert_eq. simpl.
  unfold bind, ret, outcome_line, print.
  destruct copied, existed; reflexivity.
Qed.


(** ** The publish decision *)

Ltac dict_lookup :=
  unfold initial_result;
  repeat (rewrite lookup_insert_ne by discriminate);
  apply lookup_insert_eq.

(** Whether the attempt copies: the condition of the [if] of each publish
    step, evaluated in [w]. *)
Lemma publish_differs a root staging asset c w :
  files w !! candidate a staging asset = Some c →
  is_dir w (published root asset) = false →
  let dist_file := published root asset in
  let cmp := compare_paths (equivalent a) (candidate a staging asset) dist_file in
  let same := match files w !! dist_file with
              | Some old => equivalent a (data c) (data old)
              | None => false
              end in
  (if negb (is_file w dist_file) then ret true
   else same <- cmp ;; ret (negb same)) w
  = (w, Ok (negb (is_file w dist_file) || negb same)).
Proof.
  intros Hc Hd dist_file cmp same. subst cmp same.
  destruct (is_file w dist_file) eqn:He; cbn [negb orb]; [|reflexivity].
  apply is_file_true in He as [old Hold]. rewrite Hold.
  now rewrite (bind_ok _ _ _ _ _ (compare_paths_ok _ _ _ _ _ _ Hc Hold)).
Qed.


Lemma staged_ext a root staging asset c w w' :
  files w' = files w →
  (∀ q, q ≠ os_path_join root "dist" → is_dir w' q = is_dir w q) →
  staged a root staging asset c w → staged a root staging asset c w'.
Proof.
  intros Hfiles Hdirs (Hc & Hd & Hf & Hne & Hb & Hs).
  unfold staged. rewrite Hfiles, !(is_file_files w w') by assumption.
  rewrite Hdirs by assumption. repeat (split; [assumption|]). assumption.
Qed.

(** What the replace step of each format does to the file store. *)
Lemma replace_step_ok a root staging asset c w :
  runs_on a → staged a root staging asset c w →
  let dist_file := published root asset in
  let cand := candidate a staging asset in
  ∃ w', replace_step a root staging asset w = (w', Ok tt) ∧
        stdout w' = stdout w ∧
        files w' !! dist_file = Some (landed a c w) ∧
        files w' !! cand = (if a is PublishZip then Some c else None) ∧
        (∀ p, p ≠ dist_file → p ≠ cand → files w' !! p = files w !! p).
Proof.
  intros Hp (Hc & Hd & Hf & Hne & Hb & _) dist_file cand.
  pose proof (below_ne _ _ Hb) as Hcd. fold cand dist_file in Hc, Hb, Hcd, Hf, Hne.
  destruct (os_makedirs_ok _ _ Hd) as (w0 & Hmk & Hfiles & Hclock & Hout & _ & Hdirs).
  assert (Hf0 : is_dir w0 dist_file = false) by (rewrite Hdirs; assumption).
  assert (Hc0 : files w0 !! cand = Some c) by (rewrite Hfiles; assumption).
  unfold replace_step. fold dist_file cand. cbv zeta.
  clearbody dist_file cand.
  assert (Hdc : dist_file ≠ cand) by congruence.
  destruct a; cbn [runs_on] in Hp.
  - (* zip: copy in place *)
    unfold package_windows_zip_replace. on_machine.
    rewrite (bind_ok _ _ _ _ _ Hmk), (shutil_copy_ok _ _ _ _ Hc0 Hf0 Hcd).
    eexists. split; [reflexivity|]. cbn. rewrite Hfiles, Hclock.
    split; [assumption|]. split; [now rewrite lookup_insert_eq|].
    split; [now rewrite lookup_insert_ne|].
    intros p Hp1 Hp2. now rewrite lookup_insert_ne.
  - (* msi: remove, then rename *)
    unfold package_windows_msi_replace. on_machine.
    rewrite (bind_ok _ _ _ _ _ Hmk).
    rewrite (bind_ok _ _ w0 w0 (is_file w0 dist_file)).
    2:{ unfold os_path_exists. now rewrite Hf0, orb_false_r. }
    destruct (is_file w0 dist_file) eqn:He.
    + rewrite (bind_ok _ _ _ _ _ (os_remove_ok _ _ He)).
      erewrite os_rename_ok; [| | |right].
      * eexists. split; [reflexivity|]. cbn. rewrite Hfiles.
        split; [assumption|]. split; [now rewrite lookup_insert_eq|].
        split; [now rewrite lookup_insert_ne, lookup_delete_eq|].
        intros p Hp1 Hp2. now rewrite lookup_insert_ne, !lookup_delete_ne.
      * cbn. rewrite lookup_delete_ne by assumption. exact Hc0.
      * exact Hf0.
      * apply is_file_false. cbn. apply lookup_delete_eq.
    + rewrite (bind_ok _ _ w0 w0 tt) by reflexivity.
      erewrite os_rename_ok; [| exact Hc0 | exact Hf0 | now right].
      eexists. split; [reflexivity|]. cbn. rewrite Hfiles.
      split; [assumption|]. split; [now rewrite lookup_insert_eq|].
      split; [now rewrite lookup_insert_ne, lookup_delete_eq|].
      intros p Hp1 Hp2. now rewrite lookup_insert_ne, lookup_delete_ne.
  - (* deb: rename *)
    unfold package_deb_replace. on_machine.
    rewrite (bind_ok _ _ _ _ _ Hmk).
    erewrite os_rename_ok; [| exact Hc0 | exact Hf0 | now left].
    eexists. split; [reflexivity|]. cbn. rewrite Hfiles.
    split; [assumption|]. split; [now rewrite lookup_insert_eq|].
    split; [now rewrite lookup_insert_ne, lookup_delete_eq|].
    intros p Hp1 Hp2. now rewrite lookup_insert_ne, lookup_delete_ne.
  - (* src.tar.gz: rename *)
    unfold package_src_tar_gz_replace. on_machine.
    rewrite (bind_ok _ _ _ _ _ Hmk).
    erewrite os_rename_ok; [| exact Hc0 | exact Hf0 | now left].
    eexists. split; [reflexivity|]. cbn. rewrite Hfiles.
    split; [assumption|]. split; [now rewrite lookup_insert_eq|].
    split; [now rewrite lookup_insert_ne, lookup_delete_eq|].
    intros p Hp1 Hp2. now rewrite lookup_insert_ne, lookup_delete_ne.
Qed.

Lemma force_delete_run p w : force_delete p w = (fst (force_delete p w), Ok tt).
Proof. reflexivity. Qed.

(** The guarded replace: [if differs: replace; copied = True]. *)
Lemma copy_if a root staging asset c w (differs : bool) :
  runs_on a → staged a root staging asset c w →
  let dist_file := published root asset in
  let cand := candidate a staging asset in
  ∃ w', (if differs then replace_step a root staging asset ;;; ret true else ret false) w
        = (w', Ok differs) ∧
        (differs = true → files w' !! dist_file = Some (landed a c w)) ∧
        (differs = false → files w' !! dist_file = files w !! dist_file) ∧
        (differs = false → files w' !! cand = Some c).
Proof.
  intros Hp Hst dist_file cand. destruct differs.
  - destruct (replace_step_ok a root staging asset c w Hp Hst)
      as (w' & Hrun & _ & Hnew & _ & _).
    exists w'. rewrite (bind_ok _ _ _ _ _ Hrun).
    split; [reflexivity|]. split; [now intros _|]. split; discriminate.
  - exists w. split; [reflexivity|]. split; [discriminate|].
    split; intros _; [reflexivity|apply Hst].
Qed.

Lemma os_path_exists_run p w :
  is_dir w p = false → os_path_exists p w = (w, Ok (is_file w p)).
Proof. intros Hd. unfold os_path_exists. now rewrite Hd, orb_false_r. Qed.

(** The outcome of one publish step, shared by the statements below. *)
Lemma publish_run a root staging asset c w :
  runs_on a → staged a root staging asset c w →
  let dist_file := published root asset in
  let existed := is_file w dist_file in
  let same := match files w !! dist_file with
              | Some old => equivalent a (data c) (data old)
              | None => false
              end in
  let copied := forced a || negb existed || negb same in
  ∃ w' r,
    publish a root staging asset w = (w', Ok r) ∧
    (r !! "success" = Some (PBool true) ∧
     r !! "asset_file_name" = Some (PStr asset) ∧
     r !! "copied" = Some (PBool copied) ∧
     r !! "existed" = Some (PBool existed)) ∧
    (copied = true → files w' !! dist_file = Some (landed a c w)) ∧
    (copied = false → files w' !! dist_file = files w !! dist_file) ∧
    (copied = false →
     files w' !! candidate a staging asset
     = if a is PublishSrcTarGz then None else Some c).
Proof.
  intros Hp Hst dist_file existed same copied.
  pose proof Hst as (Hc & Hd & Hf & Hne & Hb & Hs).
  fold dist_file in Hf, Hne, Hb, Hs.
  destruct a; cbn [forced orb] in copied; unfold publish; cbv zeta.
  - (* zip *)
    unfold package_windows_zip_publish. cbv zeta. fold (published root asset) dist_file.
    destruct (os_makedirs_ok _ _ Hd) as (w0 & Hmk & Hfiles & Hclock & _ & _ & Hdirs).
    assert (Hst0 : staged PublishZip root staging asset c w0)
      by (apply (staged_ext _ _ _ _ _ w); assumption).
    assert (Hf0 : is_dir w0 dist_file = false) by (rewrite Hdirs; assumption).
    rewrite (bind_ok _ _ _ _ _ Hmk), (bind_ok _ _ _ _ _ (os_path_exists_run _ _ Hf0)).
    rewrite (bind_ok _ _ _ _ _
               (publish_differs PublishZip root staging asset c w0 (proj1 Hst0) Hf0)).
    fold dist_file. rewrite Hfiles, (is_file_files w w0) by assumption.
    fold existed same copied.
    destruct (copy_if PublishZip root staging asset c w0 copied Hp Hst0)
      as (w1 & Hrun & Hnew & Hold & Hcand).
    fold dist_file in Hnew, Hold. rewrite Hfiles in Hold.
    unfold landed in Hnew. rewrite Hclock in Hnew. fold (landed PublishZip c w) in Hnew.
    unfold replace_step in Hrun. cbv zeta in Hrun. fold dist_file in Hrun.
    cbn [candidate] in Hrun, Hcand.
    rewrite (bind_ok _ _ _ _ _ Hrun).
    eexists _, _. split; [reflexivity|].
    split; [repeat split; dict_lookup|]. auto.
  - (* msi *)
    unfold package_windows_msi_publish. cbv zeta. fold (published root asset) dist_file.
    rewrite (bind_ok _ _ _ _ _ (os_path_exists_run _ _ Hf)).
    rewrite (bind_ok _ _ w w copied).
    2:{ destruct force; [reflexivity|].
        apply (publish_differs (PublishMsi false) root staging asset c w Hc Hf). }
    destruct (copy_if (PublishMsi force) root staging asset c w copied Hp Hst)
      as (w1 & Hrun & Hnew & Hold & Hcand).
    fold dist_file in Hnew, Hold.
    unfold replace_step in Hrun. cbv zeta in Hrun. fold dist_file in Hrun.
    cbn [candidate] in Hrun, Hcand.
    rewrite (bind_ok _ _ _ _ _ Hrun).
    eexists _, _. split; [reflexivity|].
    split; [repeat split; dict_lookup|]. auto.
  - (* deb *)
    unfold package_deb_publish. cbv zeta. fold (published root asset) dist_file.
    rewrite (bind_ok _ _ _ _ _ (os_path_exists_run _ _ Hf)).
    rewrite (bind_ok _ _ _ _ _
               (publish_differs PublishDeb root staging asset c w Hc Hf)).
    fold dist_file existed same copied.
    destruct (copy_if PublishDeb root staging asset c w copied Hp Hst)
      as (w1 & Hrun & Hnew & Hold & Hcand).
    fold dist_file in Hnew, Hold.
    unfold replace_step in Hrun. cbv zeta in Hrun. fold dist_file in Hrun.
    cbn [candidate] in Hrun, Hcand.
    rewrite (bind_ok _ _ _ _ _ Hrun).
    eexists _, _. split; [reflexivity|].
    split; [repeat split; dict_lookup|]. auto.
  - (* src.tar.gz: the tarball is cleaned up whatever was decided *)
    unfold package_src_tar_gz_publish. cbv zeta. fold (published root asset) dist_file.
    rewrite (bind_ok _ _ _ _ _ (os_path_exists_run _ _ Hf)).
    rewrite (bind_ok _ _ _ _ _
               (publish_differs PublishSrcTarGz root staging asset c w Hc Hf)).
    fold dist_file existed same copied.
    destruct (copy_if PublishSrcTarGz root staging asset c w copied Hp Hst)
      as (w1 & Hrun & Hnew & Hold & Hcand).
    fold dist_file in Hnew, Hold.
    unfold replace_step in Hrun. cbv zeta in Hrun. fold dist_file in Hrun.
    cbn [candidate] in Hrun, Hcand, Hb |- *.
    rewrite (bind_ok _ _ _ _ _ Hrun).
    rewrite (bind_ok _ _ _ _ _ (force_delete_run _ _)).
    rewrite (bind_ok _ _ _ _ _ (force_delete_run _ _)).
    eexists _, _. split; [reflexivity|].
    split; [repeat split; dict_lookup|].
    rewrite !force_delete_lookup, Hb, (Hs eq_refl), below_refl. auto.
Qed.

(** C1 (amended).  For every publish attempt of a format (zip, msi, deb,
    src.tar.gz) whose candidate is staged: the candidate is copied into the
    dist directory if and only if force is true (msi only), or no previously
    published file of the same name exists, or the format's comparison
    reports candidate and published file as not equivalent.  When it is
    copied the summary reports [Created] if no previous file existed and
    [Updated] if one existed.  When it is not copied the summary reports
    [No changes] and the published file is left as it was; the candidate is
    removed from the staging location by src.tar.gz only, and stays in the
    temp or build directory for zip, msi and deb. *)
Theorem publish_decision a root staging asset c w defaults :
  runs_on a → staged a root staging asset c w →
  let dist_file := published root asset in
  let existed := is_file w dist_file in
  let same := match files w !! dist_file with
              | Some old => equivalent a (data c) (data old)
              | None => false
              end in
  let copied := forced a || negb existed || negb same in
  ∃ w' r,
    publish a root staging asset w = (w', Ok r) ∧
    r !! "copied" = Some (PBool copied) ∧
    r !! "existed" = Some (PBool existed) ∧
    (copied = true → files w' !! dist_file = Some (landed a c w)) ∧
    (copied = false →
     files w' !! dist_file = files w !! dist_file ∧
     files w' !! candidate a staging asset
     = if a is PublishSrcTarGz then None else Some c) ∧
    (∀ w'', display_package_results (summarised defaults r) w''
            = (emit (outcome_line copied existed asset) w'', Ok tt)).
Proof.
  intros Hp Hst dist_file existed same copied.
  destruct (publish_run a root staging asset c w Hp Hst)
    as (w' & r & Hrun & (Hs & Hn & Hc & He) & Hnew & Hold & Hcand).
  exists w', r. split; [exact Hrun|].
  split; [exact Hc|]. split; [exact He|].
  split; [exact Hnew|]. split; [now split; auto|].
  intros w''. now apply display_summarised.
Qed.

(** C4.  Publishing the same candidate content twice in a row (force
    false): the second attempt, started with the candidate rebuilt with the
    same bytes and the published file as the first attempt left it, reports
    copied = false ([No changes]) and leaves the published file as it was,
    bytes and modification time included.  The comparison is assumed to
    find a content equivalent to itself. *)
Theorem publish_twice_unchanged a root staging asset c c' w w' defaults :
  forced a = false → runs_on a →
  equivalent a (data c) (data c) = true →
  staged a root staging asset c w →
  staged a root staging asset c' w' →
  data c' = data c →
  files w' !! published root asset
  = files (fst (publish a root staging asset w)) !! published root asset →
  ∃ w2 r2,
    publish a root staging asset w' = (w2, Ok r2) ∧
    r2 !! "copied" = Some (PBool false) ∧
    files w2 !! published root asset
    = files (fst (publish a root staging asset w)) !! published root asset ∧
    (∀ w'', display_package_results (summarised defaults r2) w''
            = (emit ("No changes for dist/" +:+ asset) w'', Ok tt)).
Proof.
  intros Hforce Hp Hrefl Hst Hst' Hdata Hdist.
  destruct (publish_run a root staging asset c w Hp Hst)
    as (w1 & r1 & Hrun1 & _ & Hnew1 & Hold1 & _).
  rewrite Hrun1 in Hdist |- *. cbn [fst] in Hdist |- *.
  destruct (publish_run a root staging asset c' w' Hp Hst')
    as (w2 & r2 & Hrun2 & (Hs & Hn & Hc & He) & _ & Hold2 & _).
  assert (Hcopied : forced a
                    || negb (is_file w' (published root asset))
                    || negb match files w' !! published root asset with
                            | Some old => equivalent a (data c') (data old)
                            | None => false
                            end = false).
  { rewrite Hforce, Hdata. cbn [orb].
    destruct (forced a || negb (is_file w (published root asset))
              || negb match files w !! published root asset with
                      | Some old => equivalent a (data c) (data old)
                      | None => false
                      end) eqn:Hfirst.
    - (* the first attempt copied: dist holds the candidate's bytes *)
      rewrite (Hnew1 eq_refl) in Hdist.
      rewrite (is_file_Some _ _ _ Hdist), Hdist.
      replace (data (landed a c w)) with (data c) by (now destruct a).
      now rewrite Hrefl.
    - (* the first attempt found an equivalent file and left it *)
      rewrite Hforce in Hfirst. cbn [orb] in Hfirst.
      apply orb_false_elim in Hfirst as [Hex Hsame].
      apply negb_false_iff in Hex.
      rewrite (Hold1 eq_refl) in Hdist.
      apply is_file_true in Hex as [old Hold].
      rewrite Hold in Hdist, Hsame.
      rewrite (is_file_Some _ _ _ Hdist), Hdist.
      now rewrite Hsame. }
  rewrite Hcopied in Hc, Hold2.
  exists w2, r2. split; [exact Hrun2|]. split; [exact Hc|].
  split; [rewrite (Hold2 eq_refl); exact Hdist|].
  intros w''.
  rewrite (display_summarised defaults r2 false _ asset w'' Hs Hn Hc He).
  reflexivity.
Qed.



(** ** Interrupting the replace step *)

Lemma ends_as_bind {A B} (t : T A) (m : M A) (k : A → T B) (k' : A → M B) :
  ends_as t m → (∀ a, ends_as (k a) (k' a)) → ends_as (t_bind t k) (bind m k').
Proof.
  intros Ht Hk w. unfold t_bind, bind. rewrite <- (Ht w).
  destruct (t w) as [states [w' [a| |]]]; cbn [snd]; [|reflexivity|reflexivity].
  rewrite <- (Hk a w'). now destruct (k a w').
Qed.

Lemma last_cons_default {A} (x : A) l d : List.last (x :: l) d = List.last l x.
Proof.
  revert x d. induction l as [|y l IH]; intros x d; [reflexivity|].
  change (List.last (x :: y :: l) d) with (List.last (y :: l) d).
  now rewrite !IH.
Qed.

Lemma last_app_default {A} (l l' : list A) d :
  List.last (l ++ l') d = List.last l' (List.last l d).
Proof.
  revert d. induction l as [|x l IH]; intros d; [reflexivity|].
  now rewrite <- app_comm_cons, !last_cons_default, IH.
Qed.

Lemma closes_bind {A B} (t : T A) (k : A → T B) :
  closes t → (∀ a, closes (k a)) → closes (t_bind t k).
Proof.
  intros Ht Hk w. unfold t_bind. specialize (Ht w).
  destruct (t w) as [states [w' [a| |]]]; cbn [fst snd] in *; [|assumption|assumption].
  specialize (Hk a w'). destruct (k a w') as [states' r]. cbn [fst snd] in *.
  now rewrite last_app_default, Ht.
Qed.

Lemma copy_states_last block src dst w :
  List.last (copy_states block src dst w) w = fst (shutil_copy src dst w).
Proof.
  unfold copy_states, shutil_copy. cbv zeta.
  destruct (files w !! src) as [f|]; [|now destruct (is_dir w src)].
  destruct (String.eqb src _); [reflexivity|].
  now rewrite last_last.
Qed.

Lemma replace_step_ends_as block a root staging asset :
  ends_as (replace_step (calls := traced block) a root staging asset)
          (replace_step a root staging asset).
Proof.
  unfold replace_step. cbv zeta.
  destruct a;
    [unfold package_windows_zip_replace | unfold package_windows_msi_replace
    | unfold package_deb_replace | unfold package_src_tar_gz_replace];
    cbn [fs_ret fs_bind fs_makedirs fs_exists fs_remove fs_rename fs_copy machine traced];
    repeat first
      [ apply ends_as_bind; [|intros ?]
      | match goal with |- ends_as (if ?e then _ else _) _ => destruct e end
      | intros ?; reflexivity ].
Qed.

Lemma replace_step_closes block a root staging asset :
  closes (replace_step (calls := traced block) a root staging asset).
Proof.
  unfold replace_step. cbv zeta.
  destruct a;
    [unfold package_windows_zip_replace | unfold package_windows_msi_replace
    | unfold package_deb_replace | unfold package_src_tar_gz_replace];
    cbn [fs_ret fs_bind fs_makedirs fs_exists fs_remove fs_rename fs_copy traced];
    repeat first
      [ apply closes_bind; [|intros ?]
      | match goal with |- closes (if ?e then _ else _) => destruct e end
      | intros ?; apply copy_states_last
      | intros ?; reflexivity ].
Qed.

Lemma t_bind_ok {A B} (t : T A) (k : A → T B) w states w' a :
  t w = (states, (w', Ok a)) →
  t_bind t k w = ((states ++ fst (k a w'))%list, snd (k a w')).
Proof. intros E. unfold t_bind. rewrite E. now destruct (k a w'). Qed.

Lemma in_one_step_ok {A} (m : M A) w w' r :
  m w = (w', r) → in_one_step m w = ([w'], (w', r)).
Proof. intros E. unfold in_one_step. now rewrite E. Qed.

Lemma in_block_ends block len n :
  In n (block_ends block len) ↔ (n ≠ 0 ∧ n < len ∧ (block | n))%nat.
Proof.
  unfold block_ends. rewrite in_map_iff. split.
  - intros (i & <- & Hi). apply in_seq in Hi.
    destruct block as [|b]; [rewrite Nat.div_0_r in Hi; lia|].
    assert (i * S b <= len - 1)%nat.
    { transitivity (S b * ((len - 1) / S b))%nat; [nia|apply Nat.Div0.mul_div_le]. }
    split; [nia|]. split; [lia|]. now exists i.
  - intros (Hn & Hlen & (i & ->)). exists i. split; [reflexivity|].
    apply in_seq. destruct block as [|b]; [lia|].
    assert (i <= (len - 1) / S b)%nat by (apply Nat.div_le_lower_bound; nia).
    nia.
Qed.

(** C2 (amended).  The states an interruption of a replace step can leave
    are those the step passes through, and the last of them is the state
    the uninterrupted step ends in.  For deb and src.tar.gz the step is one
    [os.rename]: in every such state dist holds the old published file or
    the candidate.  For msi the old file is removed before the candidate is
    renamed: dist holds the old file, the candidate, or no file at all,
    and when an old file existed a state with no file does occur.  For zip
    the candidate is copied in place: dist holds the old file or a leading
    part of the candidate's bytes, and the empty file, every whole number
    of copy blocks short of the candidate, and the complete copy all
    occur. *)
Theorem interrupted_replace block a root staging asset c w :
  runs_on a → staged a root staging asset c w →
  let dist_file := published root asset in
  let old := files w !! dist_file in
  let run := replace_step (calls := traced block) a root staging asset w in
  let states := interrupted block a root staging asset w in
  snd run = replace_step a root staging asset w ∧
  List.last states w = fst (replace_step a root staging asset w) ∧
  match a with
  | PublishDeb | PublishSrcTarGz =>
      ∀ w', In w' states →
        files w' !! dist_file = old ∨ files w' !! dist_file = Some c
  | PublishMsi _ =>
      (∀ w', In w' states →
         files w' !! dist_file = old ∨ files w' !! dist_file = None ∨
         files w' !! dist_file = Some c) ∧
      (is_Some old → ∃ w', In w' states ∧ files w' !! dist_file = None)
  | PublishZip =>
      (∀ w', In w' states →
         files w' !! dist_file = old ∨
         ∃ n, data <$> files w' !! dist_file = Some (take n (data c))) ∧
      (∀ n, (n = 0 ∨ n = List.length (data c) ∨
             (n < List.length (data c) ∧ (block | n)))%nat →
         ∃ w', In w' states ∧ data <$> files w' !! dist_file = Some (take n (data c)))
  end.
Proof.
  intros Hp Hst dist_file old run states.
  split; [apply replace_step_ends_as|].
  split.
  { subst states. unfold interrupted.
    pose proof (replace_step_closes block a root staging asset w) as Hl.
    rewrite (replace_step_ends_as block a root staging asset w) in Hl.
    rewrite <- Hl.
    destruct (fst (replace_step (calls := traced block) a root staging asset w));
      reflexivity. }
  pose proof Hst as (Hc & Hd & Hf & Hne & Hb & _).
  pose proof (below_ne _ _ Hb) as Hcd.
  destruct (os_makedirs_ok _ _ Hd) as (w0 & Hmk & Hfiles & Hclock & _ & _ & Hdirs).
  fold dist_file in Hf, Hne, Hb, Hcd.
  assert (Hf0 : is_dir w0 dist_file = false) by (rewrite Hdirs; assumption).
  assert (Hc0 : files w0 !! candidate a staging asset = Some c)
    by (rewrite Hfiles; assumption).
  assert (Hold0 : files w0 !! dist_file = old) by (now rewrite Hfiles).
  pose proof (in_one_step_ok _ _ _ _ Hmk) as Hmk'.
  subst states run. unfold interrupted, replace_step. cbv zeta. fold dist_file.
  destruct a; cbn [candidate runs_on] in *.
  - (* zip: makedirs, then the copy *)
    unfold package_windows_zip_replace.
    cbn [fs_bind fs_makedirs fs_copy traced].
    rewrite (t_bind_ok _ _ _ _ _ _ Hmk'). cbn [fst snd app].
    unfold copy_states. cbv zeta. rewrite Hf0, Hc0.
    destruct (String.eqb_spec staging dist_file) as [E|_]; [contradiction|].
    rewrite (shutil_copy_ok _ _ _ _ Hc0 Hf0 Hcd). cbn [fst].
    set (partial := fun n : nat =>
           set_files (insert dist_file (File (take n (data c)) (clock w0)))
             (fst (open_wb dist_file w0))).
    split.
    + intros w' [<-|[<-|Hin]]; [now left|now left|]. right.
      apply in_app_iff in Hin as [[<-|Hin]|[<-|[]]].
      * exists 0%nat. cbn. now rewrite lookup_insert_eq.
      * apply in_map_iff in Hin as (n & <- & _). exists n.
        cbn. now rewrite lookup_insert_eq.
      * exists (List.length (data c)). cbn.
        now rewrite lookup_insert_eq, firstn_all.
    + intros n [->|[->|[Hlt Hdiv]]].
      * eexists. split; [right; right; apply in_app_iff; left; left; reflexivity|].
        cbn. now rewrite lookup_insert_eq.
      * eexists. split; [right; right; apply in_app_iff; right; left; reflexivity|].
        cbn. now rewrite lookup_insert_eq, firstn_all.
      * destruct (Nat.eq_dec n 0) as [->|Hn].
        -- eexists. split; [right; right; apply in_app_iff; left; left; reflexivity|].
           cbn. now rewrite lookup_insert_eq.
        -- exists (partial n). split.
           ++ right. right. apply in_app_iff. left. right.
              apply in_map_iff. exists n. split; [reflexivity|].
              apply in_block_ends. auto.
           ++ cbn. now rewrite lookup_insert_eq.
  - (* msi: makedirs, remove when the file exists, rename *)
    unfold package_windows_msi_replace.
    cbn [fs_ret fs_bind fs_makedirs fs_exists fs_remove fs_rename traced].
    rewrite (t_bind_ok _ _ _ _ _ _ Hmk'). cbn [fst snd app].
    rewrite (t_bind_ok _ _ w0 [] w0 (is_file w0 dist_file))
      by (unfold reading; now rewrite (os_path_exists_run _ _ Hf0)).
    cbn [app].
    destruct (is_file w0 dist_file) eqn:He.
    + rewrite (t_bind_ok _ _ _ _ _ _ (in_one_step_ok _ _ _ _ (os_remove_ok _ _ He))).
      cbn [app fst snd].
      erewrite (in_one_step_ok (os_rename _ _)); [|apply os_rename_ok; [| |right]].
      * cbn [fst]. split.
        -- intros w' [<-|[<-|[<-|[<-|[]]]]]; [now left|now left| |].
           ++ right. left. cbn. apply lookup_delete_eq.
           ++ right. right. cbn. apply lookup_insert_eq.
        -- intros _. eexists. split; [right; right; left; reflexivity|].
           cbn. apply lookup_delete_eq.
      * cbn. rewrite lookup_delete_ne by congruence. exact Hc0.
      * exact Hf0.
      * apply is_file_false. cbn. apply lookup_delete_eq.
    + rewrite (t_bind_ok _ _ w0 [] w0 tt) by reflexivity. cbn [app fst snd].
      erewrite (in_one_step_ok (os_rename _ _));
        [|apply os_rename_ok; [exact Hc0|exact Hf0|now right]].
      cbn [fst]. split.
      * intros w' [<-|[<-|[<-|[]]]]; [now left|now left|].
        right. right. cbn. apply lookup_insert_eq.
      * apply is_file_false in He. rewrite Hold0 in He. rewrite He.
        now intros [? ?].
  - (* deb: makedirs, rename *)
    unfold package_deb_replace. cbn [fs_bind fs_makedirs fs_rename traced].
    rewrite (t_bind_ok _ _ _ _ _ _ Hmk'). cbn [fst snd app].
    erewrite (in_one_step_ok (os_rename _ _));
      [|apply os_rename_ok; [exact Hc0|exact Hf0|now left]].
    cbn [fst]. intros w' [<-|[<-|[<-|[]]]]; [now left|now left|].
    right. cbn. apply lookup_insert_eq.
  - (* src.tar.gz: makedirs, rename *)
    unfold package_src_tar_gz_replace. cbn [fs_bind fs_makedirs fs_rename traced].
    rewrite (t_bind_ok _ _ _ _ _ _ Hmk'). cbn [fst snd app].
    erewrite (in_one_step_ok (os_rename _ _));
      [|apply os_rename_ok; [exact Hc0|exact Hf0|now left]].
    cbn [fst]. intros w' [<-|[<-|[<-|[]]]]; [now left|now left|].
    right. cbn. apply lookup_insert_eq.
Qed.

(** ** The orchestrators *)

Lemma bind_assoc {A B C} (m : M A) (k : A → M B) (h : B → M C) w :
  (y <- (x <- m ;; k x) ;; h y) w = (x <- m ;; y <- k x ;; h y) w.
Proof. unfold bind. destruct (m w) as [w' [a| |]]; reflexivity. Qed.

Lemma record_results_ok defaults r stop w :
  r !! "success" = Some (PBool true) →
  record_results defaults (Some r) stop w = (w, Ok (summarised defaults r)).
Proof.
  intros Hs. unfold record_results, dict_update.
  rewrite (bind_ok _ _ w w (r ∪ defaults)) by reflexivity.
  fold (summarised defaults r).
  unfold dict_item.
  now rewrite (summarised_lookup defaults r "success" _ ltac:(discriminate) Hs).
Qed.

Lemma record_results_failed defaults r stop name w :
  r !! "success" = Some (PBool false) →
  summarised defaults r !! "asset_file_name" = Some name →
  record_results defaults (Some r) stop w
  = (emit ("Error: Packaging dist/" +:+ py_str name +:+ " failed" +:+ stop) w, Exit 1).
Proof.
  intros Hs Hn. unfold record_results, dict_update.
  rewrite (bind_ok _ _ w w (r ∪ defaults)) by reflexivity.
  fold (summarised defaults r).
  unfold dict_item.
  rewrite (summarised_lookup defaults r "success" _ ltac:(discriminate) Hs), Hn.
  reflexivity.
Qed.

Lemma try_except_raised {A} (body : M A) handler w w' msg :
  body w = (w', Raised (CalledProcessError msg)) →
  try_except body handler w = handler msg w'.
Proof. intros E. unfold try_except. now rewrite E. Qed.

(** C9.  When [create_zip_file] raises CalledProcessError,
    [package_windows_zip] prints the zip error and returns [None]; the
    caller [package_all_windows] then fails in [zip_results.update(results)]
    with a TypeError: it neither prints its own failure diagnostic nor
    exits with status 1. *)
Theorem zip_failure_raises_type_error root version msg w w1 w2 :
  let asset_file_name := "ta-lib-" +:+ version +:+ "-win64.zip" in
  let temp_dir := path_join root "temp" in
  package_windows_zip_stage root version (initial_result PublishZip asset_file_name) w
  = (w1, Ok None) →
  create_zip_file (path_join temp_dir ("ta-lib-" +:+ version +:+ "-win64"))
                  (path_join temp_dir asset_file_name) w1
  = (w2, Raised (CalledProcessError msg)) →
  package_windows_zip root version w
  = (emit ("Error creating zip file: " +:+ msg) w2, Ok None) ∧
  package_all_windows root version w
  = (emit ("Error creating zip file: " +:+ msg) w2, Raised TypeError) ∧
  snd (package_all_windows root version w) ≠ Exit 1 ∧
  stdout (fst (package_all_windows root version w))
  = (stdout w2 ++ ["Error creating zip file: " +:+ msg])%list.
Proof.
  intros asset_file_name temp_dir Hstage Hzip.
  assert (Hret : package_windows_zip root version w
                 = (emit ("Error creating zip file: " +:+ msg) w2, Ok None)).
  { unfold package_windows_zip. cbv zeta.
    fold asset_file_name temp_dir. 
    change (<["asset_file_name":=PStr asset_file_name]> {["success" := PBool false]})
      with (initial_result PublishZip asset_file_name).
    rewrite (bind_ok _ _ _ _ _ Hstage).
    rewrite (bind_ok _ _ w1 (emit ("Error creating zip file: " +:+ msg) w2) false).
    - reflexivity.
    - now rewrite (try_except_raised _ _ _ _ _ (bind_raised _ _ _ _ _ Hzip)). }
  assert (Hall : package_all_windows root version w
                 = (emit ("Error creating zip file: " +:+ msg) w2, Raised TypeError)).
  { unfold package_all_windows. cbv zeta.
    rewrite (bind_ok _ _ _ _ _ Hret). reflexivity. }
  split; [exact Hret|]. split; [exact Hall|].
  rewrite Hall. split; [discriminate|reflexivity].
Qed.

(** C8.  On a RedHat-based host that is not Debian-based (so not Ubuntu,
    Ubuntu being Debian-based) and has rpmbuild, the RPM step of [package_all_linux] calls
    [package_deb]; its [is_debian_based] check fails, the result comes back
    with success = False, and the run stops with exit status 1 after the
    two error lines, without having touched a file; so does [main] on
    Linux once the repository and the version are known.  [package_rpm]
    itself returns failure whatever its arguments. *)
Theorem redhat_run_exits root version sudo_pwd w :
  is_redhat_based = true → is_debian_based = false →
  is_rpmbuild_installed = true →
  (is_ubuntu = true → is_debian_based = true) →
  let w0 := set_cwd root w in
  let w1 := emit "Error: Debian-based system required for .deb packaging." w0 in
  let w2 := emit "Error: Packaging dist/.rpm failed." w1 in
  package_deb root version sudo_pwd w0 = (w1, Ok {["success" := PBool false]}) ∧
  package_all_linux root version sudo_pwd w = (w2, Exit 1) ∧
  files w2 = files w ∧
  (∀ root' version' sudo_pwd' w',
     package_rpm root' version' sudo_pwd' w' = (w', Ok {["success" := PBool false]})) ∧
  (∀ u u',
     sys_platform = "linux" →
     verify_git_repo u = (u', Ok root) →
     sync_versions root u' = (w, Ok version) →
     main sudo_pwd u = (w2, Exit 1)).
Proof.
  intros Hred Hdeb Hrpm Hfamily w0 w1 w2.
  assert (Hubuntu : is_ubuntu = false).
  { destruct is_ubuntu; [|reflexivity]. rewrite Hfamily in Hdeb; congruence. }
  assert (Hcall : package_deb root version sudo_pwd w0
                  = (w1, Ok {["success" := PBool false]})).
  { unfold package_deb, package_deb_build. cbv zeta. rewrite Hdeb. reflexivity. }
  assert (Hall : package_all_linux root version sudo_pwd w = (w2, Exit 1)).
  { unfold package_all_linux. cbv zeta.
    rewrite Hubuntu, Hred, Hrpm. cbn [negb].
    rewrite (bind_ok _ _ w w0 tt) by reflexivity.
    rewrite (bind_ok _ _ w0 w0 (default_results "src.tar.gz")) by reflexivity.
    apply bind_exit.
    rewrite (bind_ok _ _ _ _ _ Hcall).
    now rewrite (record_results_failed _ _ _ (PStr ".rpm")). }
  split; [exact Hcall|]. split; [exact Hall|].
  split; [reflexivity|]. split; [reflexivity|].
  intros u u' Hlinux Hrepo Hversion. unfold main. cbv zeta.
  rewrite (bind_ok _ _ _ _ _ Hrepo), (bind_ok _ _ _ _ _ Hversion), Hlinux.
  exact Hall.
Qed.


(** ** What a computation leaves alone *)

Section Keeps.
Variable R : world → world → Prop.
Hypothesis R_same : ∀ w w', files w' = files w → R w w'.
Hypothesis R_trans : ∀ w1 w2 w3, R w1 w2 → R w2 w3 → R w1 w3.

Lemma keeps_same {A} (m : M A) :
  (∀ w, files (fst (m w)) = files w) → keeps R m.
Proof. intros Hm w. apply R_same, Hm. Qed.

Lemma keeps_ret {A} (a : A) : keeps R (ret a).
Proof. now apply keeps_same. Qed.







Lemma keeps_glob_glob p : keeps R (glob_glob p).
Proof. now apply keeps_same. Qed.


Lemma keeps_bind {A B} (m : M A) (k : A → M B) :
  keeps R m → (∀ a, keeps R (k a)) → keeps R (bind m k).
Proof.
  intros Hm Hk w. specialize (Hm w). unfold bind.
  destruct (m w) as [w' [a| |]]; cbn [fst] in *; [|assumption|assumption].
  eapply R_trans; [exact Hm|apply Hk].
Qed.

Lemma keeps_try_except {A} (body : M A) handler :
  keeps R body → (∀ msg, keeps R (handler msg)) → keeps R (try_except body handler).
Proof.
  intros Hb Hh w. specialize (Hb w). unfold try_except.
  destruct (body w) as [w' [a| |e]]; cbn [fst] in *; [assumption|assumption|].
  destruct e; try assumption.
  eapply R_trans; [exact Hb|apply Hh].
Qed.


Lemma keeps_for_each {A} (l : list A) body :
  (∀ x, keeps R (body x)) → keeps R (for_each l body).
Proof.
  intros Hb. induction l as [|x l IH]; cbn [for_each].
  - apply keeps_ret.
  - apply keeps_bind; [apply Hb|intros _; exact IH].
Qed.

End Keeps.



(** *** Paths below the repository *)

Lemma append_nil (b : string) : EmptyString +:+ b = b.
Proof. reflexivity. Qed.

Lemma append_cons x (a b : string) : String x a +:+ b = String x (a +:+ b).
Proof. reflexivity. Qed.

Lemma append_assoc (a b c : string) : (a +:+ b) +:+ c = a +:+ (b +:+ c).
Proof.
  induction a as [|x a IH]; [reflexivity|].
  now rewrite !append_cons, IH.
Qed.

Lemma os_path_join_slashed root x :
  startswith x "/" = false → os_path_join root x = slashed root +:+ x.
Proof.
  intros Hx. unfold os_path_join, slashed. rewrite Hx.
  destruct (String.eqb root EmptyString || endswith root "/"); [reflexivity|].
  now rewrite append_assoc.
Qed.

Lemma prefix_cons x s y p :
  String.prefix (String x s) (String y p)
  = if Ascii.ascii_dec x y then String.prefix s p else false.
Proof. reflexivity. Qed.

Lemma eqb_cons x s y p :
  String.eqb (String x s) (String y p)
  = if Ascii.eqb x y then String.eqb s p else false.
Proof. reflexivity. Qed.





(** ** The version check and the purge, as written *)

(** With exactly one match, [find_asset_with_ext] tests the version against
    the whole path of the match. *)
Lemma find_asset_with_ext_single target version ext filepath w :
  List.filter (glob_match (path_join target ("*." +:+ ext))) (all_paths w) = [filepath] →
  find_asset_with_ext target version ext w
  = if contains version filepath then (w, Ok (os_path_basename filepath))
    else (emit ("Error: Expected version " +:+ version +:+ " not found in " +:+ filepath) w,
          Exit 1).
Proof.
  intros Hfound. unfold find_asset_with_ext. cbv zeta.
  rewrite (bind_ok _ _ w w [filepath]) by (unfold glob_glob; now rewrite Hfound).
  destruct (contains version filepath); reflexivity.
Qed.

Lemma all_paths_exists w p : In p (all_paths w) ↔ is_file w p || is_dir w p = true.
Proof.
  unfold all_paths, is_file, is_dir.
  rewrite <- list_elem_of_In, elem_of_elements, elem_of_union, elem_of_dom.
  rewrite orb_true_iff, !bool_decide_eq_true. reflexivity.
Qed.




(** ** The layout of the repository *)

(** Where each function stages its candidate. *)
Lemma below_append pre x y : below (pre +:+ x) (pre +:+ y) = below x y.
Proof.
  unfold below. induction pre as [|c pre IH]; [reflexivity|].
  rewrite !append_cons, eqb_cons, prefix_cons, Ascii.eqb_refl.
  destruct (Ascii.ascii_dec c c) as [_|Hc]; [exact IH|now contradiction Hc].
Qed.

Lemma endswith_append pre d :
  endswith d "/" = false → d ≠ EmptyString → endswith (pre +:+ d) "/" = false.
Proof.
  intros Hd Hne. induction pre as [|x s IH]; [exact Hd|].
  rewrite append_cons. cbn [endswith]. rewrite IH, eqb_cons, orb_false_r.
  destruct (Ascii.eqb "/" x); [|reflexivity].
  destruct s; [|reflexivity].
  rewrite append_nil. now destruct d.
Qed.

Lemma not_absolute name : contains "/" name = false → startswith name "/" = false.
Proof.
  unfold startswith. destruct name as [|c name]; [reflexivity|].
  cbn [contains]. now intros [H _]%orb_false_elim.
Qed.

Lemma published_slashed root asset :
  contains "/" asset = false →
  published root asset = slashed root +:+ "dist/" +:+ asset.
Proof.
  intros Hname. apply not_absolute in Hname.
  unfold published. rewrite (os_path_join_slashed root "dist") by reflexivity.
  unfold os_path_join.
  rewrite Hname, (endswith_append _ "dist") by done. rewrite orb_false_r.
  destruct (String.eqb_spec (slashed root +:+ "dist") EmptyString) as [E|_].
  - now destruct (slashed root).
  - now rewrite !append_assoc.
Qed.

(** The candidate of each format, where its function puts it, is staged as
    soon as it exists, dist is not a regular file and the published path is
    not a directory; the asset name is a plain file name. *)
Lemma staged_in_layout a root asset c w :
  contains "/" asset = false →
  let staging :=
    match a with
    | PublishZip => path_join (path_join root "temp") asset
    | PublishMsi _ => path_join root "build"
    | PublishDeb => os_path_join (os_path_join root "build") asset
    | PublishSrcTarGz => os_path_join (os_path_join root "temp") "ta-lib-git.tar.gz"
    end in
  files w !! candidate a staging asset = Some c →
  is_file w (os_path_join root "dist") = false →
  is_dir w (published root asset) = false →
  staged a root staging asset c w.
Proof.
  intros Hname staging Hc Hd Hf.
  pose proof (not_absolute _ Hname) as Habs.
  assert (Hjoin : ∀ d name, d ≠ EmptyString →
            startswith d "/" = false → startswith name "/" = false →
            endswith (slashed root +:+ d) "/" = false →
            os_path_join (os_path_join root d) name
            = slashed root +:+ d +:+ "/" +:+ name).
  { intros d name Hne Hd' Hn He. rewrite (os_path_join_slashed root d Hd').
    unfold os_path_join. rewrite Hn, He, orb_false_r.
    destruct (String.eqb_spec (slashed root +:+ d) EmptyString) as [E|_].
    - destruct (slashed root); [now rewrite append_nil in E|discriminate E].
    - now rewrite !append_assoc. }
  assert (Hends : ∀ d, endswith d "/" = false → d ≠ EmptyString →
            endswith (slashed root +:+ d) "/" = false).
  { intros d Hd' Hne. now apply endswith_append. }
  unfold staged. cbv zeta. rewrite (published_slashed root asset Hname).
  rewrite (published_slashed root asset Hname) in Hf.
  split; [exact Hc|]. split; [exact Hd|]. split; [exact Hf|].
  split.
  - rewrite (os_path_join_slashed root "dist") by reflexivity.
    intros E. apply (inj (String.append (slashed root))) in E.
    vm_compute in E. discriminate E.
  - assert (Hcand : ∃ rest, candidate a staging asset = slashed root +:+ rest ∧
                            below rest ("dist/" +:+ asset) = false).
    { subst staging. destruct a; cbn [candidate]; unfold path_join.
      - exists ("temp/" +:+ asset).
        rewrite (Hjoin "temp" asset) by (try apply Hends; done). now split.
      - exists ("build/" +:+ asset).
        rewrite (Hjoin "build" asset) by (try apply Hends; done). now split.
      - exists ("build/" +:+ asset).
        rewrite (Hjoin "build" asset) by (try apply Hends; done). now split.
      - exists "temp/ta-lib-git.tar.gz".
        rewrite (Hjoin "temp" "ta-lib-git.tar.gz") by (try apply Hends; done). now split. }
    destruct Hcand as (rest & -> & Hrest).
    split; [now rewrite below_append|].
    intros _. rewrite (os_path_join_slashed root "ta-lib-git.tar.gz") by reflexivity.
    now rewrite below_append.
Qed.


(** ** The purge of other versions *)

Lemma purge_run (keep : string → bool) l w :
  snd (for_each l (fun file => if negb (keep file) then force_delete file else ret tt) w)
  = Ok tt.
Proof.
  revert w. induction l as [|x l IH]; intros w; cbn [for_each]; [reflexivity|].
  destruct (keep x); cbn [negb].
  - rewrite (bind_ok _ _ w w tt) by reflexivity. apply IH.
  - rewrite (bind_ok _ _ _ _ _ (force_delete_run x w)). apply IH.
Qed.

Lemma purge_files (keep : string → bool) l w q :
  files (fst (for_each l (fun file => if negb (keep file) then force_delete file else ret tt) w))
    !! q
  = if existsb (fun x => negb (keep x) && below x q) l then None else files w !! q.
Proof.
  revert w. induction l as [|x l IH]; intros w; cbn [for_each existsb]; [reflexivity|].
  destruct (keep x); cbn [negb andb orb].
  - rewrite (bind_ok _ _ w w tt) by reflexivity. apply IH.
  - rewrite (bind_ok _ _ _ _ _ (force_delete_run x w)).
    rewrite IH, force_delete_lookup.
    destruct (below x q); cbn [orb]; [|reflexivity].
    now destruct (existsb _ l).
Qed.

Lemma force_delete_is_dir p q w :
  is_dir (fst (force_delete p w)) q = is_dir w q && negb (below p q).
Proof.
  unfold is_dir, force_delete, set_dirs, set_files. cbn [fst dirs].
  destruct (below p q) eqn:Hb.
  - rewrite andb_false_r. apply bool_decide_eq_false.
    rewrite elem_of_filter. intros [Hq _]. congruence.
  - rewrite andb_true_r. apply bool_decide_ext. rewrite elem_of_filter. tauto.
Qed.


Lemma purge_rest (keep : string → bool) l w :
  let w' := fst (for_each l (fun file =>
                   if negb (keep file) then force_delete file else ret tt) w) in
  cwd w' = cwd w ∧ stdout w' = stdout w ∧ clock w' = clock w.
Proof.
  revert w. induction l as [|x l IH]; intros w; cbn [for_each]; [now cbv zeta|].
  destruct (keep x); cbn [negb].
  - rewrite (bind_ok _ _ w w tt) by reflexivity. apply IH.
  - rewrite (bind_ok _ _ _ _ _ (force_delete_run x w)).
    destruct (IH (fst (force_delete x w))) as (H1 & H2 & H3).
    cbv zeta. rewrite H1, H2, H3. now split.
Qed.

Lemma existsb_filter {A} (f g : A → bool) l :
  existsb f (List.filter g l) = existsb (fun x => g x && f x) l.
Proof.
  induction l as [|x l IH]; [reflexivity|]. cbn [List.filter existsb].
  destruct (g x); cbn [existsb andb orb]; now rewrite IH.
Qed.


(** ** The working directory *)

Lemma try_finally_chdir {A} (body : M A) d w :
  cwd (fst (try_finally body (os_chdir d) w)) = d.
Proof. unfold try_finally. now destruct (body w) as [w' r]. Qed.

Lemma do_cmake_build_cwd build_dir w : cwd (fst (do_cmake_build build_dir w)) = cwd w.
Proof.
  unfold do_cmake_build. rewrite (bind_ok _ _ w w (cwd w)) by reflexivity.
  apply try_finally_chdir.
Qed.

Lemma do_cpack_build_cwd build_dir w : cwd (fst (do_cpack_build build_dir w)) = cwd w.
Proof.
  unfold do_cpack_build. rewrite (bind_ok _ _ w w (cwd w)) by reflexivity.
  apply try_finally_chdir.
Qed.

Lemma do_cmake_reconfigure_cwd root options sudo_pwd w :
  cwd (fst (do_cmake_reconfigure root options sudo_pwd w)) = cwd w.
Proof.
  unfold do_cmake_reconfigure. cbv zeta.
  rewrite (bind_ok _ _ w w _) by reflexivity.
  set (w0 := fst ((if is_file w (path_join root "build") || is_dir w (path_join root "build")
                   then force_delete (path_join root "build") else ret tt) w)).
  assert (Hw0 : (if is_file w (path_join root "build") || is_dir w (path_join root "build")
                 then force_delete (path_join root "build") else ret tt) w = (w0, Ok tt))
    by (subst w0; now destruct (_ || _)).
  assert (Hcwd : cwd w0 = cwd w) by (subst w0; now destruct (_ || _)).
  rewrite (bind_ok _ _ _ _ _ Hw0). clearbody w0.
  destruct is_cmake_installed; cbn [negb]; [|exact Hcwd].
  rewrite (bind_ok _ _ w0 w0 _) by reflexivity.
  destruct (is_file w0 _); cbn [negb]; [|exact Hcwd].
  rewrite (bind_ok _ _ w0 w0 (cwd w0)) by reflexivity.
  unfold bind at 1.
  match goal with |- context [try_finally ?b ?f w0] =>
    pose proof (try_finally_chdir b (cwd w0) w0) as Hfin;
    destruct (try_finally b f w0) as [w1 [[]| |]] end;
    unfold ret; cbn [fst] in *; congruence.
Qed.

(** X2.  [do_cmake_reconfigure], [do_cmake_build] and [do_cpack_build]
    leave the working directory as they found it, however they end: by
    returning, by [sys.exit], or with an exception of the tool. *)
Theorem cmake_steps_restore_cwd root options sudo_pwd build_dir w :
  cwd (fst (do_cmake_reconfigure root options sudo_pwd w)) = cwd w ∧
  cwd (fst (do_cmake_build build_dir w)) = cwd w ∧
  cwd (fst (do_cpack_build build_dir w)) = cwd w.
Proof.
  split; [apply do_cmake_reconfigure_cwd|].
  split; [apply do_cmake_build_cwd|apply do_cpack_build_cwd].
Qed.

(** ** Names and paths *)

Lemma contains_cons sub c s :
  contains sub (String c s) = String.prefix sub (String c s) || contains sub s.
Proof. reflexivity. Qed.

Lemma contains_slash_cons c s :
  contains "/" (String c s) = Ascii.eqb "/" c || contains "/" s.
Proof.
  rewrite contains_cons, prefix_cons. f_equal.
  destruct (Ascii.ascii_dec "/" c) as [<-|Hne]; [rewrite Ascii.eqb_refl; now destruct s|].
  symmetry. now apply Ascii.eqb_neq.
Qed.

Lemma basename_cons c p :
  os_path_basename (String c p)
  = if contains "/" (String c p) then os_path_basename p else String c p.
Proof. reflexivity. Qed.

Lemma pattern_dir_cons c p :
  pattern_dir (String c p) = if contains "/" p then String c (pattern_dir p) else EmptyString.
Proof. reflexivity. Qed.

Lemma endswith_cons c s suf :
  endswith (String c s) suf = String.eqb suf (String c s) || endswith s suf.
Proof. reflexivity. Qed.

Lemma basename_no_slash p : contains "/" (os_path_basename p) = false.
Proof.
  induction p as [|c p IH]; [reflexivity|].
  rewrite basename_cons. destruct (contains "/" (String c p)) eqn:E; [exact IH|exact E].
Qed.

Lemma basename_id p : contains "/" p = false → os_path_basename p = p.
Proof. destruct p as [|c p]; [reflexivity|]. intros E. now rewrite basename_cons, E. Qed.

Lemma contains_append_slash s0 rest : contains "/" (s0 +:+ "/" +:+ rest) = true.
Proof.
  induction s0 as [|c s0 IH].
  - rewrite append_nil, append_cons, append_nil, contains_slash_cons. reflexivity.
  - rewrite append_cons, contains_slash_cons, IH. apply orb_true_r.
Qed.

Lemma pattern_dir_append s0 pat :
  contains "/" pat = false → pattern_dir (s0 +:+ "/" +:+ pat) = s0.
Proof.
  intros Hpat. induction s0 as [|c s0 IH].
  - rewrite append_nil, append_cons, append_nil, pattern_dir_cons. now rewrite Hpat.
  - rewrite append_cons, pattern_dir_cons, contains_append_slash. now rewrite IH.
Qed.

Lemma basename_append s0 pat :
  contains "/" pat = false → os_path_basename (s0 +:+ "/" +:+ pat) = pat.
Proof.
  intros Hpat. induction s0 as [|c s0 IH].
  - rewrite append_nil, append_cons, append_nil, basename_cons, contains_slash_cons.
    rewrite Ascii.eqb_refl. cbn [orb]. now apply basename_id.
  - rewrite append_cons, basename_cons, contains_slash_cons, contains_append_slash.
    rewrite orb_true_r. exact IH.
Qed.

Lemma endswith_split s : endswith s "/" = true → ∃ s0, s = s0 +:+ "/".
Proof.
  induction s as [|c s IH]; [discriminate|].
  rewrite endswith_cons. intros [E|E]%orb_true_iff.
  - apply String.eqb_eq in E. exists EmptyString. now rewrite append_nil.
  - destruct (IH E) as [s0 ->]. exists (String c s0). now rewrite append_cons.
Qed.

Lemma slashed_shape t : slashed t = EmptyString ∨ ∃ s0, slashed t = s0 +:+ "/".
Proof.
  unfold slashed. destruct (String.eqb_spec t EmptyString) as [->|_]; cbn [orb].
  - now left.
  - right. destruct (endswith t "/") eqn:E; [now apply endswith_split|now exists t].
Qed.

(** A path that [glob] returns for a pattern [dir/pat] is [dir] joined with its own base name. *)
Lemma glob_match_joined t pat p :
  contains "/" pat = false →
  glob_match (os_path_join t pat) p = true →
  p = os_path_join t (os_path_basename p) ∧ fnmatch pat (os_path_basename p) = true.
Proof.
  intros Hpat Hm.
  rewrite (os_path_join_slashed t pat (not_absolute _ Hpat)) in Hm.
  rewrite (os_path_join_slashed t _ (not_absolute _ (basename_no_slash p))).
  unfold glob_match in Hm. cbv zeta in Hm.
  apply andb_true_iff in Hm as [Hm _]. apply andb_true_iff in Hm as [Hm Hfn].
  apply andb_true_iff in Hm as [Hpath _].
  apply String.eqb_eq in Hpath.
  destruct (slashed_shape t) as [E|[s0 E]]; rewrite E in Hpath, Hfn |- *.
  - rewrite append_nil in Hpath, Hfn |- *. rewrite Hpat in Hpath.
    rewrite (basename_id pat Hpat) in Hfn. now split.
  - rewrite append_assoc in Hpath, Hfn.
    rewrite contains_append_slash, pattern_dir_append in Hpath by assumption.
    rewrite basename_append in Hfn by assumption. rewrite append_assoc. now split.
Qed.



(** X4.  In a clone whose path has no glob character: once its build has
    gone through, [package_deb] has three ways on: it reports that it did
    not find exactly one .deb file, it reports that the version is missing
    from the path of the one it found, or it runs the publish step on that
    file.  The sanity check of lines 324-328 does not fail there: the base
    name joined back to the build directory is the path that glob returned,
    and that path is a file or a directory of the store. *)
Theorem package_deb_after_build root version sudo_pwd w w1 :
  has_magic root = false →
  package_deb_build root version sudo_pwd {["success" := PBool false]} w = (w1, Ok None) →
  let result : dict := {["success" := PBool false]} in
  let build_dir := os_path_join root "build" in
  let found := List.filter (glob_match (os_path_join build_dir "*.deb")) (all_paths w1) in
  package_deb root version sudo_pwd w =
  match found with
  | [deb_file] =>
      if contains version deb_file
      then package_deb_publish root deb_file (os_path_basename deb_file) result w1
      else (emit ("Error: Expected version " +:+ version +:+ " in " +:+ deb_file) w1,
            Ok result)
  | _ => (emit ("Error: Expected one .deb file, found " +:+ str_of_nat (List.length found)) w1,
          Ok result)
  end ∧
  ∀ deb_file, In deb_file found →
    os_path_join build_dir (os_path_basename deb_file) = deb_file ∧
    os_path_exists deb_file w1 = (w1, Ok true).
Proof.
  intros _ Hbuild result build_dir found.
  assert (Hround : ∀ deb_file, In deb_file found →
            os_path_join build_dir (os_path_basename deb_file) = deb_file ∧
            os_path_exists deb_file w1 = (w1, Ok true)).
  { intros p [Hthere Hmatch]%filter_In.
    destruct (glob_match_joined build_dir "*.deb" p eq_refl Hmatch) as [Hjoin _].
    split; [now rewrite <- Hjoin|].
    unfold os_path_exists. apply all_paths_exists in Hthere. now rewrite Hthere. }
  split; [|exact Hround].
  unfold package_deb. cbv zeta. rewrite (bind_ok _ _ _ _ _ Hbuild).
  fold build_dir. rewrite (bind_ok _ _ w1 w1 found) by reflexivity.
  destruct found as [|p [|p' l]] eqn:Hfound; [reflexivity| |reflexivity].
  destruct (contains version p); cbn [negb]; [|reflexivity].
  destruct (Hround p (or_introl eq_refl)) as [-> Hex].
  now rewrite (bind_ok _ _ _ _ _ Hex).
Qed.


(** ** What a computation returns *)

Lemma returns_ret {A} (P : A → Prop) a : P a → returns P (ret a).
Proof. intros Ha w w' b [= _ <-]. exact Ha. Qed.

Lemma returns_sys_exit {A} (P : A → Prop) c : returns P (sys_exit c).
Proof. intros w w' a [=]. Qed.

Lemma returns_bind {A B} (Q : A → Prop) (P : B → Prop) (m : M A) (k : A → M B) :
  returns Q m → (∀ a, Q a → returns P (k a)) → returns P (bind m k).
Proof.
  intros Hm Hk w w' b Hrun. unfold bind in Hrun.
  destruct (m w) as [w1 [a| |]] eqn:E; [|discriminate|discriminate].
  exact (Hk a (Hm _ _ _ E) _ _ _ Hrun).
Qed.

Lemma returns_any {A} (m : M A) : returns (fun _ => True) m.
Proof. now intros w w' a _. Qed.

Lemma returns_then {A B} (P : B → Prop) (m : M A) (k : A → M B) :
  (∀ a, returns P (k a)) → returns P (bind m k).
Proof. intros Hk. apply (returns_bind (fun _ => True)); [apply returns_any|auto]. Qed.

Lemma returns_try_except {A} (P : A → Prop) (body : M A) handler :
  returns P body → (∀ msg, returns P (handler msg)) → returns P (try_except body handler).
Proof.
  intros Hb Hh w w' a Hrun. unfold try_except in Hrun.
  destruct (body w) as [w1 [b| |e]] eqn:E.
  - injection Hrun as <- <-. exact (Hb _ _ _ E).
  - discriminate.
  - destruct e; try discriminate. exact (Hh _ _ _ _ Hrun).
Qed.

Lemma returns_try_finally {A} (P : A → Prop) (body : M A) fin :
  returns P body → returns P (try_finally body fin).
Proof.
  intros Hb w w' a Hrun. unfold try_finally in Hrun.
  destruct (body w) as [w1 r] eqn:E.
  destruct (fin w1) as [w2 [[]| |]]; [|discriminate|discriminate].
  injection Hrun as <- ->. exact (Hb _ _ _ E).
Qed.

(** A tool call wrapped as [try: run; except CalledProcessError: print]
    yields a flag and nothing else. *)
Ltac returns_tac :=
  repeat first
    [ apply returns_sys_exit
    | apply returns_then; intros ?
    | match goal with |- returns _ (if ?c then _ else _) => destruct c end ].

(** ** The result dictionaries *)

Lemma package_deb_build_returns root version sudo_pwd result :
  returns (fun early => early = None ∨ early = Some result)
          (package_deb_build root version sudo_pwd result).
Proof.
  unfold package_deb_build. cbv zeta.
  returns_tac; apply returns_ret; auto.
Qed.

Lemma complete_inserted result name existed copied :
  complete (<["copied" := PBool copied]>
            (<["existed" := PBool existed]>
             (<["asset_file_name" := PStr name]>
              (<["success" := PBool true]> result)))).
Proof.
  split; [|split; [|split]].
  - repeat (rewrite lookup_insert_ne by discriminate). apply lookup_insert_eq.
  - exists name. repeat (rewrite lookup_insert_ne by discriminate). apply lookup_insert_eq.
  - exists existed. repeat (rewrite lookup_insert_ne by discriminate). apply lookup_insert_eq.
  - exists copied. apply lookup_insert_eq.
Qed.

Lemma package_deb_publish_returns root deb_file asset result :
  returns complete (package_deb_publish root deb_file asset result).
Proof.
  unfold package_deb_publish. cbv zeta.
  returns_tac; apply returns_ret, complete_inserted.
Qed.

Lemma package_deb_returns root version sudo_pwd :
  returns (fun r => r = bare_failure ∨ complete r) (package_deb root version sudo_pwd).
Proof.
  unfold package_deb. cbv zeta.
  apply (returns_bind _ _ _ _ (package_deb_build_returns _ _ _ _)).
  intros early [->| ->]; [|apply returns_ret; now left].
  apply returns_then. intros found.
  destruct found as [|p [|p' l]]; [returns_tac; apply returns_ret; now left| |
                                   returns_tac; apply returns_ret; now left].
  destruct (contains version p); cbn [negb];
    [|returns_tac; apply returns_ret; now left].
  apply returns_then. intros e. destruct e; cbn [negb];
    [|returns_tac; apply returns_ret; now left].
  intros w w' r Hrun. right. exact (package_deb_publish_returns _ _ _ _ _ _ _ Hrun).
Qed.

Lemma package_windows_msi_publish_returns root build_dir asset force result :
  returns complete (package_windows_msi_publish root build_dir asset force result).
Proof.
  unfold package_windows_msi_publish. cbv zeta.
  returns_tac; apply returns_ret, complete_inserted.
Qed.

Lemma package_windows_msi_build_returns root result :
  returns (fun r => r = inl result ∨ ∃ build_dir, r = inr build_dir)
          (package_windows_msi_build root result).
Proof.
  unfold package_windows_msi_build. cbv zeta.
  returns_tac; apply returns_ret; eauto.
Qed.

Lemma package_windows_msi_returns root version force :
  returns (fun r => r = bare_failure ∨ complete r) (package_windows_msi root version force).
Proof.
  unfold package_windows_msi. cbv zeta.
  apply (returns_bind _ _ _ _ (package_windows_msi_build_returns _ _)).
  intros r [->|[build_dir ->]]; [apply returns_ret; now left|].
  apply returns_then. intros asset w w' r Hrun. right.
  exact (package_windows_msi_publish_returns _ _ _ _ _ _ _ _ Hrun).
Qed.

Lemma package_src_tar_gz_build_returns root version sudo_pwd result :
  returns (fun early => early = None ∨ early = Some result)
          (package_src_tar_gz_build root version sudo_pwd result).
Proof.
  unfold package_src_tar_gz_build. cbv zeta.
  returns_tac; apply returns_ret; auto.
Qed.

Lemma complete_inserted_named result name existed copied :
  result !! "asset_file_name" = Some (PStr name) →
  let r := <["copied" := PBool copied]>
             (<["existed" := PBool existed]> (<["success" := PBool true]> result)) in
  complete r ∧ r !! "asset_file_name" = Some (PStr name).
Proof.
  intros Hn r.
  assert (Hname : r !! "asset_file_name" = Some (PStr name)).
  { subst r. now repeat (rewrite lookup_insert_ne by discriminate). }
  split; [|exact Hname]. split; [|split; [|split]].
  - subst r. repeat (rewrite lookup_insert_ne by discriminate). apply lookup_insert_eq.
  - now exists name.
  - exists existed. subst r. repeat (rewrite lookup_insert_ne by discriminate).
    apply lookup_insert_eq.
  - exists copied. apply lookup_insert_eq.
Qed.

Lemma package_src_tar_gz_publish_returns root asset src dest result name :
  result !! "asset_file_name" = Some (PStr name) →
  returns (fun r => complete r ∧ r !! "asset_file_name" = Some (PStr name))
          (package_src_tar_gz_publish root asset src dest result).
Proof.
  intros Hn. unfold package_src_tar_gz_publish. cbv zeta.
  returns_tac; apply returns_ret, complete_inserted_named, Hn.
Qed.

Lemma package_src_tar_gz_returns root version sudo_pwd :
  let name := "ta-lib-" +:+ version +:+ "-src.tar.gz" in
  returns (fun r => r !! "asset_file_name" = Some (PStr name) ∧
                    (r = <["asset_file_name" := PStr name]> bare_failure ∨ complete r))
          (package_src_tar_gz root version sudo_pwd).
Proof.
  intros name. unfold package_src_tar_gz. cbv zeta. fold name.
  apply (returns_bind _ _ _ _ (package_src_tar_gz_build_returns _ _ _ _)).
  intros early [->| ->].
  - intros w w' r Hrun.
    destruct (package_src_tar_gz_publish_returns _ _ _ _ _ name (lookup_insert_eq _ _ _)
                _ _ _ Hrun) as [Hc Hname].
    split; [exact Hname|now right].
  - apply returns_ret. split; [apply lookup_insert_eq|now left].
Qed.

(** X6.  Whatever [package_deb] and [package_windows_msi] return is either
    [{"success": False}] and nothing else, or a dictionary with success =
    True, the asset's file name and the flags existed and copied.  What
    [package_src_tar_gz] returns always carries the asset file name
    ta-lib-<version>-src.tar.gz, and is either that name with success =
    False, or has success = True and both flags. *)
Theorem results_carry_their_keys root version sudo_pwd force w w' r :
  (package_deb root version sudo_pwd w = (w', Ok r) → r = bare_failure ∨ complete r) ∧
  (package_windows_msi root version force w = (w', Ok r) → r = bare_failure ∨ complete r) ∧
  (package_src_tar_gz root version sudo_pwd w = (w', Ok r) →
   let name := "ta-lib-" +:+ version +:+ "-src.tar.gz" in
   r !! "asset_file_name" = Some (PStr name) ∧
   (r = <["asset_file_name" := PStr name]> bare_failure ∨ complete r)).
Proof.
  split; [apply package_deb_returns|].
  split; [apply package_windows_msi_returns|apply package_src_tar_gz_returns].
Qed.

(** ** The copy block of the zip *)

Lemma never_cpe_ret {A} (a : A) : never_cpe (ret a).
Proof. intros w w' msg [=]. Qed.

Lemma never_cpe_bind {A B} (m : M A) (k : A → M B) :
  never_cpe m → (∀ a, never_cpe (k a)) → never_cpe (bind m k).
Proof.
  intros Hm Hk w w' msg Hrun. unfold bind in Hrun.
  destruct (m w) as [w1 [a| |e]] eqn:E.
  - exact (Hk _ _ _ _ Hrun).
  - discriminate.
  - injection Hrun as -> ->. exact (Hm _ _ _ E).
Qed.

Lemma never_cpe_for_each {A} (l : list A) body :
  (∀ x, never_cpe (body x)) → never_cpe (for_each l body).
Proof.
  intros Hb. induction l as [|x l IH]; cbn [for_each].
  - apply never_cpe_ret.
  - apply never_cpe_bind; [apply Hb|intros _; exact IH].
Qed.

Lemma never_cpe_os_chdir d : never_cpe (os_chdir d).
Proof. intros w w' msg [=]. Qed.

Lemma never_cpe_in_cwd name : never_cpe (in_cwd name).
Proof. intros w w' msg [=]. Qed.

Lemma never_cpe_glob_glob p : never_cpe (glob_glob p).
Proof. intros w w' msg [=]. Qed.

Lemma never_cpe_open_wb p : never_cpe (open_wb p).
Proof. intros w w' msg [=]. Qed.

Lemma never_cpe_write_all p bytes : never_cpe (write_all p bytes).
Proof. intros w w' msg [=]. Qed.

Lemma never_cpe_shutil_copy src dst : never_cpe (shutil_copy src dst).
Proof.
  intros w w' msg. unfold shutil_copy. cbv zeta.
  destruct (files w !! src);
    [|destruct (is_dir w src); [destruct (String.eqb _ _)|]; discriminate].
  destruct (String.eqb _ _); [discriminate|].
  apply never_cpe_bind; [apply never_cpe_open_wb|intros _; apply never_cpe_write_all].
Qed.

Lemma try_except_never {A} (body : M A) handler w :
  never_cpe body → try_except body handler w = body w.
Proof.
  intros Hb. unfold try_except.
  destruct (body w) as [w1 [a| |e]] eqn:E; try reflexivity.
  destruct e; try reflexivity. now contradiction (Hb _ _ _ E).
Qed.

Lemma package_windows_zip_stage_returns root version result :
  returns (fun early => early = None) (package_windows_zip_stage root version result).
Proof.
  unfold package_windows_zip_stage. cbv zeta.
  do 10 (apply returns_then; intros ?).
  apply returns_try_finally.
  intros w w' r. rewrite try_except_never.
  - revert w w' r. returns_tac. now apply returns_ret.
  - repeat first [ apply never_cpe_ret | apply never_cpe_os_chdir | apply never_cpe_in_cwd
                 | apply never_cpe_glob_glob | apply never_cpe_open_wb
                 | apply never_cpe_write_all | apply never_cpe_shutil_copy
                 | apply never_cpe_for_each; intros ?
                 | apply never_cpe_bind; [|intros ?] ].
Qed.

Lemma package_windows_zip_publish_returns root asset temp result name :
  result !! "asset_file_name" = Some (PStr name) →
  returns (fun r => complete r ∧ r !! "asset_file_name" = Some (PStr name))
          (package_windows_zip_publish root asset temp result).
Proof.
  intros Hn. unfold package_windows_zip_publish. cbv zeta.
  returns_tac; apply returns_ret, complete_inserted_named, Hn.
Qed.

Lemma package_windows_zip_returns root version :
  returns (fun r => match r with
                    | None => True
                    | Some r => complete r ∧
                                r !! "asset_file_name"
                                = Some (PStr ("ta-lib-" +:+ version +:+ "-win64.zip"))
                    end)
          (package_windows_zip root version).
Proof.
  unfold package_windows_zip. cbv zeta.
  apply (returns_bind _ _ _ _ (package_windows_zip_stage_returns _ _ _)).
  intros early ->.
  apply returns_then. intros created. destruct created; cbn [negb];
    [|now apply returns_ret].
  eapply returns_bind;
    [apply (package_windows_zip_publish_returns _ _ _ _ _ (lookup_insert_eq _ _ _))|].
  intros r Hr. now apply returns_ret.
Qed.

(** X7.  The zip step of [package_all_windows] ends in one of four ways:
    [package_windows_zip] returns a dictionary and the run goes on to the MSI
    step; it returns [None] and the run ends with a TypeError; it exits; or
    it raises.  A dictionary it returns always has success = True with the
    name ta-lib-<version>-win64.zip and both flags: the except clause around
    the copies is never entered (nothing in that block raises
    CalledProcessError), so the orchestrator's own failure diagnostic for
    the zip is never printed. *)
Theorem zip_step_outcomes root version w :
  package_all_windows root version w =
  match package_windows_zip root version w with
  | (w1, Ok (Some zip_results)) =>
      package_all_windows_msi root version
        (summarised (default_results ".zip") zip_results) w1
  | (w1, Ok None) => (w1, Raised TypeError)
  | (w1, Exit code) => (w1, Exit code)
  | (w1, Raised e) => (w1, Raised e)
  end ∧
  ∀ w1 zip_results,
    package_windows_zip root version w = (w1, Ok (Some zip_results)) →
    complete zip_results ∧
    zip_results !! "asset_file_name" = Some (PStr ("ta-lib-" +:+ version +:+ "-win64.zip")).
Proof.
  assert (Hshape : ∀ w1 zip_results,
            package_windows_zip root version w = (w1, Ok (Some zip_results)) →
            complete zip_results ∧
            zip_results !! "asset_file_name"
            = Some (PStr ("ta-lib-" +:+ version +:+ "-win64.zip"))).
  { intros w1 rz Hrun. exact (package_windows_zip_returns _ _ _ _ _ Hrun). }
  split; [|exact Hshape].
  unfold package_all_windows. cbv zeta.
  destruct (package_windows_zip root version w) as [w1 [[rz|]| |]] eqn:Hzip.
  - rewrite (bind_ok _ _ _ _ _ Hzip).
    destruct (Hshape w1 rz eq_refl) as [(Hs & _) _].
    now rewrite (bind_ok _ _ _ _ _ (record_results_ok _ _ _ _ Hs)).
  - now rewrite (bind_ok _ _ _ _ _ Hzip).
  - now rewrite (bind_exit _ _ _ _ _ Hzip).
  - now rewrite (bind_raised _ _ _ _ _ Hzip).
Qed.

(** ** Configuring a build *)



(** ** The summary of a skipped format *)

Lemma display_skipped name w :
  display_package_results (default_results name) w
  = (emit (name +:+ " build skipped (not supported on this platform)") w, Ok tt).
Proof.
  unfold display_package_results, dict_get, default_results.
  rewrite (lookup_insert_ne _ "asset_file_name" "built") by discriminate.
  rewrite lookup_insert_eq. cbn [default truthy].
  now rewrite lookup_insert_eq.
Qed.

(** X9.  On a Linux host that is neither Ubuntu, RedHat-based nor
    Debian-based, [package_all_linux] builds nothing: it changes into the
    repository, prints the summary with the three formats skipped and
    "Packaging completed successfully.", and returns; no file or directory
    is touched. *)
Theorem linux_nothing_to_build root version sudo_pwd w :
  is_ubuntu = false → is_redhat_based = false → is_debian_based = false →
  package_all_linux root version sudo_pwd w
  = (World (files w) (dirs w) root (clock w)
       (stdout w ++ [nl +:+ "***********"; "* Summary *"; "***********";
                     "src.tar.gz build skipped (not supported on this platform)";
                     ".rpm build skipped (not supported on this platform)";
                     ".deb build skipped (not supported on this platform)";
                     nl +:+ "Packaging completed successfully."]),
     Ok tt).
Proof.
  intros Hu Hr Hd. unfold package_all_linux. cbv zeta. rewrite Hu, Hr, Hd.
  rewrite (bind_ok _ _ w (set_cwd root w) tt) by reflexivity.
  rewrite (bind_ok _ _ _ (set_cwd root w) (default_results "src.tar.gz")) by reflexivity.
  rewrite (bind_ok _ _ _ (set_cwd root w) (default_results ".rpm")) by reflexivity.
  rewrite (bind_ok _ _ _ (set_cwd root w) (default_results ".deb")) by reflexivity.
  rewrite (bind_ok _ _ _ _ tt) by reflexivity.
  rewrite (bind_ok _ _ _ _ tt) by reflexivity.
  rewrite (bind_ok _ _ _ _ tt) by reflexivity.
  rewrite (bind_ok _ _ _ _ _ (display_skipped _ _)).
  rewrite (bind_ok _ _ _ _ _ (display_skipped _ _)).
  rewrite (bind_ok _ _ _ _ _ (display_skipped _ _)).
  unfold print, emit, set_cwd. cbn [files dirs cwd clock stdout].
  now rewrite <- !app_assoc.
Qed.

(** X10.  Once the repository is found and the versions are synchronised,
    [main] runs [package_all_linux] on linux and [package_all_windows] on
    64-bit win32.  On win32 with another architecture it prints
    "Unsupported architecture" and returns normally (exit status 0); on any
    other platform it prints "Unsupported platform" and exits with status
    1. *)
Theorem main_dispatch sudo_pwd u u' w root version :
  verify_git_repo u = (u', Ok root) →
  sync_versions root u' = (w, Ok version) →
  (sys_platform = "linux" →
   main sudo_pwd u = package_all_linux root version sudo_pwd w) ∧
  (sys_platform = "win32" → platform_architecture = "64bit" →
   main sudo_pwd u = package_all_windows root version w) ∧
  (sys_platform = "win32" → platform_architecture ≠ "64bit" →
   main sudo_pwd u
   = (emit ("Unsupported architecture [" +:+ platform_architecture +:+
            "]. Contact TA-Lib maintainers.") w, Ok tt)) ∧
  (sys_platform ≠ "linux" → sys_platform ≠ "win32" →
   main sudo_pwd u
   = (emit ("Unsupported platform [" +:+ sys_platform +:+
            "]. Contact TA-Lib maintainers.") w, Exit 1)).
Proof.
  intros Hrepo Hversion.
  assert (Hmain : main sudo_pwd u
                  = (if String.eqb sys_platform "linux" then
                       package_all_linux root version sudo_pwd
                     else if String.eqb sys_platform "win32" then
                       if String.eqb platform_architecture "64bit"
                       then package_all_windows root version
                       else print ("Unsupported architecture [" +:+ platform_architecture +:+
                                   "]. Contact TA-Lib maintainers.")
                     else
                       print ("Unsupported platform [" +:+ sys_platform +:+
                              "]. Contact TA-Lib maintainers.") ;;;
                       sys_exit 1) w).
  { unfold main. cbv zeta.
    now rewrite (bind_ok _ _ _ _ _ Hrepo), (bind_ok _ _ _ _ _ Hversion). }
  rewrite Hmain. split; [|split; [|split]].
  - now intros ->.
  - now intros -> ->.
  - intros -> Harch. apply String.eqb_neq in Harch. now rewrite Harch.
  - intros Hl Hw. apply String.eqb_neq in Hl, Hw. now rewrite Hl, Hw.
Qed.

(** ** What a publish step leaves alone *)

Lemma copy_if_frame a root staging asset c w (differs : bool) :
  runs_on a → staged a root staging asset c w →
  ∃ w', (if differs then replace_step a root staging asset ;;; ret true else ret false) w
        = (w', Ok differs) ∧
        stdout w' = stdout w ∧
        (∀ p, p ≠ published root asset → p ≠ candidate a staging asset →
              files w' !! p = files w !! p).
Proof.
  intros Hp Hst. destruct differs.
  - destruct (replace_step_ok a root staging asset c w Hp Hst)
      as (w' & Hrun & Hout & _ & _ & Hframe).
    exists w'. rewrite (bind_ok _ _ _ _ _ Hrun). auto.
  - exists w. auto.
Qed.

(** X11.  The publish step of every format, on the platform the format
    is built on and started with its candidate staged and dist in order,
    returns, prints nothing, and leaves every file alone that is not
    the published file and does not lie at or below the candidate (for
    src.tar.gz: nor at or below the tarball in the repository root, which
    the step cleans up): other assets in dist are not touched. *)
Theorem publish_touches_nothing_else a root staging asset c w :
  runs_on a → staged a root staging asset c w →
  ∃ w' r,
    publish a root staging asset w = (w', Ok r) ∧
    stdout w' = stdout w ∧
    ∀ p, p ≠ published root asset →
         below (candidate a staging asset) p = false →
         (a = PublishSrcTarGz → below (os_path_join root "ta-lib-git.tar.gz") p = false) →
         files w' !! p = files w !! p.
Proof.
  intros Hp Hst.
  pose proof Hst as (Hc & Hd & Hf & Hne & Hb & Hs).
  set (dist_file := published root asset) in *.
  destruct a; unfold publish; cbv zeta.
  - (* zip *)
    unfold package_windows_zip_publish. cbv zeta. fold (published root asset) dist_file.
    destruct (os_makedirs_ok _ _ Hd) as (w0 & Hmk & Hfiles & Hclock & Hout0 & _ & Hdirs).
    assert (Hst0 : staged PublishZip root staging asset c w0)
      by (apply (staged_ext _ _ _ _ _ w); assumption).
    assert (Hf0 : is_dir w0 dist_file = false) by (rewrite Hdirs; assumption).
    rewrite (bind_ok _ _ _ _ _ Hmk), (bind_ok _ _ _ _ _ (os_path_exists_run _ _ Hf0)).
    pose proof (publish_differs PublishZip root staging asset c w0 (proj1 Hst0) Hf0) as Hdiff.
    cbv zeta in Hdiff. rewrite (bind_ok _ _ _ _ _ Hdiff).
    fold dist_file.
    match goal with |- context [bind (if ?b then _ else _)] =>
      destruct (copy_if_frame PublishZip root staging asset c w0 b Hp Hst0)
        as (w1 & Hrun & Hout & Hframe) end.
    unfold replace_step in Hrun. cbv zeta in Hrun. fold dist_file in Hrun.
    cbn [candidate] in Hrun, Hframe |- *.
    rewrite (bind_ok _ _ _ _ _ Hrun).
    eexists _, _. split; [reflexivity|]. split; [congruence|].
    intros p Hp1 Hp2 _. rewrite <- Hfiles. apply Hframe; [exact Hp1|].
    intros ->. now rewrite below_refl in Hp2.
  - (* msi *)
    unfold package_windows_msi_publish. cbv zeta. fold (published root asset) dist_file.
    rewrite (bind_ok _ _ _ _ _ (os_path_exists_run _ _ Hf)).
    match goal with |- context [bind ?m (fun differs => _)] =>
      assert (Hdiff : ∃ b, m w = (w, Ok b)) end.
    { destruct force; [now exists true|]. eexists.
      apply (publish_differs (PublishMsi false) root staging asset c w Hc Hf). }
    destruct Hdiff as [b Hdiff]. rewrite (bind_ok _ _ _ _ _ Hdiff).
    destruct (copy_if_frame (PublishMsi force) root staging asset c w b Hp Hst)
      as (w1 & Hrun & Hout & Hframe).
    unfold replace_step in Hrun. cbv zeta in Hrun. fold dist_file in Hrun.
    cbn [candidate] in Hrun, Hframe |- *.
    rewrite (bind_ok _ _ _ _ _ Hrun).
    eexists _, _. split; [reflexivity|]. split; [exact Hout|].
    intros p Hp1 Hp2 _. apply Hframe; [exact Hp1|].
    intros ->. now rewrite below_refl in Hp2.
  - (* deb *)
    unfold package_deb_publish. cbv zeta. fold (published root asset) dist_file.
    rewrite (bind_ok _ _ _ _ _ (os_path_exists_run _ _ Hf)).
    pose proof (publish_differs PublishDeb root staging asset c w Hc Hf) as Hdiff.
    cbv zeta in Hdiff. rewrite (bind_ok _ _ _ _ _ Hdiff).
    fold dist_file.
    match goal with |- context [bind (if ?b then _ else _)] =>
      destruct (copy_if_frame PublishDeb root staging asset c w b Hp Hst)
        as (w1 & Hrun & Hout & Hframe) end.
    unfold replace_step in Hrun. cbv zeta in Hrun. fold dist_file in Hrun.
    cbn [candidate] in Hrun, Hframe |- *.
    rewrite (bind_ok _ _ _ _ _ Hrun).
    eexists _, _. split; [reflexivity|]. split; [exact Hout|].
    intros p Hp1 Hp2 _. apply Hframe; [exact Hp1|].
    intros ->. now rewrite below_refl in Hp2.
  - (* src.tar.gz *)
    unfold package_src_tar_gz_publish. cbv zeta. fold (published root asset) dist_file.
    rewrite (bind_ok _ _ _ _ _ (os_path_exists_run _ _ Hf)).
    pose proof (publish_differs PublishSrcTarGz root staging asset c w Hc Hf) as Hdiff.
    cbv zeta in Hdiff. rewrite (bind_ok _ _ _ _ _ Hdiff).
    fold dist_file.
    match goal with |- context [bind (if ?b then _ else _)] =>
      destruct (copy_if_frame PublishSrcTarGz root staging asset c w b Hp Hst)
        as (w1 & Hrun & Hout & Hframe) end.
    unfold replace_step in Hrun. cbv zeta in Hrun. fold dist_file in Hrun.
    cbn [candidate] in Hrun, Hframe |- *.
    rewrite (bind_ok _ _ _ _ _ Hrun).
    rewrite (bind_ok _ _ _ _ _ (force_delete_run _ _)).
    rewrite (bind_ok _ _ _ _ _ (force_delete_run _ _)).
    eexists _, _. split; [reflexivity|]. split; [exact Hout|].
    intros p Hp1 Hp2 Hp3. rewrite !force_delete_lookup, Hp2, (Hp3 eq_refl).
    apply Hframe; [exact Hp1|].
    intros ->. now rewrite below_refl in Hp2.
Qed.

(** ** The runs that reach the summary *)

Lemma complete_not_failed r : complete r → r !! "success" = Some (PBool true).
Proof. now intros [Hs _]. Qed.

Lemma record_bare_failure name stop w :
  record_results (default_results name) (Some bare_failure) stop w
  = (emit ("Error: Packaging dist/" +:+ name +:+ " failed" +:+ stop) w, Exit 1).
Proof.
  rewrite (record_results_failed _ _ _ (PStr name)); [reflexivity|reflexivity|].
  unfold summarised, bare_failure, default_results.
  rewrite lookup_insert_ne by discriminate.
  rewrite lookup_union_r by reflexivity. apply lookup_insert_eq.
Qed.

(** X12.  On a Debian-based host that is neither Ubuntu nor RedHat-based,
    once [package_deb] has returned: if its result does not have success =
    True, [package_all_linux] prints "Error: Packaging dist/.deb failed."
    (the placeholder name, not the file's) and exits with status 1;
    otherwise it prints the summary (src.tar.gz and .rpm skipped, then
    Created, Updated or No changes for the .deb by its flags) and
    "Packaging completed successfully.", and returns. *)
Theorem debian_run_summary root version sudo_pwd w w1 r :
  is_ubuntu = false → is_redhat_based = false → is_debian_based = true →
  package_deb root version sudo_pwd (set_cwd root w) = (w1, Ok r) →
  (r !! "success" ≠ Some (PBool true) →
   package_all_linux root version sudo_pwd w
   = (emit "Error: Packaging dist/.deb failed." w1, Exit 1)) ∧
  (r !! "success" = Some (PBool true) →
   ∃ name existed copied,
     r !! "asset_file_name" = Some (PStr name) ∧
     r !! "existed" = Some (PBool existed) ∧
     r !! "copied" = Some (PBool copied) ∧
     package_all_linux root version sudo_pwd w
     = (World (files w1) (dirs w1) (cwd w1) (clock w1)
          (stdout w1 ++ [nl +:+ "***********"; "* Summary *"; "***********";
                         "src.tar.gz build skipped (not supported on this platform)";
                         ".rpm build skipped (not supported on this platform)";
                         outcome_line copied existed name;
                         nl +:+ "Packaging completed successfully."]),
        Ok tt)).
Proof.
  intros Hu Hr Hd Hdeb.
  assert (Hstart :
            package_all_linux root version sudo_pwd w
            = (deb_results <- record_results (default_results ".deb") (Some r) "." ;;
               print (nl +:+ "***********") ;;;
               print "* Summary *" ;;;
               print "***********" ;;;
               display_package_results (default_results "src.tar.gz") ;;;
               display_package_results (default_results ".rpm") ;;;
               display_package_results deb_results ;;;
               print (nl +:+ "Packaging completed successfully.")) w1).
  { unfold package_all_linux. cbv zeta. rewrite Hu, Hr, Hd.
    rewrite (bind_ok _ _ w (set_cwd root w) tt) by reflexivity.
    rewrite (bind_ok _ _ _ (set_cwd root w) (default_results "src.tar.gz")) by reflexivity.
    rewrite (bind_ok _ _ _ (set_cwd root w) (default_results ".rpm")) by reflexivity.
    rewrite bind_assoc. now rewrite (bind_ok _ _ _ _ _ Hdeb). }
  rewrite Hstart. clear Hstart.
  destruct (package_deb_returns _ _ _ _ _ _ Hdeb) as [->|Hcomplete].
  - split; [|discriminate].
    intros _. now rewrite (bind_exit _ _ _ _ _ (record_bare_failure _ _ _)).
  - split; [intros Hno; now contradiction Hno; apply complete_not_failed|].
    intros Hs. destruct Hcomplete as (_ & [name Hn] & [existed He] & [copied Hc]).
    exists name, existed, copied. split; [exact Hn|]. split; [exact He|]. split; [exact Hc|].
    rewrite (bind_ok _ _ _ _ _ (record_results_ok _ _ _ _ Hs)).
    rewrite (bind_ok _ _ _ _ tt) by reflexivity.
    rewrite (bind_ok _ _ _ _ tt) by reflexivity.
    rewrite (bind_ok _ _ _ _ tt) by reflexivity.
    rewrite (bind_ok _ _ _ _ _ (display_skipped _ _)).
    rewrite (bind_ok _ _ _ _ _ (display_skipped _ _)).
    rewrite (bind_ok _ _ _ _ _ (display_summarised _ _ _ _ _ _ Hs Hn Hc He)).
    unfold print, emit. cbn [files dirs cwd clock stdout].
    now rewrite <- !app_assoc.
Qed.

(** X13.  On a Windows host with WiX, once the zip step has returned a
    dictionary with copied = b and [package_windows_msi] has been run with
    force = b: if the MSI result does not have success = True the run prints
    "Error: Packaging dist/.msi failed" and exits with status 1; otherwise
    it prints the summary (Created, Updated or No changes for the zip and
    for the MSI, by their flags) and "Packaging completed successfully.",
    and returns. *)
Theorem windows_run_summary root version w w1 zip_results w2 msi_results (forced_msi : bool) :
  package_windows_zip root version w = (w1, Ok (Some zip_results)) →
  zip_results !! "copied" = Some (PBool forced_msi) →
  is_wix_installed = true →
  package_windows_msi root version forced_msi w1 = (w2, Ok msi_results) →
  (msi_results !! "success" ≠ Some (PBool true) →
   package_all_windows root version w
   = (emit "Error: Packaging dist/.msi failed" w2, Exit 1)) ∧
  (msi_results !! "success" = Some (PBool true) →
   ∃ zip_existed msi_name msi_existed msi_copied,
     zip_results !! "existed" = Some (PBool zip_existed) ∧
     msi_results !! "asset_file_name" = Some (PStr msi_name) ∧
     msi_results !! "existed" = Some (PBool msi_existed) ∧
     msi_results !! "copied" = Some (PBool msi_copied) ∧
     package_all_windows root version w
     = (World (files w2) (dirs w2) (cwd w2) (clock w2)
          (stdout w2 ++ [nl +:+ "***********"; "* Summary *"; "***********";
                         outcome_line forced_msi zip_existed
                           ("ta-lib-" +:+ version +:+ "-win64.zip");
                         outcome_line msi_copied msi_existed msi_name;
                         "Packaging completed successfully."]),
        Ok tt)).
Proof.
  intros Hzip Hcopied Hwix Hmsi.
  destruct (package_windows_zip_returns _ _ _ _ _ Hzip)
    as [(Hzs & _ & [zip_existed Hze] & _) Hzn].
  assert (Hstart : package_all_windows root version w
                   = (msi_results <- record_results (default_results ".msi")
                                       (Some msi_results) EmptyString ;;
                      package_all_windows_summary
                        (summarised (default_results ".zip") zip_results) msi_results) w2).
  { unfold package_all_windows. cbv zeta.
    rewrite (bind_ok _ _ _ _ _ Hzip).
    rewrite (bind_ok _ _ _ _ _ (record_results_ok _ _ _ _ Hzs)).
    unfold package_all_windows_msi. cbv zeta.
    rewrite (bind_ok _ _ w1 w1 (PBool true)).
    2:{ unfold dict_item, summarised. now rewrite lookup_insert_eq. }
    cbn [truthy].
    rewrite (bind_ok _ _ w1 w1 forced_msi).
    2:{ unfold dict_item.
        now rewrite (summarised_lookup _ zip_results "copied" _ ltac:(discriminate) Hcopied). }
    rewrite Hwix. cbn [negb]. rewrite bind_assoc.
    now rewrite (bind_ok _ _ _ _ _ Hmsi). }
  rewrite Hstart. clear Hstart.
  destruct (package_windows_msi_returns _ _ _ _ _ _ Hmsi) as [->|Hcomplete].
  - split; [|discriminate].
    intros _. rewrite (bind_exit _ _ _ _ _ (record_bare_failure _ _ _)).
    reflexivity.
  - split; [intros Hno; now contradiction Hno; apply complete_not_failed|].
    intros Hs. destruct Hcomplete as (_ & [name Hn] & [existed He] & [copied Hc]).
    exists zip_existed, name, existed, copied.
    split; [exact Hze|]. split; [exact Hn|]. split; [exact He|]. split; [exact Hc|].
    rewrite (bind_ok _ _ _ _ _ (record_results_ok _ _ _ _ Hs)).
    unfold package_all_windows_summary.
    rewrite (bind_ok _ _ _ _ tt) by reflexivity.
    rewrite (bind_ok _ _ _ _ tt) by reflexivity.
    rewrite (bind_ok _ _ _ _ tt) by reflexivity.
    rewrite (bind_ok _ _ _ _ _ (display_summarised _ _ _ _ _ _ Hzs Hzn Hcopied Hze)).
    rewrite (bind_ok _ _ _ _ _ (display_summarised _ _ _ _ _ _ Hs Hn Hc He)).
    unfold print, emit. cbn [files dirs cwd clock stdout].
    now rewrite <- !app_assoc.
Qed.

Lemma bind_ext {A B} (m : M A) (k k' : A → M B) w :
  (∀ a w', k a w' = k' a w') → bind m k w = bind m k' w.
Proof. intros Hk. unfold bind. destruct (m w) as [w' [a| |]]; [apply Hk| |]; reflexivity. Qed.

Lemma package_windows_zip_stage_split root version result w :
  package_windows_zip_stage root version result w
  = (build_dir <- package_windows_zip_prepare root version ;;
     package_windows_zip_copy root version build_dir result) w.
Proof.
  unfold package_windows_zip_stage, package_windows_zip_prepare, package_windows_zip_copy.
  cbv zeta.
  do 9 (rewrite bind_assoc; apply bind_ext; intros ? ?).
  reflexivity.
Qed.

(** X14.  When the clean-up and the build of [package_windows_zip] have
    gone through and the build directory holds no ta-lib.dll, neither as a
    file nor as a directory, the copy raises FileNotFoundError.  The except
    clause around the copies catches CalledProcessError only, so the
    exception leaves [package_windows_zip] and [package_all_windows]
    uncaught, after the working directory has been restored: the script
    returns no failure result and prints no diagnostic of its own. *)
Theorem missing_library_is_not_caught root version w w1 build_dir :
  package_windows_zip_prepare root version w = (w1, Ok build_dir) →
  files w1 !! os_path_join build_dir "ta-lib.dll" = None →
  is_dir w1 (os_path_join build_dir "ta-lib.dll") = false →
  package_windows_zip root version w = (w1, Raised FileNotFoundError) ∧
  package_all_windows root version w = (w1, Raised FileNotFoundError).
Proof.
  intros Hprep Hdll Hnodir.
  assert (Hstage : ∀ result, package_windows_zip_stage root version result w
                             = (w1, Raised FileNotFoundError)).
  { intros result. rewrite package_windows_zip_stage_split.
    rewrite (bind_ok _ _ _ _ _ Hprep).
    unfold package_windows_zip_copy. cbv zeta.
    rewrite (bind_ok _ _ w1 w1 (cwd w1)) by reflexivity.
    unfold try_finally, try_except.
    rewrite (bind_ok _ _ w1 (set_cwd build_dir w1) tt) by reflexivity.
    rewrite (bind_ok _ _ _ (set_cwd build_dir w1) (os_path_join build_dir "ta-lib.dll"))
      by reflexivity.
    rewrite (bind_raised _ _ _ (set_cwd build_dir w1) FileNotFoundError).
    - now destruct w1.
    - unfold shutil_copy. cbv zeta. cbn [files set_cwd].
      rewrite Hdll. unfold is_dir in *. cbn [dirs set_cwd]. now rewrite Hnodir. }
  assert (Hzip : package_windows_zip root version w = (w1, Raised FileNotFoundError)).
  { unfold package_windows_zip. cbv zeta. now rewrite (bind_raised _ _ _ _ _ (Hstage _)). }
  split; [exact Hzip|].
  unfold package_all_windows. cbv zeta. now rewrite (bind_raised _ _ _ _ _ Hzip).
Qed.

(** ** Missing dependencies *)

(** X15.  [package_deb] checks its dependencies before it touches
    anything: on a host that is not Debian-based, without CMake, or without
    CMakeLists.txt in the repository, it prints the one error line and
    returns [{"success": False}]; no file is purged, no directory removed,
    and the working directory stays. *)
Theorem package_deb_checks_first root version sudo_pwd w :
  let cmake_lists := os_path_join root "CMakeLists.txt" in
  (is_debian_based = false →
   package_deb root version sudo_pwd w
   = (emit "Error: Debian-based system required for .deb packaging." w, Ok bare_failure)) ∧
  (is_debian_based = true → is_cmake_installed = false →
   package_deb root version sudo_pwd w
   = (emit "Error: CMake not found. It is required to be install for .deb creation" w,
      Ok bare_failure)) ∧
  (is_debian_based = true → is_cmake_installed = true → is_file w cmake_lists = false →
   package_deb root version sudo_pwd w
   = (emit ("Error: " +:+ cmake_lists +:+
            " not found. Make sure you are working within a TA-Lib repos") w,
      Ok bare_failure)).
Proof.
  intros cmake_lists. unfold package_deb, package_deb_build. cbv zeta.
  split; [|split].
  - now intros ->.
  - now intros -> ->.
  - intros -> -> Hno. cbn [negb]. fold cmake_lists.
    rewrite (bind_assoc _ _ _ w).
    rewrite (bind_ok _ _ w w (is_file w cmake_lists)) by reflexivity.
    now rewrite Hno.
Qed.

(** X16.  [package_windows_msi] writes LICENSE.rtf first and checks its
    tools afterwards: without the .NET Framework, or with it and without
    WiX, it prints the error and returns [{"success": False}] from the world
    that the licence conversion left. *)
Theorem package_windows_msi_checks_tools root version force w w1 :
  create_rtf_from_txt (path_join root "LICENSE") (path_join root "LICENSE.rtf") w
  = (w1, Ok tt) →
  (is_dotnet_installed = false →
   package_windows_msi root version force w
   = (emit "Error: .NET Framework not found. It is required to build the MSI." w1,
      Ok bare_failure)) ∧
  (is_dotnet_installed = true → is_wix_installed = false →
   package_windows_msi root version force w
   = (emit "Error: WiX Toolset not found. It is required to build the MSI." w1,
      Ok bare_failure)).
Proof.
  intros Hrtf. unfold package_windows_msi, package_windows_msi_build. cbv zeta.
  rewrite (bind_assoc _ _ _ w), (bind_ok _ _ _ _ _ Hrtf).
  split.
  - now intros ->.
  - now intros -> ->.
Qed.

(** ** The working directory, again *)

Lemma bind_inv {A B} (m : M A) (k : A → M B) w w' b :
  bind m k w = (w', Ok b) → ∃ w1 a, m w = (w1, Ok a) ∧ k a w1 = (w', Ok b).
Proof.
  unfold bind. destruct (m w) as [w1 [a| |]]; [|discriminate|discriminate].
  intros Hk. now exists w1, a.
Qed.

Lemma never_cpe_try_except {A} (body : M A) handler :
  (∀ msg, never_cpe (handler msg)) → never_cpe (try_except body handler).
Proof.
  intros Hh w w' msg Hrun. unfold try_except in Hrun.
  destruct (body w) as [w1 [a| |e]]; [discriminate|discriminate|].
  destruct e; try discriminate. exact (Hh _ _ _ _ Hrun).
Qed.

Lemma never_cpe_try_finally {A} (body : M A) fin :
  never_cpe body → never_cpe fin → never_cpe (try_finally body fin).
Proof.
  intros Hb Hf w w' msg Hrun. unfold try_finally in Hrun.
  destruct (body w) as [w1 r] eqn:Eb. destruct (fin w1) as [w2 [[]| |e]] eqn:Ef.
  - injection Hrun as <- ->. exact (Hb _ _ _ Eb).
  - discriminate.
  - injection Hrun as <- ->. exact (Hf _ _ _ Ef).
Qed.

Lemma never_cpe_print line : never_cpe (print line).
Proof. intros w w' msg [=]. Qed.

Lemma never_cpe_os_getcwd : never_cpe os_getcwd.
Proof. intros w w' msg [=]. Qed.

(** [test_autotool_src] is its preparation followed by the try block. *)
Lemma test_autotool_src_split configure_dir sudo_pwd w :
  test_autotool_src configure_dir sudo_pwd w
  = (original_dir <- os_getcwd ;;
     root_dir <- verify_git_repo ;;
     generated_files_temp_copy_1 <- create_temp_dir root_dir ;;
     generated_files_temp_copy_2 <- create_temp_dir root_dir ;;
     os_chdir configure_dir ;;;
     try_finally
       (try_except
          (test_autotool_src_checks root_dir configure_dir
             generated_files_temp_copy_1 generated_files_temp_copy_2 sudo_pwd)
          (fun e => print ("Error during verification: " +:+ e) ;;; ret false))
       (os_chdir original_dir)) w.
Proof. reflexivity. Qed.

(** X17.  When [test_autotool_src] returns, the working directory is the
    one it was called in.  A CalledProcessError never leaves it, provided
    [verify_git_repo] and [create_temp_dir], which it calls before its try
    block, raise none.  When the directory to configure exists and the try
    block ends with a CalledProcessError, the function prints "Error during
    verification: ..." with the message of the error, restores the working
    directory and returns False; the block ends so when ./configure, its
    first tool, raises the error. *)
Theorem test_autotool_src_contains_failures configure_dir sudo_pwd :
  (∀ w w' ok, test_autotool_src configure_dir sudo_pwd w = (w', Ok ok) → cwd w' = cwd w) ∧
  (never_cpe verify_git_repo → (∀ root, never_cpe (create_temp_dir root)) →
   never_cpe (test_autotool_src configure_dir sudo_pwd)) ∧
  (∀ w w1 w2 w3 w4 root t1 t2 msg,
     verify_git_repo w = (w1, Ok root) →
     create_temp_dir root w1 = (w2, Ok t1) →
     create_temp_dir root w2 = (w3, Ok t2) →
     is_dir w3 configure_dir = true →
     test_autotool_src_checks root configure_dir t1 t2 sudo_pwd (set_cwd configure_dir w3)
     = (w4, Raised (CalledProcessError msg)) →
     test_autotool_src configure_dir sudo_pwd w
     = (set_cwd (cwd w) (emit ("Error during verification: " +:+ msg) w4), Ok false)) ∧
  (∀ root t1 t2 u u1 u2 u3 u4 git_changed generated msg,
     are_generated_files_git_changed root u = (u1, Ok git_changed) →
     get_src_generated_files u1 = (u2, Ok generated) →
     copy_file_list configure_dir t1 generated u2 = (u3, Ok tt) →
     subprocess_run ["./configure"] u3 = (u4, Raised (CalledProcessError msg)) →
     test_autotool_src_checks root configure_dir t1 t2 sudo_pwd u
     = (u4, Raised (CalledProcessError msg))).
Proof.
  split; [|split; [|split]].
  4:{ intros root t1 t2 u u1 u2 u3 u4 git_changed generated msg Hgit Hgen Hcopy Hrun.
      unfold test_autotool_src_checks.
      rewrite (bind_ok _ _ _ _ _ Hgit), (bind_ok _ _ _ _ _ Hgen), (bind_ok _ _ _ _ _ Hcopy).
      now rewrite (bind_raised _ _ _ _ _ Hrun). }
  3:{ intros w w1 w2 w3 w4 root t1 t2 msg Hrepo Ht1 Ht2 _ Hchecks.
      rewrite test_autotool_src_split.
      rewrite (bind_ok _ _ w w (cwd w)) by reflexivity.
      rewrite (bind_ok _ _ _ _ _ Hrepo), (bind_ok _ _ _ _ _ Ht1), (bind_ok _ _ _ _ _ Ht2).
      rewrite (bind_ok _ _ w3 (set_cwd configure_dir w3) tt) by reflexivity.
      unfold try_finally, try_except. now rewrite Hchecks. }
  - intros w w' ok Hrun. unfold test_autotool_src in Hrun.
    rewrite (bind_ok _ _ w w (cwd w)) in Hrun by reflexivity.
    apply bind_inv in Hrun as (w1 & root & _ & Hrun).
    apply bind_inv in Hrun as (w2 & t1 & _ & Hrun).
    apply bind_inv in Hrun as (w3 & t2 & _ & Hrun).
    rewrite (bind_ok _ _ w3 (set_cwd configure_dir w3) tt) in Hrun by reflexivity.
    match type of Hrun with try_finally ?b ?f ?u = _ =>
      pose proof (try_finally_chdir b (cwd w) u) as Hfin end.
    now rewrite Hrun in Hfin.
  - intros Hrepo Htemp. unfold test_autotool_src.
    apply never_cpe_bind; [apply never_cpe_os_getcwd|intros original_dir].
    apply never_cpe_bind; [exact Hrepo|intros root].
    apply never_cpe_bind; [apply Htemp|intros t1].
    apply never_cpe_bind; [apply Htemp|intros t2].
    apply never_cpe_bind; [apply never_cpe_os_chdir|intros _].
    apply never_cpe_try_finally; [|apply never_cpe_os_chdir].
    apply never_cpe_try_except. intros msg.
    apply never_cpe_bind; [apply never_cpe_print|intros _; apply never_cpe_ret].
Qed.

Lemma same_cwd_trans w1 w2 w3 : same_cwd w1 w2 → same_cwd w2 w3 → same_cwd w1 w3.
Proof. unfold same_cwd. congruence. Qed.

Lemma same_cwd_os_makedirs p e : keeps same_cwd (os_makedirs p e).
Proof.
  intros w. unfold same_cwd, os_makedirs.
  destruct (is_file w p); [reflexivity|].
  destruct (is_dir w p); [destruct e; reflexivity|reflexivity].
Qed.

Lemma same_cwd_os_rename src dst : keeps same_cwd (os_rename src dst).
Proof.
  intros w. unfold same_cwd, os_rename.
  destruct (files w !! src); [|reflexivity].
  destruct (is_dir w dst); [reflexivity|].
  destruct (_ && _); reflexivity.
Qed.

Lemma same_cwd_compare_paths cmp a b : keeps same_cwd (compare_paths cmp a b).
Proof.
  intros w. unfold same_cwd, compare_paths.
  destruct (files w !! a); [|reflexivity]. destruct (files w !! b); reflexivity.
Qed.

Ltac same_cwd_step :=
  first
    [ assumption
    | apply same_cwd_os_makedirs
    | apply same_cwd_os_rename
    | apply same_cwd_compare_paths
    | apply (keeps_bind _ same_cwd_trans); [|intros ?]
    | apply (keeps_try_except _ same_cwd_trans); [|intros ?]
    | match goal with |- keeps _ (if ?c then _ else _) => destruct c end
    | match goal with |- keeps _ (match ?l with [] => _ | _ :: _ => _ end) => destruct l end
    | match goal with |- keeps _ (match ?o with Some _ => _ | None => _ end) => destruct o end
    | (intros ?; reflexivity) ].

(** X18.  Unlike the CMake helpers, [package_deb] does not restore the
    working directory: once its dependency checks have passed, and with
    tools that do not change the working directory themselves, the process
    is in the build directory when the function ends, however it ends. *)
Theorem package_deb_stays_in_build root version sudo_pwd w :
  is_debian_based = true → is_cmake_installed = true →
  is_file w (os_path_join root "CMakeLists.txt") = true →
  (∀ argv, keeps same_cwd (subprocess_run argv)) →
  cwd (fst (package_deb root version sudo_pwd w)) = os_path_join root "build".
Proof.
  intros Hdeb Hcmake Hlists Htools.
  set (build_dir := os_path_join root "build").
  assert (Hrest : ∀ (k : option dict → M dict) w0,
            (∀ early, keeps same_cwd (k early)) →
            cwd w0 = build_dir →
            ∀ (m : M (option dict)), keeps same_cwd m →
            cwd (fst (bind m k w0)) = build_dir).
  { intros k w0 Hk Hw0 m Hm.
    pose proof (keeps_bind _ same_cwd_trans m k Hm Hk w0) as H.
    unfold same_cwd in H. now rewrite H. }
  unfold package_deb. cbv zeta.
  unfold package_deb_build. cbv zeta. rewrite Hdeb, Hcmake. cbn [negb].
  rewrite !bind_assoc.
  rewrite (bind_ok _ _ w w true) by (unfold os_path_isfile; now rewrite Hlists).
  cbn [negb]. rewrite !bind_assoc.
  rewrite (bind_ok _ _ w w _) by reflexivity.
  rewrite !bind_assoc.
  match goal with |- context [for_each ?l ?body] =>
    pose proof (purge_run (contains version) l w) as Hrun;
    destruct (purge_rest (contains version) l w) as (Hc1 & _ & _);
    destruct (for_each l body w) as [w1 o] eqn:Hloop end.
  cbn [fst snd] in Hrun, Hc1. subst o.
  rewrite (bind_ok _ _ _ _ _ Hloop). fold build_dir.
  rewrite !bind_assoc.
  rewrite (bind_ok _ _ _ _ _ (force_delete_run _ _)).
  rewrite !bind_assoc.
  assert (Hmk : os_makedirs build_dir false (fst (force_delete build_dir w1))
                = (set_dirs (fun d => {[build_dir]} ∪ d) (fst (force_delete build_dir w1)),
                   Ok tt)).
  { unfold os_makedirs.
    assert (Hf : is_file (fst (force_delete build_dir w1)) build_dir = false)
      by (apply is_file_false; now rewrite force_delete_lookup, below_refl).
    assert (Hd : is_dir (fst (force_delete build_dir w1)) build_dir = false)
      by (now rewrite force_delete_is_dir, below_refl, andb_false_r).
    now rewrite Hf, Hd. }
  rewrite (bind_ok _ _ _ _ _ Hmk). rewrite !bind_assoc.
  rewrite (bind_ok _ _ _ (set_cwd build_dir
             (set_dirs (fun d => {[build_dir]} ∪ d) (fst (force_delete build_dir w1)))) tt)
    by reflexivity.
  match goal with |- cwd (fst (?m ?u)) = _ =>
    assert (Hkeep : keeps same_cwd m); [|now rewrite (Hkeep u)] end.
  unfold package_deb_publish, package_deb_replace. cbv zeta.
  repeat first [apply Htools | same_cwd_step].
Qed.

(** X19.  On Ubuntu, when [package_src_tar_gz] returns a result without
    success = True, [package_all_linux] prints "Error: Packaging
    dist/ta-lib-<version>-src.tar.gz failed." and exits with status 1 from
    the world the function left: the RPM and DEB steps are not attempted. *)
Theorem ubuntu_run_stops_at_src_failure root version sudo_pwd w w1 r :
  is_ubuntu = true →
  package_src_tar_gz root version sudo_pwd (set_cwd root w) = (w1, Ok r) →
  r !! "success" ≠ Some (PBool true) →
  let asset_file_name := "ta-lib-" +:+ version +:+ "-src.tar.gz" in
  package_all_linux root version sudo_pwd w
  = (emit ("Error: Packaging dist/" +:+ asset_file_name +:+ " failed.") w1, Exit 1).
Proof.
  intros Hu Hsrc Hfail asset_file_name. unfold package_all_linux. cbv zeta. rewrite Hu.
  rewrite (bind_ok _ _ w (set_cwd root w) tt) by reflexivity.
  apply bind_exit. rewrite (bind_ok _ _ _ _ _ Hsrc).
  destruct (package_src_tar_gz_returns _ _ _ _ _ _ Hsrc) as [Hname [->|Hc]].
  - rewrite (record_results_failed _ _ _
               (PStr ("ta-lib-" +:+ version +:+ "-src.tar.gz"))).
    + reflexivity.
    + now rewrite lookup_insert_ne.
    + apply summarised_lookup; [discriminate|apply lookup_insert_eq].
  - now contradiction Hfail; apply complete_not_failed.
Qed.

(** ** Tools that fail *)

Lemma bind_run {A B} (m m' : M A) (k : A → M B) w w' :
  m w = m' w' → bind m k w = bind m' k w'.
Proof. unfold bind. now intros ->. Qed.

Lemma tool_ok argv (handler : string → M bool) w w1 :
  subprocess_run argv w = (w1, Ok tt) →
  try_except (subprocess_run argv ;;; ret true) handler w = (w1, Ok true).
Proof. intros Hrun. unfold try_except. now rewrite (bind_ok _ _ _ _ _ Hrun). Qed.

Lemma tool_failed argv (line : string → string) w w1 msg :
  subprocess_run argv w = (w1, Raised (CalledProcessError msg)) →
  try_except (subprocess_run argv ;;; ret true) (fun e => print (line e) ;;; ret false) w
  = (emit (line msg) w1, Ok false).
Proof. intros Hrun. unfold try_except. now rewrite (bind_raised _ _ _ _ _ Hrun). Qed.

(** X20.  Given a build directory that exists, [do_cmake_build] runs
    [cmake --build .] and [do_cpack_build] runs [cpack .] from inside it.
    When the tool returns, so does the function; when it raises
    CalledProcessError the function prints "Error running cmake build: ..."
    (or "Error running CPack: ...") and exits with status 1; an exit or
    another exception of the tool passes through.  The working directory is
    restored in every case. *)
Theorem build_steps_exit_on_failure build_dir w :
  is_dir w build_dir = true →
  do_cmake_build build_dir w
  = match subprocess_run ["cmake"; "--build"; "."] (set_cwd build_dir w) with
    | (w1, Ok _) => (set_cwd (cwd w) w1, Ok tt)
    | (w1, Exit code) => (set_cwd (cwd w) w1, Exit code)
    | (w1, Raised (CalledProcessError msg)) =>
        (set_cwd (cwd w) (emit ("Error running cmake build: " +:+ msg) w1), Exit 1)
    | (w1, Raised e) => (set_cwd (cwd w) w1, Raised e)
    end ∧
  do_cpack_build build_dir w
  = match subprocess_run ["cpack"; "."] (set_cwd build_dir w) with
    | (w1, Ok _) => (set_cwd (cwd w) w1, Ok tt)
    | (w1, Exit code) => (set_cwd (cwd w) w1, Exit code)
    | (w1, Raised (CalledProcessError msg)) =>
        (set_cwd (cwd w) (emit ("Error running CPack: " +:+ msg) w1), Exit 1)
    | (w1, Raised e) => (set_cwd (cwd w) w1, Raised e)
    end.
Proof.
  intros _. split.
  - unfold do_cmake_build. rewrite (bind_ok _ _ w w (cwd w)) by reflexivity.
    unfold try_finally, try_except.
    rewrite (bind_ok _ _ w (set_cwd build_dir w) tt) by reflexivity.
    destruct (subprocess_run _ (set_cwd build_dir w)) as [w1 [[]| |[]]]; reflexivity.
  - unfold do_cpack_build. rewrite (bind_ok _ _ w w (cwd w)) by reflexivity.
    unfold try_finally, try_except.
    rewrite (bind_ok _ _ w (set_cwd build_dir w) tt) by reflexivity.
    destruct (subprocess_run _ (set_cwd build_dir w)) as [w1 [[]| |[]]]; reflexivity.
Qed.

Lemma append_eq_self a x : a +:+ x = a → x = EmptyString.
Proof.
  induction a as [|c a IH]; [now rewrite append_nil|].
  rewrite append_cons. intros [= E]. auto.
Qed.

Lemma os_path_join_ne a b :
  startswith b "/" = false → b ≠ EmptyString → os_path_join a b ≠ a.
Proof.
  intros Hb Hne E. rewrite os_path_join_slashed in E by assumption.
  unfold slashed in E. destruct (_ || _).
  - now apply append_eq_self in E.
  - rewrite append_assoc in E. apply append_eq_self in E.
    rewrite append_cons in E. discriminate E.
Qed.

Lemma existsb_snoc {A} (f : A → bool) l x :
  existsb f (l ++ [x])%list = existsb f l || f x.
Proof. rewrite existsb_app. cbn [existsb]. now rewrite orb_false_r. Qed.

(** The start of [package_deb] once its dependencies are there: the purge,
    the fresh build directory, and the rest of the build from the world
    [w0] in which CMake runs. *)
Lemma package_deb_build_start root version sudo_pwd w :
  is_debian_based = true → is_cmake_installed = true →
  is_file w (os_path_join root "CMakeLists.txt") = true →
  let dist_dir := os_path_join root "dist" in
  let build_dir := os_path_join root "build" in
  let found := List.filter (glob_match (os_path_join dist_dir "*.deb")) (all_paths w) in
  let stale := List.filter (fun file => negb (contains version file)) found in
  let cmake := ["cmake"; "-DCPACK_GENERATOR=DEB"; "-DBUILD_DEV_TOOLS=OFF"; ".."] in
  ∃ w0,
    (∀ q, files w0 !! q
          = if existsb (fun file => below file q) (stale ++ [build_dir])%list then None
            else files w !! q) ∧
    is_dir w0 build_dir = true ∧ cwd w0 = build_dir ∧ stdout w0 = stdout w ∧
    ∀ result,
      package_deb_build root version sudo_pwd result w
      = (ok <- try_except
                 (subprocess_run cmake ;;; ret true)
                 (fun e => print ("Error running CMake: " +:+ e) ;;; ret false) ;;
         if negb ok then ret (Some result) else
         ok <- try_except
                 (subprocess_run ["cpack"; "."] ;;; ret true)
                 (fun e => print ("Error running CPack: " +:+ e) ;;; ret false) ;;
         if negb ok then ret (Some result) else ret None) w0.
Proof.
  intros Hdeb Hcmake Hlists dist_dir build_dir found stale cmake.
  set (purge := for_each found (fun file =>
                  if negb (contains version file) then force_delete file else ret tt)).
  set (w' := fst (purge w)).
  assert (Hpurge : purge w = (w', Ok tt)).
  { subst w'. rewrite (surjective_pairing (purge w)) at 1. subst purge.
    now rewrite purge_run. }
  set (w0 := set_cwd build_dir
               (set_dirs (fun d => {[build_dir]} ∪ d) (fst (force_delete build_dir w')))).
  assert (Hmk : os_makedirs build_dir false (fst (force_delete build_dir w'))
                = (set_dirs (fun d => {[build_dir]} ∪ d) (fst (force_delete build_dir w')),
                   Ok tt)).
  { unfold os_makedirs.
    assert (Hf : is_file (fst (force_delete build_dir w')) build_dir = false)
      by (apply is_file_false; now rewrite force_delete_lookup, below_refl).
    assert (Hd : is_dir (fst (force_delete build_dir w')) build_dir = false)
      by (now rewrite force_delete_is_dir, below_refl, andb_false_r).
    now rewrite Hf, Hd. }
  exists w0. split; [|split; [|split; [|split]]].
  - intros q. subst w0. cbn [files set_cwd set_dirs].
    rewrite force_delete_lookup. subst w' purge.
    rewrite (purge_files (contains version)), existsb_snoc. unfold stale.
    rewrite existsb_filter.
    destruct (below build_dir q); [now rewrite orb_true_r|now rewrite orb_false_r].
  - subst w0. unfold is_dir. cbn [dirs set_cwd set_dirs].
    apply bool_decide_eq_true. set_solver.
  - reflexivity.
  - subst w0. cbn [stdout set_cwd set_dirs]. subst w' purge.
    apply (purge_rest (contains version)).
  - intros result. unfold package_deb_build. cbv zeta. rewrite Hdeb, Hcmake. cbn [negb].
    rewrite (bind_ok _ _ w w true) by (unfold os_path_isfile; now rewrite Hlists).
    cbn [negb]. fold dist_dir build_dir.
    rewrite (bind_ok _ _ w w found) by reflexivity.
    fold purge. rewrite (bind_ok _ _ _ _ _ Hpurge).
    rewrite (bind_ok _ _ _ _ _ (force_delete_run _ _)).
    rewrite (bind_ok _ _ _ _ _ Hmk).
    now rewrite (bind_ok _ _ _ w0 tt) by reflexivity.
Qed.

(** X21.  In a clone whose path has no glob character, and with its
    dependencies in place, [package_deb] removes from dist the matches of
    *.deb whose path does not contain the version, removes the build
    directory, creates it again and changes into it; nothing else is
    touched and nothing printed before CMake runs.  When CMake raises
    CalledProcessError the function prints "Error running CMake: ..." and
    returns [{"success": False}]; when CPack does, "Error running CPack:
    ..."; when both return, the build has gone through. *)
Theorem package_deb_stages root version sudo_pwd w :
  has_magic root = false →
  is_debian_based = true → is_cmake_installed = true →
  is_file w (os_path_join root "CMakeLists.txt") = true →
  let dist_dir := os_path_join root "dist" in
  let build_dir := os_path_join root "build" in
  let found := List.filter (glob_match (os_path_join dist_dir "*.deb")) (all_paths w) in
  let stale := List.filter (fun file => negb (contains version file)) found in
  let cmake := ["cmake"; "-DCPACK_GENERATOR=DEB"; "-DBUILD_DEV_TOOLS=OFF"; ".."] in
  ∃ w0,
    (∀ q, files w0 !! q
          = if existsb (fun file => below file q) (stale ++ [build_dir])%list then None
            else files w !! q) ∧
    is_dir w0 build_dir = true ∧ cwd w0 = build_dir ∧ stdout w0 = stdout w ∧
    (∀ w1 msg,
       subprocess_run cmake w0 = (w1, Raised (CalledProcessError msg)) →
       package_deb root version sudo_pwd w
       = (emit ("Error running CMake: " +:+ msg) w1, Ok bare_failure)) ∧
    (∀ w1 w2 msg,
       subprocess_run cmake w0 = (w1, Ok tt) →
       subprocess_run ["cpack"; "."] w1 = (w2, Raised (CalledProcessError msg)) →
       package_deb root version sudo_pwd w
       = (emit ("Error running CPack: " +:+ msg) w2, Ok bare_failure)) ∧
    (∀ w1 w2,
       subprocess_run cmake w0 = (w1, Ok tt) →
       subprocess_run ["cpack"; "."] w1 = (w2, Ok tt) →
       package_deb_build root version sudo_pwd bare_failure w = (w2, Ok None)).
Proof.
  intros _ Hdeb Hcmake Hlists dist_dir build_dir found stale cmake.
  destruct (package_deb_build_start root version sudo_pwd w Hdeb Hcmake Hlists)
    as (w0 & Hfiles & Hdir & Hcwd & Hout & Hbuild).
  exists w0. do 4 (split; [assumption|]). split; [|split].
  - intros w1 msg Hrun. unfold package_deb. cbv zeta.
    rewrite (bind_run _ _ _ _ _ (Hbuild _)), bind_assoc.
    rewrite (bind_ok _ _ _ _ _ (tool_failed _ (fun e => "Error running CMake: " +:+ e)
                                 _ _ _ Hrun)).
    reflexivity.
  - intros w1 w2 msg Hrun1 Hrun2. unfold package_deb. cbv zeta.
    rewrite (bind_run _ _ _ _ _ (Hbuild _)), bind_assoc.
    rewrite (bind_ok _ _ _ _ _ (tool_ok _ _ _ _ Hrun1)). cbn [negb].
    rewrite bind_assoc.
    rewrite (bind_ok _ _ _ _ _ (tool_failed _ (fun e => "Error running CPack: " +:+ e)
                                 _ _ _ Hrun2)).
    reflexivity.
  - intros w1 w2 Hrun1 Hrun2. rewrite Hbuild.
    rewrite (bind_ok _ _ _ _ _ (tool_ok _ _ _ _ Hrun1)). cbn [negb].
    now rewrite (bind_ok _ _ _ _ _ (tool_ok _ _ _ _ Hrun2)).
Qed.

(** X22.  In a clone whose path has no glob character,
    [package_src_tar_gz] removes from dist the matches of *-src.tar.gz
    whose path does not end with the name of the asset, and the
    tarball and the unpacked tree of an earlier run; nothing else is
    touched, nothing printed, and the working directory is the caller's when
    autoreconf runs.  A CalledProcessError of autoreconf, configure or make
    dist, and a missing tarball after make dist, each print their error and
    return success = False with the name of the asset.  With the tarball
    there (on linux, temp not being a file and the destination not a
    directory) it is moved to temp and unpacked from inside temp; once tar
    has left the unpacked tree and [test_autotool_src] has returned, a
    failed test prints "Error: Source package verification failed." and
    returns the failure, a passed one leads to the publish step. *)
Theorem package_src_tar_gz_stages root version sudo_pwd w :
  has_magic root = false →
  let asset_file_name := "ta-lib-" +:+ version +:+ "-src.tar.gz" in
  let result : dict := <["asset_file_name" := PStr asset_file_name]> bare_failure in
  let dist_dir := os_path_join root "dist" in
  let temp_dir := os_path_join root "temp" in
  let tarball := os_path_join root "ta-lib-git.tar.gz" in
  let moved := os_path_join temp_dir "ta-lib-git.tar.gz" in
  let found := List.filter (glob_match (os_path_join dist_dir "*-src.tar.gz")) (all_paths w) in
  let stale := List.filter (fun file => negb (endswith file asset_file_name)) found in
  let doomed := (stale ++ [tarball; moved; os_path_join temp_dir "ta-lib-git"])%list in
  ∃ w0,
    (∀ q, files w0 !! q
          = if existsb (fun file => below file q) doomed then None else files w !! q) ∧
    cwd w0 = cwd w ∧ stdout w0 = stdout w ∧
    (∀ w1 msg,
       subprocess_run ["autoreconf"; "-fi"] w0 = (w1, Raised (CalledProcessError msg)) →
       package_src_tar_gz root version sudo_pwd w
       = (emit ("Error running 'autoreconf -fi': " +:+ msg) w1, Ok result)) ∧
    (∀ w1 w2 msg,
       subprocess_run ["autoreconf"; "-fi"] w0 = (w1, Ok tt) →
       subprocess_run ["./configure"] w1 = (w2, Raised (CalledProcessError msg)) →
       package_src_tar_gz root version sudo_pwd w
       = (emit ("Error running './configure': " +:+ msg) w2, Ok result)) ∧
    (∀ w1 w2 w3 msg,
       subprocess_run ["autoreconf"; "-fi"] w0 = (w1, Ok tt) →
       subprocess_run ["./configure"] w1 = (w2, Ok tt) →
       subprocess_run ["make"; "dist"] w2 = (w3, Raised (CalledProcessError msg)) →
       package_src_tar_gz root version sudo_pwd w
       = (emit ("Error running 'make dist': " +:+ msg) w3, Ok result)) ∧
    (∀ w1 w2 w3,
       subprocess_run ["autoreconf"; "-fi"] w0 = (w1, Ok tt) →
       subprocess_run ["./configure"] w1 = (w2, Ok tt) →
       subprocess_run ["make"; "dist"] w2 = (w3, Ok tt) →
       is_file w3 tarball = false →
       package_src_tar_gz root version sudo_pwd w
       = (emit ("Error: " +:+ tarball +:+ " not found.") w3, Ok result)) ∧
    (∀ w1 w2 w3 c w5 w6 ok,
       subprocess_run ["autoreconf"; "-fi"] w0 = (w1, Ok tt) →
       subprocess_run ["./configure"] w1 = (w2, Ok tt) →
       subprocess_run ["make"; "dist"] w2 = (w3, Ok tt) →
       files w3 !! tarball = Some c →
       is_file w3 temp_dir = false → is_dir w3 moved = false → sys_platform = "linux" →
       let w4 := set_cwd temp_dir
                   (set_files (fun m => <[moved := c]> (delete tarball m))
                      (fst (os_makedirs temp_dir true w3))) in
       os_system ("tar -xzf " +:+ moved) w4 = (w5, Ok tt) →
       is_dir w5 (os_path_join temp_dir "ta-lib-git") = true →
       test_autotool_src (os_path_join temp_dir "ta-lib-git") sudo_pwd w5 = (w6, Ok ok) →
       package_src_tar_gz root version sudo_pwd w
       = if ok then package_src_tar_gz_publish root asset_file_name tarball moved result w6
         else (emit "Error: Source package verification failed." w6, Ok result)).
Proof.
  intros _ asset_file_name result dist_dir temp_dir tarball moved found stale doomed.
  set (keep := fun file => endswith file asset_file_name).
  set (purge := for_each found (fun file =>
                  if negb (keep file) then force_delete file else ret tt)).
  set (w' := fst (purge w)).
  assert (Hpurge : purge w = (w', Ok tt)).
  { subst w'. rewrite (surjective_pairing (purge w)) at 1. subst purge.
    now rewrite purge_run. }
  set (w0 := fst (force_delete (os_path_join temp_dir "ta-lib-git")
                (fst (force_delete moved
                   (fst (force_delete tarball w')))))).
  assert (Hbuild : ∀ result,
            package_src_tar_gz_build root version sudo_pwd result w
            = (ok <- try_except
                       (subprocess_run ["autoreconf"; "-fi"] ;;; ret true)
                       (fun e => print ("Error running 'autoreconf -fi': " +:+ e) ;;;
                                 ret false) ;;
               if negb ok then ret (Some result) else
               ok <- try_except
                       (subprocess_run ["./configure"] ;;; ret true)
                       (fun e => print ("Error running './configure': " +:+ e) ;;;
                                 ret false) ;;
               if negb ok then ret (Some result) else
               ok <- try_except
                       (subprocess_run ["make"; "dist"] ;;; ret true)
                       (fun e => print ("Error running 'make dist': " +:+ e) ;;;
                                 ret false) ;;
               if negb ok then ret (Some result) else
               isf <- os_path_isfile tarball ;;
               if negb isf then
                 print ("Error: " +:+ tarball +:+ " not found.") ;;;
                 ret (Some result)
               else
               os_makedirs temp_dir true ;;;
               os_rename tarball moved ;;;
               os_chdir temp_dir ;;;
               os_system ("tar -xzf " +:+ moved) ;;;
               ok <- test_autotool_src (os_path_join temp_dir "ta-lib-git") sudo_pwd ;;
               if negb ok then
                 print "Error: Source package verification failed." ;;;
                 ret (Some result)
               else ret None) w0).
  { intros result'. unfold package_src_tar_gz_build. cbv zeta.
    fold asset_file_name dist_dir temp_dir.
    change ("ta-lib-git" +:+ ".tar.gz") with "ta-lib-git.tar.gz". fold tarball moved.
    rewrite (bind_ok _ _ w w found) by reflexivity.
    fold keep. fold purge. rewrite (bind_ok _ _ _ _ _ Hpurge).
    rewrite (bind_ok _ _ _ _ _ (force_delete_run _ _)).
    rewrite (bind_ok _ _ _ _ _ (force_delete_run _ _)).
    now rewrite (bind_ok _ _ _ _ _ (force_delete_run _ _)). }
  assert (Hstart : ∀ m : M (option dict),
            package_src_tar_gz_build root version sudo_pwd result w = m w0 →
            package_src_tar_gz root version sudo_pwd w
            = (early <- m ;;
               match early with
               | Some r => ret r
               | None =>
                   package_src_tar_gz_publish root asset_file_name tarball
                     moved result
               end) w0).
  { intros m Hm. unfold package_src_tar_gz. cbv zeta.
    exact (bind_run _ _ _ _ _ Hm). }
  exists w0. split; [|split; [|split; [|split; [|split; [|split; [|split]]]]]].
  - intros q. subst w0. rewrite !force_delete_lookup. subst w' purge.
    rewrite (purge_files keep). unfold doomed. rewrite existsb_app. cbn [existsb].
    unfold stale. rewrite existsb_filter. fold keep.
    destruct (existsb _ found); cbn [orb].
    + now destruct (below tarball q), (below moved q),
        (below (os_path_join temp_dir "ta-lib-git") q).
    + rewrite orb_false_r.
      now destruct (below tarball q), (below moved q),
        (below (os_path_join temp_dir "ta-lib-git") q).
  - subst w0. cbn. subst w' purge. apply (purge_rest keep).
  - subst w0. cbn. subst w' purge. apply (purge_rest keep).
  - intros w1 msg Hrun. rewrite (Hstart _ (Hbuild _)), bind_assoc.
    rewrite (bind_ok _ _ _ _ _
               (tool_failed _ (fun e => "Error running 'autoreconf -fi': " +:+ e)
                  _ _ _ Hrun)).
    reflexivity.
  - intros w1 w2 msg Hrun1 Hrun2. rewrite (Hstart _ (Hbuild _)), bind_assoc.
    rewrite (bind_ok _ _ _ _ _ (tool_ok _ _ _ _ Hrun1)). cbn [negb]. rewrite bind_assoc.
    rewrite (bind_ok _ _ _ _ _
               (tool_failed _ (fun e => "Error running './configure': " +:+ e)
                  _ _ _ Hrun2)).
    reflexivity.
  - intros w1 w2 w3 msg Hrun1 Hrun2 Hrun3. rewrite (Hstart _ (Hbuild _)), bind_assoc.
    rewrite (bind_ok _ _ _ _ _ (tool_ok _ _ _ _ Hrun1)). cbn [negb]. rewrite bind_assoc.
    rewrite (bind_ok _ _ _ _ _ (tool_ok _ _ _ _ Hrun2)). cbn [negb]. rewrite bind_assoc.
    rewrite (bind_ok _ _ _ _ _
               (tool_failed _ (fun e => "Error running 'make dist': " +:+ e)
                  _ _ _ Hrun3)).
    reflexivity.
  - intros w1 w2 w3 Hrun1 Hrun2 Hrun3 Hno. rewrite (Hstart _ (Hbuild _)), bind_assoc.
    rewrite (bind_ok _ _ _ _ _ (tool_ok _ _ _ _ Hrun1)). cbn [negb]. rewrite bind_assoc.
    rewrite (bind_ok _ _ _ _ _ (tool_ok _ _ _ _ Hrun2)). cbn [negb]. rewrite bind_assoc.
    rewrite (bind_ok _ _ _ _ _ (tool_ok _ _ _ _ Hrun3)). cbn [negb]. rewrite bind_assoc.
    rewrite (bind_ok _ _ w3 w3 false) by (unfold os_path_isfile; now rewrite Hno).
    reflexivity.
  - intros w1 w2 w3 c w5 w6 ok Hrun1 Hrun2 Hrun3 Htar Htemp Hmoved Hlinux w4 Hsys _ Htest.
    rewrite (Hstart _ (Hbuild _)), bind_assoc.
    rewrite (bind_ok _ _ _ _ _ (tool_ok _ _ _ _ Hrun1)). cbn [negb]. rewrite bind_assoc.
    rewrite (bind_ok _ _ _ _ _ (tool_ok _ _ _ _ Hrun2)). cbn [negb]. rewrite bind_assoc.
    rewrite (bind_ok _ _ _ _ _ (tool_ok _ _ _ _ Hrun3)). cbn [negb]. rewrite bind_assoc.
    rewrite (bind_ok _ _ w3 w3 true)
      by (unfold os_path_isfile; now rewrite (is_file_Some _ _ _ Htar)).
    cbn [negb].
    destruct (os_makedirs_ok _ _ Htemp) as (w3' & Hmk & Hfiles & _ & _ & _ & Hdirs).
    assert (Hw3' : w3' = fst (os_makedirs temp_dir true w3)) by now rewrite Hmk.
    rewrite !bind_assoc. rewrite (bind_ok _ _ _ _ _ Hmk).
    assert (Hne : moved ≠ temp_dir) by (now apply os_path_join_ne).
    assert (Hmoved' : is_dir w3' moved = false) by (rewrite Hdirs; assumption).
    assert (Htar' : files w3' !! tarball = Some c) by (rewrite Hfiles; assumption).
    rewrite !bind_assoc.
    rewrite (bind_ok _ _ _ _ _ (os_rename_ok _ _ _ _ Htar' Hmoved' (or_introl Hlinux))).
    rewrite !bind_assoc.
    rewrite (bind_ok _ _ _ w4 tt) by (subst w4; now rewrite Hw3').
    rewrite !bind_assoc. rewrite (bind_ok _ _ _ _ _ Hsys).
    rewrite !bind_assoc. rewrite (bind_ok _ _ _ _ _ Htest).
    now destruct ok.
Qed.

(** X23.  On an Ubuntu host that is not RedHat-based, when
    [package_src_tar_gz] and then [package_deb] both return success = True,
    [package_all_linux] prints the summary (Created, Updated or No changes
    for the source tarball, .rpm skipped, then the line of the .deb) and
    "Packaging completed successfully.", and returns. *)
Theorem ubuntu_run_summary root version sudo_pwd w w1 src_results w2 deb_results :
  is_ubuntu = true → is_redhat_based = false → is_debian_based = true →
  package_src_tar_gz root version sudo_pwd (set_cwd root w) = (w1, Ok src_results) →
  src_results !! "success" = Some (PBool true) →
  package_deb root version sudo_pwd w1 = (w2, Ok deb_results) →
  deb_results !! "success" = Some (PBool true) →
  ∃ src_existed src_copied deb_name deb_existed deb_copied,
    src_results !! "existed" = Some (PBool src_existed) ∧
    src_results !! "copied" = Some (PBool src_copied) ∧
    deb_results !! "asset_file_name" = Some (PStr deb_name) ∧
    deb_results !! "existed" = Some (PBool deb_existed) ∧
    deb_results !! "copied" = Some (PBool deb_copied) ∧
    package_all_linux root version sudo_pwd w
    = (World (files w2) (dirs w2) (cwd w2) (clock w2)
         (stdout w2 ++ [nl +:+ "***********"; "* Summary *"; "***********";
                        outcome_line src_copied src_existed
                          ("ta-lib-" +:+ version +:+ "-src.tar.gz");
                        ".rpm build skipped (not supported on this platform)";
                        outcome_line deb_copied deb_existed deb_name;
                        nl +:+ "Packaging completed successfully."]),
       Ok tt).
Proof.
  intros Hu Hr Hd Hsrc Hss Hdeb Hds.
  destruct (package_src_tar_gz_returns _ _ _ _ _ _ Hsrc) as [Hsn [->|Hsc]];
    [discriminate Hss|].
  destruct Hsc as (_ & _ & [src_existed Hse] & [src_copied Hsc]).
  destruct (package_deb_returns _ _ _ _ _ _ Hdeb) as [->|Hdc]; [discriminate Hds|].
  destruct Hdc as (_ & [deb_name Hdn] & [deb_existed Hde] & [deb_copied Hdc]).
  exists src_existed, src_copied, deb_name, deb_existed, deb_copied.
  split; [exact Hse|]. split; [exact Hsc|]. split; [exact Hdn|].
  split; [exact Hde|]. split; [exact Hdc|].
  unfold package_all_linux. cbv zeta. rewrite Hu, Hr, Hd.
  rewrite (bind_ok _ _ w (set_cwd root w) tt) by reflexivity.
  rewrite bind_assoc, (bind_ok _ _ _ _ _ Hsrc).
  rewrite (bind_ok _ _ _ _ _ (record_results_ok _ _ _ _ Hss)).
  rewrite (bind_ok _ _ _ w1 (default_results ".rpm")) by reflexivity.
  rewrite bind_assoc, (bind_ok _ _ _ _ _ Hdeb).
  rewrite (bind_ok _ _ _ _ _ (record_results_ok _ _ _ _ Hds)).
  rewrite (bind_ok _ _ _ _ tt) by reflexivity.
  rewrite (bind_ok _ _ _ _ tt) by reflexivity.
  rewrite (bind_ok _ _ _ _ tt) by reflexivity.
  rewrite (bind_ok _ _ _ _ _ (display_summarised _ _ _ _ _ _ Hss Hsn Hsc Hse)).
  rewrite (bind_ok _ _ _ _ _ (display_skipped _ _)).
  rewrite (bind_ok _ _ _ _ _ (display_summarised _ _ _ _ _ _ Hds Hdn Hdc Hde)).
  unfold print, emit. cbn [files dirs cwd clock stdout].
  now rewrite <- !app_assoc.
Qed.

(** X24.  On a RedHat-based host that is neither Debian-based nor Ubuntu,
    [package_all_linux] always exits with status 1 without touching a file:
    without rpmbuild after "Error: rpmbuild not found. RPM not created",
    with it after the two error lines of the failed [package_deb] call. *)
Theorem redhat_run_always_fails root version sudo_pwd w :
  is_redhat_based = true → is_debian_based = false → is_ubuntu = false →
  package_all_linux root version sudo_pwd w
  = (World (files w) (dirs w) root (clock w)
       (stdout w ++
        if is_rpmbuild_installed
        then ["Error: Debian-based system required for .deb packaging.";
              "Error: Packaging dist/.rpm failed."]
        else ["Error: rpmbuild not found. RPM not created"]),
     Exit 1).
Proof.
  intros Hr Hd Hu. unfold package_all_linux. cbv zeta. rewrite Hu, Hr.
  rewrite (bind_ok _ _ w (set_cwd root w) tt) by reflexivity.
  rewrite (bind_ok _ _ _ (set_cwd root w) (default_results "src.tar.gz")) by reflexivity.
  apply bind_exit.
  destruct is_rpmbuild_installed; cbn [negb]; [|reflexivity].
  assert (Hcall : package_deb root version sudo_pwd (set_cwd root w)
                  = (emit "Error: Debian-based system required for .deb packaging."
                       (set_cwd root w), Ok bare_failure)).
  { unfold package_deb, package_deb_build. cbv zeta. now rewrite Hd. }
  rewrite (bind_ok _ _ _ _ _ Hcall), record_bare_failure.
  unfold emit, set_cwd. cbn [files dirs cwd clock stdout].
  now rewrite <- app_assoc.
Qed.

(** ** Ambiguous build output *)











(** ** The staged package *)

Lemma try_finally_inv {A} (body : M A) d w w' a :
  try_finally body (os_chdir d) w = (w', Ok a) →
  ∃ w1, body w = (w1, Ok a) ∧ w' = set_cwd d w1.
Proof.
  unfold try_finally. destruct (body w) as [w1 r]. cbn.
  intros [= <- ->]. now exists w1.
Qed.

(** X25.  When the staging of [package_windows_zip] has gone through, the
    package directory holds a VERSION.txt whose content is the version
    string. *)
Theorem staged_package_names_version root version result w w1 :
  package_windows_zip_stage root version result w = (w1, Ok None) →
  let package_temp_dir :=
    path_join (path_join root "temp") ("ta-lib-" +:+ version +:+ "-win64") in
  data <$> files w1 !! path_join package_temp_dir "VERSION.txt"
  = Some (list_byte_of_string version).
Proof.
  intros Hstage package_temp_dir.
  rewrite package_windows_zip_stage_split in Hstage.
  apply bind_inv in Hstage as (w0 & build_dir & _ & Hcopy).
  unfold package_windows_zip_copy in Hcopy. cbv zeta in Hcopy.
  fold package_temp_dir in Hcopy.
  rewrite (bind_ok _ _ w0 w0 (cwd w0)) in Hcopy by reflexivity.
  apply try_finally_inv in Hcopy as (w2 & Hbody & ->).
  rewrite try_except_never in Hbody.
  2:{ repeat first [ apply never_cpe_ret | apply never_cpe_os_chdir | apply never_cpe_in_cwd
                   | apply never_cpe_glob_glob | apply never_cpe_open_wb
                   | apply never_cpe_write_all | apply never_cpe_shutil_copy
                   | apply never_cpe_for_each; intros ?
                   | apply never_cpe_bind; [|intros ?] ]. }
  do 10 (apply bind_inv in Hbody as (? & ? & _ & Hbody)).
  apply bind_inv in Hbody as (w3 & [] & Hwrite & Hret).
  injection Hret as <-. injection Hwrite as <-.
  cbn. now rewrite lookup_insert_eq.
Qed.

End Proofs.

(** * The script on concrete inputs *)

Ltac staged_tac :=
  unfold staged; cbv zeta;
  repeat match goal with
         | |- _ ∧ _ => split
         | |- _ ≠ _ => let E := fresh in intros E; vm_compute in E; discriminate E
         | |- _ → _ => let E := fresh in intros E; first [discriminate E | vm_compute; reflexivity]
         | |- _ = _ => vm_compute; reflexivity
         end.

Lemma publish_decision_witness :
  runs_on (host := debian_sim) PublishDeb ∧
  staged PublishDeb "/repo" "/repo/build/ta-lib_0.6.0_amd64.deb"
    "ta-lib_0.6.0_amd64.deb" (File (list_byte_of_string "deb 0.6.0") 9) built_deb_world ∧
  ∃ w' r,
    publish (host := debian_sim) PublishDeb "/repo" "/repo/build/ta-lib_0.6.0_amd64.deb"
      "ta-lib_0.6.0_amd64.deb" built_deb_world = (w', Ok r) ∧
    r !! "copied" = Some (PBool true) ∧
    display_package_results (summarised (default_results ".deb") r) w'
    = (emit "Created dist/ta-lib_0.6.0_amd64.deb" w', Ok tt).
Proof.
  assert (Hp : runs_on (host := debian_sim) PublishDeb) by reflexivity.
  assert (Hst : staged PublishDeb "/repo"
                  "/repo/build/ta-lib_0.6.0_amd64.deb" "ta-lib_0.6.0_amd64.deb"
                  (File (list_byte_of_string "deb 0.6.0") 9) built_deb_world)
    by staged_tac.
  split; [exact Hp|]. split; [exact Hst|].
  destruct (publish_decision (host := debian_sim) PublishDeb "/repo"
              "/repo/build/ta-lib_0.6.0_amd64.deb" "ta-lib_0.6.0_amd64.deb" _ _
              (default_results ".deb") Hp Hst)
    as (w' & r & Hrun & Hc & _ & _ & _ & Hline).
  exists w', r. split; [exact Hrun|]. split; [exact Hc|]. apply Hline.
Defined.

(** C1, as stated, fails on the last clause: [package_windows_zip] finds
    the published zip equivalent to the one it has just built, reports
    copied = False, and the candidate is still in the temp directory
    afterwards. *)
Lemma unchanged_zip_candidate_stays :
  let run := package_windows_zip (host := windows_sim) "/repo" "0.6.0" published_zip_world in
  (∃ r, snd run = Ok (Some r) ∧ r !! "copied" = Some (PBool false) ∧
        r !! "existed" = Some (PBool true)) ∧
  data <$> files (fst run) !! "/repo/temp/ta-lib-0.6.0-win64.zip"
  = Some (list_byte_of_string "PK") ∧
  files (fst run) !! "/repo/dist/ta-lib-0.6.0-win64.zip"
  = Some (File (list_byte_of_string "PK") 2).
Proof.
  cbv zeta. split; [|split; vm_compute; reflexivity].
  exists (match snd (package_windows_zip (host := windows_sim) "/repo" "0.6.0"
                       published_zip_world) with
          | Ok (Some r) => r
          | _ => ∅
          end).
  split; [vm_compute; reflexivity|]. split; vm_compute; reflexivity.
Qed.

Lemma interrupted_replace_witness :
  runs_on (host := windows_sim) PublishZip ∧
  staged PublishZip "/repo" "/repo/temp/ta-lib-0.6.0-win64.zip" "ta-lib-0.6.0-win64.zip"
    (File (list_byte_of_string "PK new bytes") 9) changed_zip_world ∧
  ∃ w', In w' (interrupted (host := windows_sim) 4 PublishZip "/repo"
                 "/repo/temp/ta-lib-0.6.0-win64.zip" "ta-lib-0.6.0-win64.zip"
                 changed_zip_world) ∧
        data <$> files w' !! published "/repo" "ta-lib-0.6.0-win64.zip"
        = Some (list_byte_of_string "PK n").
Proof.
  assert (Hp : runs_on (host := windows_sim) PublishZip) by exact I.
  assert (Hst : staged PublishZip "/repo" "/repo/temp/ta-lib-0.6.0-win64.zip"
                  "ta-lib-0.6.0-win64.zip"
                  (File (list_byte_of_string "PK new bytes") 9) changed_zip_world)
    by staged_tac.
  split; [exact Hp|]. split; [exact Hst|].
  destruct (interrupted_replace (host := windows_sim) 4 PublishZip "/repo"
              "/repo/temp/ta-lib-0.6.0-win64.zip" "ta-lib-0.6.0-win64.zip" _ _ Hp Hst)
    as (_ & _ & _ & Hoccurs).
  destruct (Hoccurs 4%nat) as (w' & Hin & Hdata).
  - right. right. split; [cbn; lia|]. now exists 1%nat.
  - exists w'. split; [exact Hin|exact Hdata].
Defined.

(** C2, as stated, fails for msi and for zip.  With an old MSI published
    and a new one built, the replace step creates dist, removes the old
    file and renames the new one into place: an interruption after the
    removal finds neither of them in dist.  With an old zip published and a
    new one built, the copy (here in blocks of four bytes) leaves the zip
    in dist empty, then partly written, until the last block is in. *)
Lemma msi_interrupted_leaves_nothing :
  (let w := changed_msi_world in
   let dist_file := published "/repo" "ta-lib-0.6.0-windows-x86_64.msi" in
   let states := interrupted (host := windows_sim) 4 (PublishMsi false) "/repo"
                   "/repo/build" "ta-lib-0.6.0-windows-x86_64.msi" w in
   map (fun w' => data <$> files w' !! dist_file) states
   = [Some (list_byte_of_string "msi 0.6.0 a"); Some (list_byte_of_string "msi 0.6.0 a");
      None; Some (list_byte_of_string "msi 0.6.0 b")] ∧
   List.last states w
   = fst (package_windows_msi_replace (calls := machine (host := windows_sim)) "/repo/dist"
            dist_file "/repo/build/ta-lib-0.6.0-windows-x86_64.msi" w)) ∧
  (let w := changed_zip_world in
   let dist_file := published "/repo" "ta-lib-0.6.0-win64.zip" in
   let states := interrupted (host := windows_sim) 4 PublishZip "/repo"
                   "/repo/temp/ta-lib-0.6.0-win64.zip" "ta-lib-0.6.0-win64.zip" w in
   map (fun w' => data <$> files w' !! dist_file) states
   = [Some (list_byte_of_string "PK old"); Some (list_byte_of_string "PK old");
      Some []; Some (list_byte_of_string "PK n"); Some (list_byte_of_string "PK new b");
      Some (list_byte_of_string "PK new bytes")] ∧
   List.last states w
   = fst (package_windows_zip_replace (calls := machine (host := windows_sim)) "/repo/dist"
            dist_file "/repo/temp/ta-lib-0.6.0-win64.zip" w)).
Proof.
  cbv zeta. repeat split; vm_compute; reflexivity.
Qed.




Lemma publish_twice_unchanged_witness :
  let first := publish (host := debian_sim) PublishDeb "/repo"
                 "/repo/build/ta-lib_0.6.0_amd64.deb" "ta-lib_0.6.0_amd64.deb"
                 built_deb_world in
  files rebuilt_deb_world !! published "/repo" "ta-lib_0.6.0_amd64.deb"
  = files (fst first) !! published "/repo" "ta-lib_0.6.0_amd64.deb" ∧
  ∃ w2 r2,
    publish (host := debian_sim) PublishDeb "/repo" "/repo/build/ta-lib_0.6.0_amd64.deb"
      "ta-lib_0.6.0_amd64.deb" rebuilt_deb_world = (w2, Ok r2) ∧
    r2 !! "copied" = Some (PBool false) ∧
    files w2 !! published "/repo" "ta-lib_0.6.0_amd64.deb"
    = Some (File (list_byte_of_string "deb 0.6.0") 9).
Proof.
  cbv zeta.
  assert (Hdist : files rebuilt_deb_world !! published "/repo" "ta-lib_0.6.0_amd64.deb"
                  = files (fst (publish (host := debian_sim) PublishDeb "/repo"
                                  "/repo/build/ta-lib_0.6.0_amd64.deb"
                                  "ta-lib_0.6.0_amd64.deb" built_deb_world))
                      !! published "/repo" "ta-lib_0.6.0_amd64.deb")
    by (vm_compute; reflexivity).
  split; [exact Hdist|].
  destruct (publish_twice_unchanged (host := debian_sim) PublishDeb "/repo"
              "/repo/build/ta-lib_0.6.0_amd64.deb" "ta-lib_0.6.0_amd64.deb"
              (File (list_byte_of_string "deb 0.6.0") 9)
              (File (list_byte_of_string "deb 0.6.0") 12)
              built_deb_world rebuilt_deb_world (default_results ".deb"))
    as (w2 & r2 & Hrun & Hc & Hkeep & _).
  - reflexivity.
  - reflexivity.
  - vm_compute. reflexivity.
  - staged_tac.
  - staged_tac.
  - reflexivity.
  - exact Hdist.
  - exists w2, r2. split; [exact Hrun|]. split; [exact Hc|].
    rewrite Hkeep, <- Hdist. vm_compute. reflexivity.
Defined.


Lemma redhat_run_exits_witness :
  snd (package_all_linux (host := redhat_sim) "/repo" "0.6.0" EmptyString repo_world)
  = Exit 1 ∧
  stdout (fst (package_all_linux (host := redhat_sim) "/repo" "0.6.0" EmptyString repo_world))
  = ["Error: Debian-based system required for .deb packaging.";
     "Error: Packaging dist/.rpm failed."].
Proof.
  destruct (redhat_run_exits (host := redhat_sim) "/repo" "0.6.0" EmptyString repo_world
              eq_refl eq_refl eq_refl) as (_ & Hrun & _).
  { discriminate. }
  rewrite Hrun. split; reflexivity.
Defined.

Lemma zip_failure_raises_type_error_witness :
  snd (package_all_windows (host := windows_zip_fails) "/repo" "0.6.0" repo_world)
  = Raised TypeError.
Proof.
  destruct (zip_failure_raises_type_error (host := windows_zip_fails) "/repo" "0.6.0"
              "zip failed" repo_world
              (fst (package_windows_zip_stage (host := windows_zip_fails) "/repo" "0.6.0"
                      (initial_result PublishZip "ta-lib-0.6.0-win64.zip") repo_world))
              (fst (package_windows_zip_stage (host := windows_zip_fails) "/repo" "0.6.0"
                      (initial_result PublishZip "ta-lib-0.6.0-win64.zip") repo_world)))
    as (_ & Hrun & _).
  - vm_compute. reflexivity.
  - reflexivity.
  - now rewrite Hrun.
Defined.


(** C6.  The version check of [package_deb] and [find_asset_with_ext]
    looks at the whole path of the build output.  In a clone at
    /src/ta-lib-0.6.0, a .deb (or MSI) whose file name does not contain the
    version 0.6.0 passes the check and is published. *)
Theorem version_check_reads_whole_path :
  contains "0.6.0" "ta-lib_amd64.deb" = false ∧
  (let run := package_deb (host := debian_unversioned) "/src/ta-lib-0.6.0" "0.6.0"
                EmptyString versioned_dir_world in
   (∃ r, snd run = Ok r ∧ r !! "success" = Some (PBool true) ∧
         r !! "copied" = Some (PBool true) ∧
         r !! "asset_file_name" = Some (PStr "ta-lib_amd64.deb")) ∧
   data <$> files (fst run) !! "/src/ta-lib-0.6.0/dist/ta-lib_amd64.deb"
   = Some (list_byte_of_string "deb")) ∧
  contains "0.6.0" "ta-lib.msi" = false ∧
  (let run := package_windows_msi (host := windows_unversioned) "/src/ta-lib-0.6.0" "0.6.0"
                false versioned_dir_world in
   (∃ r, snd run = Ok r ∧ r !! "success" = Some (PBool true) ∧
         r !! "copied" = Some (PBool true) ∧
         r !! "asset_file_name" = Some (PStr "ta-lib.msi")) ∧
   data <$> files (fst run) !! "/src/ta-lib-0.6.0/dist/ta-lib.msi"
   = Some (list_byte_of_string "msi")).
Proof.
  split; [reflexivity|]. split; [|split; [reflexivity|]].
  - cbv zeta. split; [|vm_compute; reflexivity].
    exists (match snd (package_deb (host := debian_unversioned) "/src/ta-lib-0.6.0" "0.6.0"
                         EmptyString versioned_dir_world) with
            | Ok r => r
            | _ => ∅
            end).
    repeat split; vm_compute; reflexivity.
  - cbv zeta. split; [|vm_compute; reflexivity].
    exists (match snd (package_windows_msi (host := windows_unversioned)
                         "/src/ta-lib-0.6.0" "0.6.0" false versioned_dir_world) with
            | Ok r => r
            | _ => ∅
            end).
    repeat split; vm_compute; reflexivity.
Qed.

(** C7.  [package_windows_msi] never removes the MSI files of other
    versions: after version 0.6.0 has been built and published, the MSI of
    version 0.5.0 is still in dist, next to the new one. *)
Theorem msi_publish_keeps_other_versions :
  let run := package_windows_msi (host := windows_sim) "/repo" "0.6.0" false
               stale_msi_world in
  (∃ r, snd run = Ok r ∧ r !! "success" = Some (PBool true) ∧
        r !! "copied" = Some (PBool true)) ∧
  glob_glob "/repo/dist/*.msi" (fst run)
  = (fst run, Ok ["/repo/dist/ta-lib-0.5.0-windows-x86_64.msi";
                  "/repo/dist/ta-lib-0.6.0-windows-x86_64.msi"]).
Proof.
  cbv zeta. split.
  - exists (match snd (package_windows_msi (host := windows_sim) "/repo" "0.6.0" false
                         stale_msi_world) with
            | Ok r => r
            | _ => ∅
            end).
    repeat split; vm_compute; reflexivity.
  - vm_compute. reflexivity.
Qed.

(** The purges that exist test the version against the whole path, like the
    version check: in a clone at /src/ta-lib-0.6.0 the .deb of version 0.5.0
    survives the purge of [package_deb]. *)
Example purge_reads_whole_path :
  let run := package_deb (host := debian_sim) "/src/ta-lib-0.6.0" "0.6.0" EmptyString
               versioned_dir_stale_world in
  (∃ r, snd run = Ok r ∧ r !! "success" = Some (PBool true)) ∧
  glob_glob "/src/ta-lib-0.6.0/dist/*.deb" (fst run)
  = (fst run, Ok ["/src/ta-lib-0.6.0/dist/ta-lib_0.5.0_amd64.deb";
                  "/src/ta-lib-0.6.0/dist/ta-lib_0.6.0_amd64.deb"]).
Proof.
  cbv zeta. split.
  - exists (match snd (package_deb (host := debian_sim) "/src/ta-lib-0.6.0" "0.6.0"
                         EmptyString versioned_dir_stale_world) with
            | Ok r => r
            | _ => ∅
            end).
    split; vm_compute; reflexivity.
  - vm_compute. reflexivity.
Qed.

(** ** More runs *)


Lemma build_steps_exit_on_failure_witness :
  is_dir old_build_world "/repo/build" = true ∧
  do_cmake_build (host := debian_cmake_fails) "/repo/build" old_build_world
  = (emit "Error running cmake build: Command returned non-zero exit status 1."
       old_build_world, Exit 1).
Proof.
  assert (Hdir : is_dir old_build_world "/repo/build" = true) by (vm_compute; reflexivity).
  split; [exact Hdir|].
  rewrite (proj1 (build_steps_exit_on_failure (host := debian_cmake_fails) "/repo/build"
                    old_build_world Hdir)).
  reflexivity.
Defined.



Lemma package_deb_after_build_witness :
  ∃ w1, package_deb_build (host := debian_sim) "/repo" "0.6.0" EmptyString
          {["success" := PBool false]} repo_world = (w1, Ok None) ∧
        package_deb (host := debian_sim) "/repo" "0.6.0" EmptyString repo_world
        = package_deb_publish (host := debian_sim) "/repo"
            "/repo/build/ta-lib_0.6.0_amd64.deb" "ta-lib_0.6.0_amd64.deb"
            {["success" := PBool false]} w1.
Proof.
  set (run := package_deb_build (host := debian_sim) "/repo" "0.6.0" EmptyString
                {["success" := PBool false]} repo_world).
  set (w1 := fst run).
  assert (Hbuild : run = (w1, Ok None)) by (vm_compute; reflexivity).
  assert (Hfound : List.filter (glob_match (os_path_join (os_path_join "/repo" "build") "*.deb"))
                     (all_paths w1) = ["/repo/build/ta-lib_0.6.0_amd64.deb"])
    by (vm_compute; reflexivity).
  clearbody w1. subst run. exists w1. split; [exact Hbuild|].
  destruct (package_deb_after_build (host := debian_sim) "/repo" "0.6.0" EmptyString
              repo_world w1 eq_refl Hbuild) as [Hrun _].
  rewrite Hrun, Hfound. reflexivity.
Defined.


Lemma results_carry_their_keys_witness :
  ∃ w' r, package_deb (host := debian_sim) "/repo" "0.6.0" EmptyString repo_world
          = (w', Ok r) ∧ complete r.
Proof.
  set (run := package_deb (host := debian_sim) "/repo" "0.6.0" EmptyString repo_world).
  set (w' := fst run).
  set (r := match snd run with Ok r => r | _ => ∅ end).
  assert (Hrun : run = (w', Ok r)) by (vm_compute; reflexivity).
  assert (Hs : r !! "success" = Some (PBool true)) by (vm_compute; reflexivity).
  clearbody w' r. subst run. exists w', r. split; [exact Hrun|].
  destruct (proj1 (results_carry_their_keys (host := debian_sim) "/repo" "0.6.0" EmptyString
                     false repo_world w' r) Hrun) as [->|Hc]; [discriminate Hs|exact Hc].
Defined.

Lemma zip_step_outcomes_witness :
  ∃ w1 zip_results,
    package_windows_zip (host := windows_sim) "/repo" "0.6.0" repo_world
    = (w1, Ok (Some zip_results)) ∧
    complete zip_results ∧
    package_all_windows (host := windows_sim) "/repo" "0.6.0" repo_world
    = package_all_windows_msi (host := windows_sim) "/repo" "0.6.0"
        (summarised (default_results ".zip") zip_results) w1.
Proof.
  set (run := package_windows_zip (host := windows_sim) "/repo" "0.6.0" repo_world).
  set (w1 := fst run).
  set (rz := match snd run with Ok (Some r) => r | _ => ∅ end).
  assert (Hzip : run = (w1, Ok (Some rz))) by (vm_compute; reflexivity).
  destruct (zip_step_outcomes (host := windows_sim) "/repo" "0.6.0" repo_world)
    as [Hall Hshape].
  fold run in Hall, Hshape. rewrite Hzip in Hall.
  clearbody w1 rz. exists w1, rz. split; [exact Hzip|].
  split; [exact (proj1 (Hshape _ _ Hzip))|exact Hall].
Defined.

Lemma publish_touches_nothing_else_witness :
  ∃ w' r,
    publish (host := debian_sim) PublishDeb "/repo" "/repo/build/ta-lib_0.6.0_amd64.deb"
      "ta-lib_0.6.0_amd64.deb" two_assets_world = (w', Ok r) ∧
    files w' !! "/repo/dist/ta-lib-0.6.0-src.tar.gz"
    = Some (File (list_byte_of_string "tgz") 3).
Proof.
  assert (Hp : runs_on (host := debian_sim) PublishDeb) by reflexivity.
  assert (Hst : staged PublishDeb "/repo" "/repo/build/ta-lib_0.6.0_amd64.deb"
                  "ta-lib_0.6.0_amd64.deb" (File (list_byte_of_string "deb 0.6.0") 9)
                  two_assets_world) by staged_tac.
  destruct (publish_touches_nothing_else (host := debian_sim) PublishDeb "/repo"
              "/repo/build/ta-lib_0.6.0_amd64.deb" "ta-lib_0.6.0_amd64.deb" _ _ Hp Hst)
    as (w' & r & Hrun & _ & Hframe).
  exists w', r. split; [exact Hrun|].
  rewrite (Hframe "/repo/dist/ta-lib-0.6.0-src.tar.gz").
  - vm_compute. reflexivity.
  - intros E. vm_compute in E. discriminate E.
  - vm_compute. reflexivity.
  - discriminate.
Defined.

Lemma linux_nothing_to_build_witness :
  snd (package_all_linux (host := plain_linux) "/repo" "0.6.0" EmptyString repo_world) = Ok tt ∧
  files (fst (package_all_linux (host := plain_linux) "/repo" "0.6.0" EmptyString repo_world))
  = files repo_world.
Proof.
  rewrite (linux_nothing_to_build (host := plain_linux) "/repo" "0.6.0" EmptyString repo_world
             eq_refl eq_refl eq_refl).
  split; reflexivity.
Defined.

Lemma main_dispatch_witness :
  main (host := darwin_sim) EmptyString repo_world
  = (emit "Unsupported platform [darwin]. Contact TA-Lib maintainers." repo_world, Exit 1).
Proof.
  destruct (main_dispatch (host := darwin_sim) EmptyString repo_world repo_world repo_world
              "/repo" "0.6.0" eq_refl eq_refl) as (_ & _ & _ & Hother).
  rewrite Hother; [reflexivity|discriminate|discriminate].
Defined.

Lemma missing_library_is_not_caught_witness :
  snd (package_all_windows (host := windows_bare) "/repo" "0.6.0" repo_world)
  = Raised FileNotFoundError.
Proof.
  set (run := package_windows_zip_prepare (host := windows_bare) "/repo" "0.6.0" repo_world).
  set (w1 := fst run).
  assert (Hprep : run = (w1, Ok "/repo/build")) by (vm_compute; reflexivity).
  assert (Hdll : files w1 !! os_path_join "/repo/build" "ta-lib.dll" = None)
    by (vm_compute; reflexivity).
  assert (Hnodir : is_dir w1 (os_path_join "/repo/build" "ta-lib.dll") = false)
    by (vm_compute; reflexivity).
  clearbody w1. subst run.
  destruct (missing_library_is_not_caught (host := windows_bare) "/repo" "0.6.0" repo_world
              w1 "/repo/build" Hprep Hdll Hnodir) as [_ Hall].
  now rewrite Hall.
Defined.

Lemma debian_run_summary_witness :
  snd (package_all_linux (host := debian_sim) "/repo" "0.6.0" EmptyString repo_world) = Ok tt.
Proof.
  set (run := package_deb (host := debian_sim) "/repo" "0.6.0" EmptyString
                (set_cwd "/repo" repo_world)).
  set (w1 := fst run).
  set (r := match snd run with Ok r => r | _ => ∅ end).
  assert (Hdeb : run = (w1, Ok r)) by (vm_compute; reflexivity).
  assert (Hs : r !! "success" = Some (PBool true)) by (vm_compute; reflexivity).
  clearbody w1 r. subst run.
  destruct (debian_run_summary (host := debian_sim) "/repo" "0.6.0" EmptyString repo_world
              w1 r eq_refl eq_refl eq_refl Hdeb) as [_ Hok].
  destruct (Hok Hs) as (name & existed & copied & _ & _ & _ & Hall).
  now rewrite Hall.
Defined.

Lemma windows_run_summary_witness :
  snd (package_all_windows (host := windows_sim) "/repo" "0.6.0" repo_world) = Ok tt.
Proof.
  set (run := package_windows_zip (host := windows_sim) "/repo" "0.6.0" repo_world).
  set (w1 := fst run).
  set (rz := match snd run with Ok (Some r) => r | _ => ∅ end).
  assert (Hzip : run = (w1, Ok (Some rz))) by (vm_compute; reflexivity).
  assert (Hc : rz !! "copied" = Some (PBool true)) by (vm_compute; reflexivity).
  set (run2 := package_windows_msi (host := windows_sim) "/repo" "0.6.0" true w1).
  set (w2 := fst run2).
  set (rm := match snd run2 with Ok r => r | _ => ∅ end).
  assert (Hmsi : run2 = (w2, Ok rm)) by (vm_compute; reflexivity).
  assert (Hs : rm !! "success" = Some (PBool true)) by (vm_compute; reflexivity).
  clearbody w2 rm. subst run2. clearbody w1 rz. subst run.
  destruct (windows_run_summary (host := windows_sim) "/repo" "0.6.0" repo_world w1 rz w2 rm
              true Hzip Hc eq_refl Hmsi) as [_ Hok].
  destruct (Hok Hs) as (ze & mn & me & mc & _ & _ & _ & _ & Hall).
  now rewrite Hall.
Defined.

Lemma package_deb_checks_first_witness :
  package_deb (host := redhat_sim) "/repo" "0.6.0" EmptyString repo_world
  = (emit "Error: Debian-based system required for .deb packaging." repo_world,
     Ok bare_failure).
Proof.
  exact (proj1 (package_deb_checks_first (host := redhat_sim) "/repo" "0.6.0" EmptyString
                  repo_world) eq_refl).
Defined.

Lemma package_windows_msi_checks_tools_witness :
  package_windows_msi (host := windows_without_dotnet) "/repo" "0.6.0" false repo_world
  = (emit "Error: .NET Framework not found. It is required to build the MSI." repo_world,
     Ok bare_failure).
Proof.
  exact (proj1 (package_windows_msi_checks_tools (host := windows_without_dotnet) "/repo"
                  "0.6.0" false repo_world repo_world eq_refl) eq_refl).
Defined.

Lemma test_autotool_src_contains_failures_witness :
  is_dir unpacked_world "/repo/temp/ta-lib-git" = true ∧
  test_autotool_src (host := debian_cmake_fails) "/repo/temp/ta-lib-git" EmptyString
    unpacked_world
  = (emit "Error during verification: Command returned non-zero exit status 1."
       unpacked_world, Ok false).
Proof.
  assert (Hdir : is_dir unpacked_world "/repo/temp/ta-lib-git" = true)
    by (vm_compute; reflexivity).
  split; [exact Hdir|].
  rewrite (proj1 (proj2 (proj2 (test_autotool_src_contains_failures
                                  (host := debian_cmake_fails)
                                  "/repo/temp/ta-lib-git" EmptyString)))
             unpacked_world unpacked_world unpacked_world unpacked_world
             (set_cwd "/repo/temp/ta-lib-git" unpacked_world)
             "/repo" "/repo/tmp" "/repo/tmp" "Command returned non-zero exit status 1."
             eq_refl eq_refl eq_refl Hdir eq_refl).
  reflexivity.
Defined.

Lemma sim_tools_keep_cwd platform debian redhat build_out cpack_out zip_fails argv :
  keeps same_cwd
    (subprocess_run (Host := sim_host platform debian redhat build_out cpack_out zip_fails)
       argv).
Proof.
  assert (Hwrite : ∀ l, keeps same_cwd (for_each l write_in_cwd)).
  { induction l as [|x l IH]; cbn [for_each]; [now intros w|].
    apply (keeps_bind _ same_cwd_trans); [now intros w|intros _; exact IH]. }
  cbn. destruct (String.eqb _ _); [apply Hwrite|].
  destruct (_ && _); [apply Hwrite|now intros w].
Qed.

Lemma package_deb_stays_in_build_witness :
  cwd repo_world = "/" ∧
  cwd (fst (package_deb (host := debian_sim) "/repo" "0.6.0" EmptyString repo_world))
  = "/repo/build".
Proof.
  split; [reflexivity|].
  rewrite (package_deb_stays_in_build (host := debian_sim) "/repo" "0.6.0" EmptyString
             repo_world eq_refl eq_refl).
  - reflexivity.
  - vm_compute. reflexivity.
  - intros argv. apply sim_tools_keep_cwd.
Defined.

Lemma ubuntu_run_stops_at_src_failure_witness :
  snd (package_all_linux (host := ubuntu_sim) "/repo" "0.6.0" EmptyString repo_world)
  = Exit 1 ∧
  stdout (fst (package_all_linux (host := ubuntu_sim) "/repo" "0.6.0" EmptyString repo_world))
  = ["Error: /repo/ta-lib-git.tar.gz not found.";
     "Error: Packaging dist/ta-lib-0.6.0-src.tar.gz failed."].
Proof.
  set (run := package_src_tar_gz (host := ubuntu_sim) "/repo" "0.6.0" EmptyString
                (set_cwd "/repo" repo_world)).
  set (w1 := fst run).
  set (r := match snd run with Ok r => r | _ => ∅ end).
  assert (Hsrc : run = (w1, Ok r)) by (vm_compute; reflexivity).
  assert (Hs : r !! "success" ≠ Some (PBool true)) by (vm_compute; discriminate).
  assert (Hout : stdout w1 = ["Error: /repo/ta-lib-git.tar.gz not found."])
    by (vm_compute; reflexivity).
  clearbody w1 r. subst run.
  rewrite (ubuntu_run_stops_at_src_failure (host := ubuntu_sim) "/repo" "0.6.0" EmptyString
             repo_world w1 r eq_refl Hsrc Hs).
  split; [reflexivity|]. cbn [fst stdout emit]. now rewrite Hout.
Defined.

Lemma package_deb_stages_witness :
  snd (package_deb (host := debian_cmake_fails) "/repo" "0.6.0" EmptyString stale_deb_world)
  = Ok bare_failure ∧
  stdout (fst (package_deb (host := debian_cmake_fails) "/repo" "0.6.0" EmptyString
                 stale_deb_world))
  = ["Error running CMake: Command returned non-zero exit status 1."].
Proof.
  destruct (package_deb_stages (host := debian_cmake_fails) "/repo" "0.6.0" EmptyString
              stale_deb_world eq_refl eq_refl eq_refl)
    as (w0 & _ & _ & _ & Hout & Hcmake & _).
  { vm_compute. reflexivity. }
  rewrite (Hcmake w0 "Command returned non-zero exit status 1." eq_refl).
  split; [reflexivity|]. cbn [fst stdout emit]. now rewrite Hout.
Defined.

Lemma package_src_tar_gz_stages_witness :
  stdout (fst (package_src_tar_gz (host := ubuntu_sim) "/repo" "0.6.0" EmptyString
                 repo_world))
  = ["Error: /repo/ta-lib-git.tar.gz not found."].
Proof.
  destruct (package_src_tar_gz_stages (host := ubuntu_sim) "/repo" "0.6.0" EmptyString
              repo_world eq_refl) as (w0 & Hfiles & _ & Hout & _ & _ & _ & Hmissing & _).
  rewrite (Hmissing w0 w0 w0 eq_refl eq_refl eq_refl).
  - cbn [fst stdout emit]. now rewrite Hout.
  - apply is_file_false. rewrite Hfiles.
    destruct (existsb _ _); [reflexivity|vm_compute; reflexivity].
Defined.

Lemma ubuntu_run_summary_witness :
  snd (package_all_linux (host := ubuntu_builder) "/repo" "0.6.0" EmptyString repo_world)
  = Ok tt.
Proof.
  set (run := package_src_tar_gz (host := ubuntu_builder) "/repo" "0.6.0" EmptyString
                (set_cwd "/repo" repo_world)).
  set (w1 := fst run).
  set (rs := match snd run with Ok r => r | _ => ∅ end).
  assert (Hsrc : run = (w1, Ok rs)) by (vm_compute; reflexivity).
  assert (Hss : rs !! "success" = Some (PBool true)) by (vm_compute; reflexivity).
  set (run2 := package_deb (host := ubuntu_builder) "/repo" "0.6.0" EmptyString w1).
  set (w2 := fst run2).
  set (rd := match snd run2 with Ok r => r | _ => ∅ end).
  assert (Hdeb : run2 = (w2, Ok rd)) by (vm_compute; reflexivity).
  assert (Hds : rd !! "success" = Some (PBool true)) by (vm_compute; reflexivity).
  clearbody w2 rd. subst run2. clearbody w1 rs. subst run.
  destruct (ubuntu_run_summary (host := ubuntu_builder) "/repo" "0.6.0" EmptyString repo_world
              w1 rs w2 rd eq_refl eq_refl eq_refl Hsrc Hss Hdeb Hds)
    as (se & sc & dn & de & dc & _ & _ & _ & _ & _ & Hall).
  now rewrite Hall.
Defined.

Lemma redhat_run_always_fails_witness :
  snd (package_all_linux (host := redhat_sim) "/repo" "0.6.0" EmptyString repo_world)
  = Exit 1.
Proof.
  now rewrite (redhat_run_always_fails (host := redhat_sim) "/repo" "0.6.0" EmptyString
                 repo_world eq_refl eq_refl eq_refl).
Defined.

Lemma staged_package_names_version_witness :
  ∃ w1, package_windows_zip_stage (host := windows_sim) "/repo" "0.6.0"
          (initial_result PublishZip "ta-lib-0.6.0-win64.zip") repo_world = (w1, Ok None) ∧
        data <$> files w1 !! "/repo/temp/ta-lib-0.6.0-win64/VERSION.txt"
        = Some (list_byte_of_string "0.6.0").
Proof.
  set (run := package_windows_zip_stage (host := windows_sim) "/repo" "0.6.0"
                (initial_result PublishZip "ta-lib-0.6.0-win64.zip") repo_world).
  set (w1 := fst run).
  assert (Hstage : run = (w1, Ok None)) by (vm_compute; reflexivity).
  clearbody w1. subst run. exists w1. split; [exact Hstage|].
  exact (staged_package_names_version (host := windows_sim) "/repo" "0.6.0" _ _ _ Hstage).
Defined.
